(* ===== verification/_CoqProject ===== *)
-Q . S2P
Spec2Rocq.v
JsString.v
JsObject.v
JsNumber.v
CsvParser.v
TableView.v
Sorting.v
Calendar.v
CsvExport.v
Dashboard.v
Feedback.v
Page.v
