(* ===== verification/Spec2Rocq.v ===== *)
(** * A verification development of the survey dashboard ([src/script.js])

    The program is one browser script.  On page load [loadSurveyData]
    fetches [survey.csv], [parseCSV] turns its text into records (plain
    objects from column name to string), and [renderDashboard] writes
    the statistics, the charts, the response table, the feedback panel and
    the insights.  The table ([setupTable], [renderTable],
    [renderPagination]) keeps its state in globals and reacts to the
    search box, the rating filter, the page buttons and the column headers
    ([sortTable]); [exportToCSV] writes the filtered rows back as CSV.

    ** Files, in dependency order

    - [Spec2Rocq.v] (this file): the prelude.  JavaScript completions
      ([completion]: a value or a thrown [exn] with its message) with the
      [let!] notation in [js_scope], [Array.prototype.slice] ([js_slice]),
      [Math.ceil] of the page count ([ceil_div]), [map]/[filter] with a
      callback that may throw
      ([c_map], [c_filter]), the hint databases [js] and [js_simpl], the
      tactics [case_ifs] and [zeval_consts], and the list lemmas the
      components share.
    - [JsString.v]: the string builtins ([trim], [toLowerCase],
      [includes], [endsWith], [join]) and the program's regular
      expressions ([/^\d+\|/], the quote strip, the quote-aware header
      split, the quote escaping of the export), on strings of Latin-1 code
      units.
    - [JsObject.v]: objects as insertion-ordered association lists with
      [o[k]], [o[k] = v] (the [__proto__] setter ignores a primitive),
      [Object.keys] (array indices first) and [Object.values]; the
      equivalence [≡] of objects and the [Proper] instances of the
      observations.
    - [JsNumber.v]: [ToNumber] (the literal's value rounded to the
      nearest double, [round_to_double]), [parseInt], the sign of a subtraction as
      [sort] reads it, the double quotient of two integers rounded to 53
      bits ([div_double]), [Math.round], [toFixed] and integer [toString]
      ([z_to_string] on the fuelled [digits_rev]); the bounds of the
      rounded quotient and the decimal digits of [z_to_string].
    - [CsvParser.v] (module [CsvParser]): [parseCSV], lines 2-31, step by
      step ([split_lines], [nonblank_lines], [parse_header], [scan],
      [parse_row]).
    - [TableView.v] (module [TableView]): the table's globals as the record
      [state], [renderTable] as the pure function [render], the handlers as
      the transitions of [step], sequences of them ([steps]), the states
      reachable from [setupTable] ([reachable]).  The reordering of [sortTable] is the class
      [TableSorter]: the handlers' theorems use only its permutation law.
    - [Sorting.v] (module [Sorting]): [getDate], the comparator of
      [sortTable] and [tableData.sort] as a stable insertion sort
      ([v8_sorter], the instance of [TableSorter]); [localeCompare] and the
      time zone offset are parameters.
    - [Calendar.v] (module [Calendar]): [toLocaleDateString('pt-BR',
      ...)] of the period line (line 87): the local day of a time value,
      its proleptic Gregorian date ([civil_from_days], the inverse of
      [Sorting.days_from_civil]) and ICU's pattern [dd/MM/y].
    - [CsvExport.v] (module [CsvExport]): [exportToCSV] up to the text it
      downloads.
    - [Dashboard.v] (module [Dashboard]): [getNumber] and the statistics of
      [renderDashboard], [renderAgeDistribution], [renderExpectationsChart]
      and [renderBarChart], with the texts of the period, age and
      expectations lines and of the age badges.
    - [Feedback.v] (module [Feedback]): [renderFeedbackAnalysis],
      [renderFeedbackList] and [renderInsights], with the HTML of the
      feedback items and of the four insight cards.
    - [Page.v] (module [Page]): [renderDashboard] as the sequence of its
      writes in a writer and exception monad [M], and [loadSurveyData]
      with its [try]/[catch] ([load_run]), the error HTML of the [catch]
      block ([error_html]) and the page it leaves.

    ** What the theorems show

    - Loading: the page ends with the error shown exactly when the fetch
      fails, the response is not [ok], the text is blank, or the header
      lacks the timestamp or the comment column
      ([Page.load_error_iff]); when only the comment column is missing the
      table is set up behind the error ([load_table_behind_error]), and
      the indicator shows V8's message of [.trim()] on [undefined]; a
      successful load writes every figure, starting with the response
      count and ending with the insights ([load_success_total]); a file
      with a header and no answer shows exactly the empty dashboard
      ([load_header_only]).
    - Parsing: the number of records, the quote-aware split, the [N|]
      prefix, trimmed keys, and the removal of every quote
      ([CsvParser.parseCSV_row_count] and the lemmas after it).
    - The table: invariants of every reachable state (the current page is
      a valid button, [tableData] is a permutation of the records, a
      non-empty filter shows a non-empty page), the partition of the rows
      into pages, the sort order of numeric columns and of the date column
      ([Sorting.sort_numeric_column], [Sorting.sort_date_column]), the
      toggle of the sort direction, and a comparator cycle on mixed age
      answers for any collation that puts a non-numeric answer between two
      numbers ([Sorting.age_comparator_cycle]).  For a
      consistent comparator the stable insertion sort is the only stable
      order ([Sorting.stable_sort_unique]), so it is the order V8's
      TimSort produces.  Liveness:
      from every reachable state three actions (an empty search, no
      rating, one page button) bring any loaded response on screen
      ([TableView.response_reachable_on_screen]).
    - Dates: [civil_from_days] inverts [days_from_civil] on every valid
      date ([Calendar.civil_from_days_days_from_civil]), so a timestamp
      [YYYY/MM/DD] is shown in the period line as [DD/MM/YYYY]
      ([Calendar.getDate_display]); an impossible day such as February 30
      is carried into the next month.
    - The export: the round trip through [parseCSV] for safe tables with
      no search and no filter ([CsvExport.export_parse_roundtrip]); the
      export keeps every row the table shows, and the rows it adds are
      exactly those whose search hit lies outside the seven table columns
      ([CsvExport.export_hidden_rows]); a key containing a comma never
      survives the unquoted header ([CsvExport.export_header_splits_key]).
    - The statistics: bounds of [getNumber], of the averages and of the
      satisfaction rate after double rounding, the age buckets in
      [Object.entries] order, the bar counts and heights, the period of the
      sorted dates, and the expectation counts, which are 0 for every
      parsed CSV because the code reads a key with a trailing space.
    - The feedback: the ordering of the counters, the overlap of positive
      comments and suggestions, and the agreement of the insight card with
      the panel.

    ** Bounds and choices

    - Numbers: [ToNumber] of a table cell rounds the literal's value to a
      double ([JsNumber.round_to_double]); [parseInt] is read exactly, which
      is the double it returns since [getNumber] keeps at most three digits
      and the feedback compares with [5].  [div_double] rounds the
      quotient of two integers to 53 significant bits, ties to even; it is
      defined for a positive divisor only (its [0/0] is [0], where
      JavaScript gives [NaN]), and every call site guards the divisor: the
      averages and the rate by the [length] test, the expectation widths
      by [total], the bars by [Math.max(...counts, 1)].  The bound lemmas
      need the quotient below [2^52], which holds for the percentages (at
      most 100) and the averages (at most 999).
    - [tableData.sort] is V8's TimSort, a stable sort; the model is a
      stable insertion sort ([Sorting.stable_sort]).  For a comparator that
      is a total preorder on the rows both give the same array
      ([Sorting.stable_sort_unique]); for the inconsistent comparator of
      mixed age answers ECMA-262 leaves the order implementation-defined,
      and the theorems about the sort assume a consistent column.
    - [digits_rev] recurses on fuel [1 + log2 n], which is at least the
      number of decimal digits of [n] since [n < 2^(1 + log2 n) <=
      10^(1 + log2 n)]: [JsNumber.z_to_string_fuel_enough] shows that the
      recursion reaches its base case within it, and every other
      recursion is structural.
    - The calendar round trip is proved for one era of 400 years (146097
      days), which both conversions repeat: [yoe_of] is monotone, so the
      year of each day is checked on the first and the last day of each of
      the 400 years ([year_check]), and the month and the day on the 366
      days of a year ([month_check]), both by evaluation.
    - Dates are time values at local midnight with a fixed offset
      ([10800000] ms for GMT-3 in the examples).
    - The exceptions carry V8's messages ([undefined_read]; Chrome's
      ["Failed to fetch"] for a network failure); other engines word them
      differently, and only the text of the indicator depends on it.

    ** Not modelled

    - The DOM itself: element creation and the tree the HTML strings
      parse to; the model keeps the texts and the HTML written
      ([Page.widget], [TableView.view], [Feedback.insights_html]).
    - The decimal string of a non-integer double: the CSS widths and
      heights of the charts are kept as the values they are computed as
      ([Dashboard.expectation_widths], [Dashboard.bar_heights]).
    - The ICU collation of [localeCompare] (a parameter), the eras of
      years before 1 in [toLocaleDateString] (no date [getDate] builds
      has one), daylight saving time (the offset is fixed), and the Blob,
      object URL and anchor click of the download.
    - The [DOMContentLoaded] listener of line 368, which only calls
      [loadSurveyData]. *)

From stdpp Require Import base list sets strings.
From Stdlib Require Import ZArith Lia.

(** ** Prelude: the JavaScript run-time values shared by every component *)

Declare Scope js_scope.
Delimit Scope js_scope with js.

(** Exceptions that the modelled code can raise, with their [message].
    [TypeError] is what the engine throws when a method is called on
    [undefined] (for instance [lines[0].replace] on an empty line array)
    and what [fetch] rejects with on a network failure; [Error msg] is a
    [new Error(msg)] thrown by the program itself. *)
Inductive exn :=
  | TypeError (msg : string)
  | Error (msg : string).

(** [undefined.p(...)]: V8's message names the property read. *)
Definition undefined_read (p : string) : exn :=
  TypeError ("Cannot read properties of undefined (reading '" +:+ p +:+ "')").

(** [e.message || e]: the message, or [String(e)] (the name) when the
    message is empty. *)
Definition message_or_name (e : exn) : string :=
  match e with
  | TypeError m => if String.eqb m EmptyString then "TypeError" else m
  | Error m => if String.eqb m EmptyString then "Error" else m
  end.

(** A completion: the result of a JavaScript computation that either
    returns normally or throws. *)
Inductive completion (A : Type) :=
  | Normal (a : A)
  | Throw (e : exn).
Arguments Normal {A} a.
Arguments Throw {A} e.

Definition cbind {A B} (c : completion A) (k : A -> completion B) : completion B :=
  match c with
  | Normal a => k a
  | Throw e => Throw e
  end.

Notation "'let!' x := c 'in' k" := (cbind c (fun x => k))
  (at level 100, x name, c at level 99, k at level 100) : js_scope.

(** [Array.prototype.slice(start, end)] with its clamping of negative and
    out-of-range arguments (ECMA-262, 23.1.3.28). *)
Definition rel_index (len i : Z) : Z :=
  if (i <? 0)%Z then Z.max (len + i) 0 else Z.min i len.

Definition js_slice {A} (l : list A) (start stop : Z) : list A :=
  let len := Z.of_nat (length l) in
  let k := rel_index len start in
  let fin := rel_index len stop in
  take (Z.to_nat (fin - k)) (drop (Z.to_nat k) l).

(** [Math.ceil(a / b)] on non-negative integers, as the page count uses it. *)
Definition ceil_div (a b : Z) : Z := ((a + b - 1) / b)%Z.

(** [Array.prototype.map] and [filter] with a callback that may throw: the
    elements are visited from left to right and the first exception ends
    the call. *)
Fixpoint c_map {A B} (f : A -> completion B) (l : list A) : completion (list B) :=
  match l with
  | [] => Normal []
  | x :: r => cbind (f x) (fun y => cbind (c_map f r) (fun ys => Normal (y :: ys)))
  end.

Fixpoint c_filter {A} (p : A -> completion bool) (l : list A) : completion (list A) :=
  match l with
  | [] => Normal []
  | x :: r => cbind (p x) (fun b => cbind (c_filter p r) (fun ys => Normal (if b then x :: ys else ys)))
  end.

(** ** Automation shared by the components *)

Create HintDb js discriminated.
Create Rewrite HintDb js_simpl.

(** Case analysis on the boolean tests of a goal, in the style the modelled
    code branches ([if (x) ... else ...]). *)
Ltac case_ifs :=
  repeat match goal with
  | |- context [if ?b then _ else _] =>
      let E := fresh "E" in destruct b eqn:E
  end.

(** Evaluates the closed [a mod b] and [a / b] of the goal, which [lia]
    does not reduce and stdpp keeps [simpl] from unfolding. *)
Ltac zeval_consts :=
  repeat match goal with
  | |- context [(?a mod ?b)%Z] =>
      let v := eval vm_compute in (a mod b)%Z in
      lazymatch v with Z0 => idtac | Zpos _ => idtac | Zneg _ => idtac end;
      change (a mod b)%Z with v
  | |- context [(?a / ?b)%Z] =>
      let v := eval vm_compute in (a / b)%Z in
      lazymatch v with Z0 => idtac | Zpos _ => idtac | Zneg _ => idtac end;
      change (a / b)%Z with v
  end.

Lemma cbind_normal {A B} (a : A) (k : A -> completion B) :
  cbind (Normal a) k = k a.
Proof. reflexivity. Qed.

Lemma cbind_throw {A B} e (k : A -> completion B) :
  cbind (Throw e) k = Throw e.
Proof. reflexivity. Qed.

#[export] Hint Rewrite @cbind_normal @cbind_throw : js_simpl.

(** [slice] on the non-negative, in-range arguments the table uses. *)
Lemma js_slice_nat {A} (l : list A) (s e : nat) :
  s <= e ->
  js_slice l (Z.of_nat s) (Z.of_nat e) = take (e - s) (drop s l).
Proof.
  intros Hse. unfold js_slice, rel_index. cbv zeta.
  rewrite !(proj2 (Z.ltb_ge _ _)) by lia.
  destruct (decide (s <= length l)) as [Hs|Hs].
  - rewrite (Z.min_l (Z.of_nat s)) by lia.
    destruct (decide (e <= length l)) as [He|He].
    + rewrite Z.min_l by lia. rewrite Nat2Z.id. f_equal. lia.
    + rewrite Z.min_r by lia. rewrite Nat2Z.id.
      rewrite !take_ge; rewrite ?length_drop; try done; lia.
  - rewrite !Z.min_r by lia. rewrite !drop_ge by lia. by rewrite !take_nil.
Qed.

Lemma filter_all_true {A} (f : A -> bool) (l : list A) :
  Forall (fun x => f x = true) l -> List.filter f l = l.
Proof. induction 1 as [|x l Hx _ IH]; simpl; [done|]. by rewrite Hx, IH. Qed.

Lemma filter_all_false {A} (f : A -> bool) (l : list A) :
  Forall (fun x => f x = false) l -> List.filter f l = [].
Proof. induction 1 as [|x l Hx _ IH]; simpl; [done|]. by rewrite Hx, IH. Qed.

#[export] Hint Resolve filter_all_true filter_all_false : js.

(** [Array.prototype.some] is false exactly when the callback is false on every element. *)
Lemma existsb_false_Forall {A} (f : A -> bool) (l : list A) :
  existsb f l = false <-> Forall (fun x => f x = false) l.
Proof.
  induction l as [|x l IH]; simpl; [by split|].
  rewrite orb_false_iff, Forall_cons, IH. done.
Qed.

(** A callback that returns on every element makes [c_map] return the map. *)
Lemma c_map_total {A B} (f : A -> completion B) (g : A -> B) (l : list A) :
  (forall x, x ∈ l -> f x = Normal (g x)) -> c_map f l = Normal (map g l).
Proof.
  induction l as [|x l IH]; intros Hf; simpl; [done|].
  rewrite Hf by set_solver. simpl. rewrite IH by set_solver. done.
Qed.

(** A [c_map] that throws threw on one of the elements. *)
Lemma c_map_throw_inv {A B} (f : A -> completion B) (l : list A) e :
  c_map f l = Throw e -> exists x, x ∈ l /\ f x = Throw e.
Proof.
  induction l as [|x l IH]; simpl; [done|].
  destruct (f x) as [y|e'] eqn:Hx; simpl; [|intros [= ->]; exists x; set_solver].
  destruct (c_map f l) eqn:Hl; simpl; [done|]. intros [= ->].
  destruct IH as (x' & ? & ?); [done|]. exists x'. set_solver.
Qed.

(** A [c_map] that returns returned on every element. *)
Lemma c_map_normal_inv {A B} (f : A -> completion B) (l : list A) ys :
  c_map f l = Normal ys -> Forall2 (fun x y => f x = Normal y) l ys.
Proof.
  revert ys. induction l as [|x l IH]; intros ys; simpl; [by intros [= <-]|].
  destruct (f x) eqn:Hx; simpl; [|done]. destruct (c_map f l) eqn:Hl; simpl; [|done].
  intros [= <-]. constructor; [done|]. by apply IH.
Qed.

Lemma c_filter_total {A} (p : A -> completion bool) (q : A -> bool) (l : list A) :
  (forall x, x ∈ l -> p x = Normal (q x)) -> c_filter p l = Normal (List.filter q l).
Proof.
  induction l as [|x l IH]; intros Hp; simpl; [done|].
  rewrite Hp by set_solver. simpl. rewrite IH by set_solver. simpl. by destruct (q x).
Qed.

Lemma c_filter_throw_inv {A} (p : A -> completion bool) (l : list A) e :
  c_filter p l = Throw e -> exists x, x ∈ l /\ p x = Throw e.
Proof.
  induction l as [|x l IH]; simpl; [done|].
  destruct (p x) as [b|e'] eqn:Hx; simpl; [|intros [= ->]; exists x; set_solver].
  destruct (c_filter p l) eqn:Hl; simpl; [done|]. intros [= ->].
  destruct IH as (x' & ? & ?); [done|]. exists x'. set_solver.
Qed.

Lemma c_map_throw {A B} (f : A -> completion B) (l : list A) x :
  x ∈ l -> (exists e, f x = Throw e) -> exists e, c_map f l = Throw e.
Proof.
  intros Hx He. destruct (c_map f l) as [ys|e] eqn:Hl; [|by eauto].
  apply c_map_normal_inv in Hl. destruct He as [e He].
  apply list_elem_of_lookup in Hx as [i Hi].
  destruct (Forall2_lookup_l _ _ _ _ _ Hl Hi) as (y & _ & Hy). congruence.
Qed.

(** An [omap] whose function succeeds on every element is a [map]. *)
Lemma omap_some_map {A B} (f : A -> option B) (g : A -> B) (l : list A) :
  (forall x, x ∈ l -> f x = Some (g x)) -> omap f l = map g l.
Proof.
  induction l as [|x l IH]; intros Hf; simpl; [done|].
  rewrite Hf by set_solver. f_equal. apply IH. set_solver.
Qed.

Lemma c_map_normal_elem {A B} (f : A -> completion B) (l : list A) ys x :
  c_map f l = Normal ys -> x ∈ l -> exists y, f x = Normal y.
Proof.
  intros Hl%c_map_normal_inv Hx. apply list_elem_of_lookup in Hx as [i Hi].
  destruct (Forall2_lookup_l _ _ _ _ _ Hl Hi) as (y & _ & Hy). eauto.
Qed.
