(* ===== verification/JsString.v ===== *)
(** * JsString: the JavaScript string primitives [src/script.js] relies on

    A JavaScript string is a sequence of UTF-16 code units.  The model
    represents it as a Rocq [string] whose characters are the code units
    below 256 (ISO-8859-1), which covers the Portuguese survey text
    ("você", "horário", "Sugestão").  On that range the engine functions
    used by the program have the closed forms below:
    - [String.prototype.trim] removes WhiteSpace and LineTerminator code
      units: 9-13, 32 and 160 (NBSP);
    - [String.prototype.toLowerCase] maps A-Z and À-Þ (except ×) up by 32;
    - the three regular-expression replacements of the program
      ([/^\d+\|/], [/(^\x22|\x22$)/g], [/\x22/g]) and the header split
      [/,(?=(?:[^\x22]*\x22[^\x22]*\x22)*[^\x22]*$)/] are written as the scans that the
      regular-expression semantics amount to. *)

From stdpp Require Import base list strings.
From Stdlib Require Import Ascii String ZArith Lia.
From S2P Require Import Spec2Rocq.

Module JsString.

Definition quote_char : ascii := "034"%char.
Definition comma_char : ascii := ","%char.
Definition pipe_char : ascii := "|"%char.
Definition lf_char : ascii := "010"%char.
Definition cr_char : ascii := "013"%char.

Definition char_is (c d : ascii) : bool := Ascii.eqb c d.

(** WhiteSpace or LineTerminator (ECMA-262 12.2, 12.3) below 256. *)
Definition is_js_space (c : ascii) : bool :=
  let n := nat_of_ascii c in
  ((9 <=? n) && (n <=? 13)) || (n =? 32) || (n =? 160).

(** [\d] of a regular expression: the ASCII digits. *)
Definition is_digit (c : ascii) : bool :=
  let n := nat_of_ascii c in (48 <=? n) && (n <=? 57).

Fixpoint all_digits (s : string) : bool :=
  match s with
  | EmptyString => true
  | String c r => is_digit c && all_digits r
  end.

(** ** [String.prototype.trim] *)

Fixpoint trim_start (s : string) : string :=
  match s with
  | EmptyString => EmptyString
  | String c r => if is_js_space c then trim_start r else s
  end.

Fixpoint trim_end (s : string) : string :=
  match s with
  | EmptyString => EmptyString
  | String c r =>
      let r' := trim_end r in
      if is_js_space c && String.eqb r' EmptyString then EmptyString else String c r'
  end.

Definition trim (s : string) : string := trim_end (trim_start s).

(** ** [String.prototype.toLowerCase] *)

Definition lower_char (c : ascii) : ascii :=
  let n := nat_of_ascii c in
  if ((65 <=? n) && (n <=? 90)) || ((192 <=? n) && (n <=? 222) && negb (n =? 215))
  then ascii_of_nat (n + 32) else c.

Fixpoint to_lower (s : string) : string :=
  match s with
  | EmptyString => EmptyString
  | String c r => String (lower_char c) (to_lower r)
  end.

(** ** [String.prototype.includes] and [endsWith] *)

Fixpoint includes (s t : string) : bool :=
  String.prefix t s ||
  match s with
  | EmptyString => false
  | String _ r => includes r t
  end.

Fixpoint last_char (s : string) : option ascii :=
  match s with
  | EmptyString => None
  | String c EmptyString => Some c
  | String _ r => last_char r
  end.

Definition ends_with_char (s : string) (c : ascii) : bool :=
  match last_char s with Some d => char_is d c | None => false end.

(** ** [Array.prototype.join(sep)] on an array of strings *)

Fixpoint join (sep : string) (l : list string) : string :=
  match l with
  | [] => EmptyString
  | [x] => x
  | x :: r => x +:+ sep +:+ join sep r
  end.

(** ** The regular-expression replacements of [parseCSV] and [exportToCSV] *)

(** [s.replace(/^\d+\|/, '')]: after one or more digits at the start, a pipe;
    [\d+] is greedy and [|] is not a digit, so the match is unique. *)
Fixpoint after_digits_pipe (s : string) : option string :=
  match s with
  | EmptyString => None
  | String c r =>
      if is_digit c then after_digits_pipe r
      else if char_is c pipe_char then Some r else None
  end.

Definition strip_row_prefix (s : string) : string :=
  match s with
  | String c r =>
      if is_digit c then
        match after_digits_pipe r with Some rest => rest | None => s end
      else s
  | EmptyString => s
  end.

(** [s.replace(/(^\x22|\x22$)/g, '')]: the global replacement removes a quote at
    position 0 and then, searching from the next position, a quote that is
    the last code unit of what remains. *)
Definition drop_first_quote (s : string) : string :=
  match s with
  | String c r => if char_is c quote_char then r else s
  | EmptyString => s
  end.

Fixpoint drop_last_quote (s : string) : string :=
  match s with
  | EmptyString => EmptyString
  | String c EmptyString => if char_is c quote_char then EmptyString else s
  | String c r => String c (drop_last_quote r)
  end.

Definition strip_quotes (s : string) : string := drop_last_quote (drop_first_quote s).

Fixpoint count_char (c : ascii) (s : string) : nat :=
  match s with
  | EmptyString => 0
  | String d r => (if char_is d c then 1 else 0) + count_char c r
  end.

(** ['\x22' + s + '\x22']: a value wrapped in double quotes. *)
Definition comma_sep : string := String comma_char EmptyString.

Definition quote_wrap (s : string) : string :=
  String quote_char (s +:+ String quote_char EmptyString).

(** [s.replace(/\x22/g, '\x22\x22')]: every quote doubled *)
Fixpoint escape_quotes (s : string) : string :=
  match s with
  | EmptyString => EmptyString
  | String c r =>
      if char_is c quote_char then String quote_char (String quote_char (escape_quotes r))
      else String c (escape_quotes r)
  end.

Fixpoint has_char (c : ascii) (s : string) : bool :=
  match s with
  | EmptyString => false
  | String d r => char_is d c || has_char c r
  end.

(** Prepend a code unit to the first piece of a split in progress. *)
Definition cons_first (c : ascii) (parts : list string) : list string :=
  match parts with
  | p :: ps => String c p :: ps
  | [] => [String c EmptyString]
  end.

(** [s.split(/,(?=(?:[^\x22]*\x22[^\x22]*\x22)*[^\x22]*$)/)]: the split matcher is tried
    at every position; it matches a comma exactly when the rest of the
    string after it holds an even number of double quotes, which is the
    language of the look-ahead. *)
Fixpoint split_even_commas (s : string) : list string :=
  match s with
  | EmptyString => [EmptyString]
  | String c r =>
      let parts := split_even_commas r in
      if char_is c comma_char && Nat.even (count_char quote_char r)
      then EmptyString :: parts
      else cons_first c parts
  end.

(** ** Lemmas *)

Lemma sapp_cons (c : ascii) (r s : string) : String c r +:+ s = String c (r +:+ s).
Proof. reflexivity. Qed.

Lemma sapp_nil_l (s : string) : EmptyString +:+ s = s.
Proof. reflexivity. Qed.

Lemma sapp_nil_r (s : string) : s +:+ EmptyString = s.
Proof. induction s as [|c s IH]; [done|]. by rewrite sapp_cons, IH. Qed.

Lemma sapp_assoc (a b c : string) : (a +:+ b) +:+ c = a +:+ (b +:+ c).
Proof. induction a as [|d a IH]; [done|]. by rewrite !sapp_cons, IH. Qed.

#[export] Hint Rewrite sapp_cons sapp_nil_l sapp_nil_r sapp_assoc : js_simpl.

Lemma char_is_spec (c d : ascii) : reflect (c = d) (char_is c d).
Proof. apply Ascii.eqb_spec. Qed.

Lemma char_is_refl (c : ascii) : char_is c c = true.
Proof. apply Ascii.eqb_refl. Qed.

(** The code units the scans of the program distinguish are distinct. *)
Lemma comma_not_quote : char_is comma_char quote_char = false.
Proof. reflexivity. Qed.
Lemma pipe_not_digit : is_digit pipe_char = false.
Proof. reflexivity. Qed.
Lemma quote_not_digit : is_digit quote_char = false.
Proof. reflexivity. Qed.
Lemma cr_not_lf : char_is cr_char lf_char = false.
Proof. reflexivity. Qed.

#[export] Hint Rewrite char_is_refl comma_not_quote pipe_not_digit quote_not_digit cr_not_lf
  : js_simpl.

Lemma has_char_app (c : ascii) (a b : string) :
  has_char c (a +:+ b) = has_char c a || has_char c b.
Proof.
  induction a as [|d a IH]; [done|]. rewrite sapp_cons. simpl. by rewrite IH, orb_assoc.
Qed.

Lemma count_char_absent (c : ascii) (s : string) :
  has_char c s = false -> count_char c s = 0.
Proof.
  induction s as [|d s IH]; simpl; [done|].
  intros [Hd Hs]%orb_false_iff. by rewrite Hd, IH.
Qed.

(** A string without quotes is left alone by both quote rewritings. *)
Lemma escape_quotes_id (s : string) :
  has_char quote_char s = false -> escape_quotes s = s.
Proof.
  induction s as [|d s IH]; simpl; [done|].
  intros [Hd Hs]%orb_false_iff. by rewrite Hd, IH.
Qed.

Lemma drop_last_quote_id (s : string) :
  has_char quote_char s = false -> drop_last_quote s = s.
Proof.
  induction s as [|d s IH]; [done|].
  intros [Hd Hs]%orb_false_iff.
  destruct s as [|e s]; [simpl; by rewrite Hd|].
  change (drop_last_quote (String d (String e s)))
    with (String d (drop_last_quote (String e s))).
  by rewrite IH.
Qed.

Lemma strip_quotes_id (s : string) :
  has_char quote_char s = false -> strip_quotes s = s.
Proof.
  intros H. unfold strip_quotes.
  destruct s as [|d s]; [done|].
  pose proof H as H'. change (char_is d quote_char || has_char quote_char s = false) in H'.
  apply orb_false_iff in H' as [Hd _].
  cbn [drop_first_quote]. rewrite Hd. by apply drop_last_quote_id.
Qed.

(** [trim] never leaves a WhiteSpace code unit at the end. *)
Lemma trim_end_last (s : string) (c : ascii) :
  last_char (trim_end s) = Some c -> is_js_space c = false.
Proof.
  induction s as [|d s IH]; simpl; [done|]. revert IH.
  destruct (is_js_space d) eqn:Hd, (trim_end s) as [|e r]; simpl; intros IH;
    try done; try exact IH.
  by intros [= <-].
Qed.

Lemma trim_last (s : string) (c : ascii) :
  last_char (trim s) = Some c -> is_js_space c = false.
Proof. apply trim_end_last. Qed.

Lemma trim_not_ends_with_space (s : string) (c : ascii) :
  is_js_space c = true -> ends_with_char (trim s) c = false.
Proof.
  intros Hc. unfold ends_with_char.
  destruct (last_char (trim s)) as [d|] eqn:Hl; [|done].
  apply trim_last in Hl. destruct (char_is_spec d c); congruence.
Qed.

Lemma trim_end_first (s : string) (c : ascii) (r : string) :
  trim_end s = String c r -> exists r', s = String c r'.
Proof.
  destruct s as [|d s]; simpl; [done|].
  case_ifs; [done|]. intros [= -> _]. eauto.
Qed.

Lemma trim_start_trim_end (s : string) :
  trim_start (trim_end (trim_start s)) = trim_end (trim_start s).
Proof.
  induction s as [|d s IH]; simpl; [done|].
  destruct (is_js_space d) eqn:Hd; [done|].
  simpl. rewrite Hd. simpl. case_ifs; simpl; rewrite ?Hd; done.
Qed.

Lemma trim_end_idem (s : string) : trim_end (trim_end s) = trim_end s.
Proof.
  induction s as [|d s IH]; simpl; [done|].
  destruct (is_js_space d) eqn:Hd, (String.eqb_spec (trim_end s) EmptyString) as [He|He];
    simpl; rewrite ?IH, ?Hd, ?He; simpl; try done.
  destruct (String.eqb_spec (trim_end s) EmptyString); congruence.
Qed.

(** The second [header.map(h => h.trim())] of [parseCSV] changes nothing. *)
Lemma trim_idem (s : string) : trim (trim s) = trim s.
Proof. unfold trim. by rewrite trim_start_trim_end, trim_end_idem. Qed.

(** The header split always yields at least one token. *)
Lemma split_even_commas_nonnil (s : string) : split_even_commas s <> [].
Proof. destruct s as [|c s]; simpl; [done|]. case_ifs; [done|]. by destruct (split_even_commas s). Qed.

Lemma split_even_commas_app (a s : string) :
  has_char comma_char a = false ->
  split_even_commas (a +:+ s) =
    match split_even_commas s with
    | p :: ps => (a +:+ p) :: ps
    | [] => [a]
    end.
Proof.
  induction a as [|d a IH]; intros Ha.
  - rewrite sapp_nil_l. destruct (split_even_commas s) eqn:E; [|done].
    by apply split_even_commas_nonnil in E.
  - change (char_is d comma_char || has_char comma_char a = false) in Ha.
    apply orb_false_iff in Ha as [Hd Ha].
    rewrite sapp_cons. cbn [split_even_commas]. rewrite Hd, (IH Ha). simpl.
    by destruct (split_even_commas s).
Qed.

Lemma join_cons (sep x : string) (xs : list string) :
  join sep (x :: xs) = match xs with [] => x | _ => x +:+ sep +:+ join sep xs end.
Proof. by destruct xs. Qed.

Lemma has_char_join (c : ascii) (sep : string) (l : list string) :
  has_char c sep = false -> Forall (fun k => has_char c k = false) l ->
  has_char c (join sep l) = false.
Proof.
  intros Hsep Hl. induction Hl as [|x l Hx Hl IH]; [done|].
  destruct l as [|y l]; [done|].
  change (join sep (x :: y :: l)) with (x +:+ sep +:+ join sep (y :: l)).
  by rewrite !has_char_app, Hx, Hsep, IH.
Qed.

Lemma has_char_join_true (c : ascii) (sep : string) (l : list string) (k : string) :
  k ∈ l -> has_char c k = true -> has_char c (join sep l) = true.
Proof.
  intros Hk Hc. induction l as [|x l IH]; [by apply elem_of_nil in Hk|].
  rewrite join_cons. apply elem_of_cons in Hk as [->|Hk].
  - destruct l; [done|]. by rewrite !has_char_app, Hc.
  - destruct l as [|y l]; [by apply elem_of_nil in Hk|]. by rewrite !has_char_app, IH, !orb_true_r.
Qed.

(** Splitting a quote-free, comma-free join at its commas gives the pieces back. *)
Lemma split_even_commas_join (ks : list string) :
  ks <> [] ->
  Forall (fun k => has_char comma_char k = false /\ has_char quote_char k = false) ks ->
  split_even_commas (join "," ks) = ks.
Proof.
  induction ks as [|k [|k' ks] IH]; intros Hne Hks; [done| |].
  - inversion Hks as [|? ? [Hk _] _]; subst.
    cbn [join]. rewrite <- (sapp_nil_r k) at 1.
    rewrite split_even_commas_app by done. cbn. by rewrite sapp_nil_r.
  - inversion Hks as [|? ? [Hk Hq] Hrest]; subst.
    change (join "," (k :: k' :: ks)) with (k +:+ "," +:+ join "," (k' :: ks)).
    rewrite split_even_commas_app by done. rewrite sapp_cons, sapp_nil_l.
    cbn [split_even_commas]. rewrite count_char_absent.
    + rewrite IH by done. simpl. by rewrite sapp_nil_r.
    + apply has_char_join; [done|].
      eapply Forall_impl; [exact Hrest|]. by intros x [_ Hx].
Qed.


Lemma trim_start_length (s : string) : String.length (trim_start s) <= String.length s.
Proof. induction s as [|c s IH]; simpl; [lia|]. destruct (is_js_space c); simpl; lia. Qed.

Lemma trim_end_length (s : string) : String.length (trim_end s) <= String.length s.
Proof.
  induction s as [|c s IH]; simpl; [lia|].
  destruct (is_js_space c && String.eqb (trim_end s) EmptyString); simpl; lia.
Qed.

(** A trimmed, non-empty string starts with a code unit that is not white space. *)
Lemma trimmed_head (k : string) :
  trim k = k -> k <> EmptyString -> exists c r, k = String c r /\ is_js_space c = false.
Proof.
  intros Hk Hne. destruct k as [|c r]; [done|]. exists c, r. split; [done|].
  destruct (is_js_space c) eqn:Hc; [|done]. exfalso.
  assert (String.length (trim (String c r)) <= String.length r).
  { unfold trim. simpl. rewrite Hc.
    pose proof (trim_end_length (trim_start r)). pose proof (trim_start_length r). lia. }
  rewrite Hk in H. simpl in H. lia.
Qed.

(** A string starting with a code unit that is not white space is not blank. *)
Lemma trim_head_nonblank (c : ascii) (r : string) :
  is_js_space c = false -> trim (String c r) <> EmptyString.
Proof. intros Hc. unfold trim. simpl. rewrite Hc. simpl. rewrite Hc. simpl. done. Qed.

Lemma has_char_quote_wrap (c : ascii) (v : string) :
  char_is quote_char c = false -> has_char c (quote_wrap v) = has_char c v.
Proof.
  intros Hq. unfold quote_wrap. cbn [has_char]. rewrite Hq, has_char_app. cbn [has_char orb].
  rewrite Hq. cbn [orb]. by rewrite orb_false_r.
Qed.

(** ** Code units that the header cleaning cannot introduce *)

Lemma has_char_cons_false (c d : ascii) (r : string) :
  has_char c (String d r) = false -> char_is d c = false /\ has_char c r = false.
Proof. apply orb_false_iff. Qed.

Lemma has_char_trim_start (c : ascii) (s : string) :
  has_char c s = false -> has_char c (trim_start s) = false.
Proof.
  induction s as [|d r IH]; intros Hs; [done|]. simpl.
  destruct (is_js_space d); [|done]. by apply IH, (has_char_cons_false c d).
Qed.

Lemma has_char_trim_end (c : ascii) (s : string) :
  has_char c s = false -> has_char c (trim_end s) = false.
Proof.
  induction s as [|d r IH]; intros Hs; [done|].
  apply has_char_cons_false in Hs as [Hd Hr]. simpl.
  case_ifs; [done|]. simpl. by rewrite Hd, IH.
Qed.

Lemma has_char_trim (c : ascii) (s : string) :
  has_char c s = false -> has_char c (trim s) = false.
Proof. intros Hs. by apply has_char_trim_end, has_char_trim_start. Qed.

Lemma has_char_strip_quotes (c : ascii) (s : string) :
  has_char c s = false -> has_char c (strip_quotes s) = false.
Proof.
  unfold strip_quotes. intros Hs.
  assert (has_char c (drop_first_quote s) = false) as H1.
  { destruct s as [|d r]; [done|]. simpl. case_ifs; [|done]. by apply has_char_cons_false in Hs as [_ ?]. }
  clear Hs. revert H1. generalize (drop_first_quote s) as t.
  induction t as [|d [|d' r] IH]; intros Ht; [done| |].
  - simpl. by case_ifs.
  - apply has_char_cons_false in Ht as [Hd Hr].
    change (drop_last_quote (String d (String d' r))) with (String d (drop_last_quote (String d' r))).
    simpl. rewrite Hd. exact (IH Hr).
Qed.

Lemma has_char_after_digits_pipe (c : ascii) (s t : string) :
  after_digits_pipe s = Some t -> has_char c s = false -> has_char c t = false.
Proof.
  revert t. induction s as [|d r IH]; intros t Ht Hs; [done|].
  apply has_char_cons_false in Hs as [_ Hr]. simpl in Ht.
  destruct (is_digit d); [by apply IH|]. destruct (char_is d pipe_char); [|done]. by injection Ht as <-.
Qed.

Lemma has_char_strip_row_prefix (c : ascii) (s : string) :
  has_char c s = false -> has_char c (strip_row_prefix s) = false.
Proof.
  intros Hs. destruct s as [|d r]; [done|]. simpl.
  destruct (is_digit d); [|done]. destruct (after_digits_pipe r) as [t|] eqn:E; [|done].
  apply has_char_cons_false in Hs as [_ Hr]. exact (has_char_after_digits_pipe c r t E Hr).
Qed.

(** Without quotes, every comma is a separator: no piece keeps one. *)
Lemma split_even_commas_no_comma (s : string) :
  has_char quote_char s = false -> Forall (fun p => has_char comma_char p = false) (split_even_commas s).
Proof.
  induction s as [|d r IH]; intros Hs; [by repeat constructor|].
  apply has_char_cons_false in Hs as [_ Hr]. cbn [split_even_commas].
  rewrite (count_char_absent _ _ Hr), andb_true_r. specialize (IH Hr).
  destruct (char_is d comma_char) eqn:Hd; [by constructor|].
  destruct (split_even_commas r) as [|p ps]; simpl.
  - constructor; [|done]. simpl. by rewrite Hd.
  - inversion IH; subst. constructor; [|done]. simpl. by rewrite Hd.
Qed.

(** A string holding a code unit that is not white space is not blank. *)
Lemma trim_end_blank (c : ascii) (s : string) :
  trim_end s = EmptyString -> has_char c s = true -> is_js_space c = true.
Proof.
  induction s as [|d r IH]; intros Hs Hc; [done|]. simpl in Hs.
  destruct (is_js_space d) eqn:Hd, (String.eqb_spec (trim_end r) EmptyString) as [Hr|]; try done.
  cbn [has_char] in Hc. apply orb_true_iff in Hc as [Hc|Hc]; [|by apply IH].
  by apply Ascii.eqb_eq in Hc as ->.
Qed.

Lemma has_char_trim_start_true (c : ascii) (s : string) :
  is_js_space c = false -> has_char c s = true -> has_char c (trim_start s) = true.
Proof.
  intros Hsp. induction s as [|d r IH]; intros Hs; [done|]. simpl.
  destruct (is_js_space d) eqn:Hd; [|done]. apply IH.
  cbn [has_char] in Hs. apply orb_true_iff in Hs as [Hs|]; [|done].
  apply Ascii.eqb_eq in Hs as ->. congruence.
Qed.

Lemma trim_nonblank_char (c : ascii) (s : string) :
  is_js_space c = false -> has_char c s = true -> trim s <> EmptyString.
Proof.
  intros Hsp Hs Ht. unfold trim in Ht.
  pose proof (trim_end_blank c _ Ht (has_char_trim_start_true c s Hsp Hs)). congruence.
Qed.

End JsString.
