(* ===== verification/JsObject.v ===== *)
(** * JsObject: the plain JavaScript objects used as records

    [parseCSV] builds each row with [header.reduce((obj, key, i) => {
    obj[key] = ...; return obj; }, {})], the table reads [row[key]], and
    [exportToCSV] reads [Object.keys(row)] and [Object.values(row)].  The
    model keeps the own properties in insertion order, an assignment to an
    existing key updates it in place, and [obj['__proto__'] = v] with a
    primitive [v] goes through the [Object.prototype.__proto__] setter,
    which ignores it.  [Object.keys] follows OrdinaryOwnPropertyKeys
    (ECMA-262 10.1.11.1): array-index keys first in ascending numeric
    order, then the other string keys in insertion order.

    Two objects are equivalent ([≡]) when they have the same keys in the
    same [Object.keys] order and the same value at every key; every
    observation of the program ([obj_get], [obj_keys], [obj_values]) is a
    morphism for it. *)

From stdpp Require Import base list sets strings.
From Stdlib Require Import Ascii String ZArith NArith Lia Sorted.
From S2P Require Import Spec2Rocq JsString.
Import JsString.

Module JsObject.

Record obj (V : Type) := mk_obj { props : list (string * V) }.
Arguments mk_obj {V} props.
Arguments props {V} o.

(** [{}] *)
Definition empty {V} : obj V := mk_obj [].

Definition proto_key : string := "__proto__".

Fixpoint assoc_get {V} (l : list (string * V)) (k : string) : option V :=
  match l with
  | [] => None
  | (k', v) :: r => if String.eqb k k' then Some v else assoc_get r k
  end.

Fixpoint assoc_update {V} (l : list (string * V)) (k : string) (v : V) : list (string * V) :=
  match l with
  | [] => [(k, v)]
  | (k', v') :: r => if String.eqb k k' then (k', v) :: r else (k', v') :: assoc_update r k v
  end.

(** [o[k]] for an own property (the keys the program reads are never names
    inherited from [Object.prototype]). *)
Definition obj_get {V} (o : obj V) (k : string) : option V := assoc_get (props o) k.

(** [o[k] = v] with a primitive [v]. *)
Definition obj_set {V} (k : string) (v : V) (o : obj V) : obj V :=
  if String.eqb k proto_key then o else mk_obj (assoc_update (props o) k v).

(** [(o[k] || '')] for string-valued objects: [undefined] and [''] both
    give [''] *)
Definition get_or_empty (o : obj string) (k : string) : string :=
  match obj_get o k with Some v => v | None => EmptyString end.

(** ** Array indices and [Object.keys] *)

Fixpoint digits_value (acc : N) (s : string) : N :=
  match s with
  | EmptyString => acc
  | String c r => digits_value (10 * acc + N.of_nat (nat_of_ascii c - 48))%N r
  end.

(** A canonical numeric string [ToString(ToUint32(k)) = k] below 2^32 - 1. *)
Definition is_array_index (k : string) : bool :=
  match k with
  | EmptyString => false
  | String c r =>
      is_digit c && all_digits r
      && (negb (char_is c "0"%char) || String.eqb r EmptyString)
      && (digits_value 0 k <? 4294967295)%N
  end.

Definition index_value (k : string) : N := digits_value 0 k.

Fixpoint insert_index (k : string) (ks : list string) : list string :=
  match ks with
  | [] => [k]
  | k' :: r => if (index_value k <=? index_value k')%N then k :: ks else k' :: insert_index k r
  end.

Definition sort_indices (ks : list string) : list string := foldr insert_index [] ks.

Definition order_keys (ks : list string) : list string :=
  sort_indices (List.filter is_array_index ks) ++ List.filter (fun k => negb (is_array_index k)) ks.

(** [Object.keys(o)] *)
Definition obj_keys {V} (o : obj V) : list string := order_keys (map fst (props o)).

(** [Object.values(o)] *)
Definition obj_values {V} (o : obj V) : list V := omap (obj_get o) (obj_keys o).

(** Well-formed objects: no key twice, and no own [__proto__]. *)
Definition obj_wf {V} (o : obj V) : Prop :=
  NoDup (map fst (props o)) /\ proto_key ∉ map fst (props o).

(** The observational equivalence of objects. *)
Definition obj_equiv {V} (o1 o2 : obj V) : Prop :=
  obj_keys o1 = obj_keys o2 /\ forall k, obj_get o1 k = obj_get o2 k.

#[export] Instance obj_equiv_inst {V} : Equiv (obj V) := obj_equiv.

(** Two objects are the same value when they hold the same properties in
    the same order. *)
#[export] Instance obj_eq_dec {V} `{EqDecision V} : EqDecision (obj V).
Proof.
  intros [a] [b]. destruct (decide (a = b)) as [->|Hne]; [by left|right; congruence].
Defined.

(** [header.reduce((obj, key, i) => { obj[key] = f(i); ... }, {})]: the
    assignments of a list of key/value pairs, in order, to a fresh object. *)
Definition obj_of_pairs {V} (kvs : list (string * V)) : obj V :=
  fold_left (fun o kv => obj_set kv.1 kv.2 o) kvs empty.

(** ** Lemmas *)

Section Laws.
Context {V : Type}.
Implicit Types (o : obj V) (l : list (string * V)).

Lemma assoc_get_update l k k' v :
  assoc_get (assoc_update l k v) k' = if String.eqb k' k then Some v else assoc_get l k'.
Proof.
  induction l as [|[k0 v0] l IH]; simpl.
  - by destruct (String.eqb k' k).
  - destruct (String.eqb_spec k k0) as [->|Hne]; simpl.
    + by destruct (String.eqb k' k0).
    + rewrite IH. destruct (String.eqb_spec k' k) as [->|]; [|done].
      destruct (String.eqb_spec k k0); congruence.
Qed.

Lemma obj_get_set o k k' v :
  k <> proto_key ->
  obj_get (obj_set k v o) k' = if String.eqb k' k then Some v else obj_get o k'.
Proof.
  intros Hk. unfold obj_set, obj_get.
  destruct (String.eqb_spec k proto_key); [done|]. apply assoc_get_update.
Qed.

Lemma obj_set_proto o v : obj_set proto_key v o = o.
Proof. unfold obj_set. by rewrite String.eqb_refl. Qed.

Lemma assoc_get_in l k : is_Some (assoc_get l k) <-> k ∈ map fst l.
Proof.
  induction l as [|[k0 v0] l IH]; simpl.
  - split; [by intros []|]. intros Hk. by apply elem_of_nil in Hk.
  - rewrite elem_of_cons, <- IH.
    destruct (String.eqb_spec k k0); naive_solver.
Qed.

Lemma keys_update l k v :
  map fst (assoc_update l k v) = if decide (k ∈ map fst l) then map fst l else map fst l ++ [k].
Proof.
  induction l as [|[k0 v0] l IH]; cbn [assoc_update map fst].
  - rewrite decide_False by apply not_elem_of_nil. done.
  - destruct (String.eqb_spec k k0) as [->|Hne]; cbn [map fst].
    + rewrite decide_True by set_solver. done.
    + rewrite IH. destruct (decide (k ∈ map fst l)).
      * rewrite decide_True by set_solver. done.
      * rewrite decide_False by set_solver. done.
Qed.

Lemma obj_set_wf o k v : obj_wf o -> obj_wf (obj_set k v o).
Proof.
  intros [Hnd Hp]. unfold obj_set.
  destruct (String.eqb_spec k proto_key) as [|Hk]; [done|].
  unfold obj_wf; simpl. rewrite keys_update. case_decide as H; [done|].
  split.
  - apply NoDup_app. split; [done|]. split; [|apply NoDup_singleton]. set_solver.
  - set_solver.
Qed.

(** The pairs of a duplicate-free list without [__proto__] are stored as given. *)
Lemma props_obj_of_pairs_acc l (acc : list (string * V)) :
  NoDup (map fst acc ++ map fst l) -> proto_key ∉ map fst l ->
  props (fold_left (fun o kv => obj_set kv.1 kv.2 o) l (mk_obj acc)) = acc ++ l.
Proof.
  revert acc. induction l as [|[k v] l IH]; intros acc Hnd Hp; simpl.
  - by rewrite app_nil_r.
  - simpl in Hp.
    destruct (String.eqb_spec k proto_key) as [->|Hk]; [set_solver|].
    assert (obj_set k v (mk_obj acc) = mk_obj (acc ++ [(k, v)])) as ->.
    { unfold obj_set. destruct (String.eqb_spec k proto_key); [done|]. f_equal. simpl.
      clear -Hnd. induction acc as [|[k0 v0] acc IHa]; simpl; [done|].
      simpl in Hnd. apply NoDup_cons in Hnd as [Hk0 Hnd].
      destruct (String.eqb_spec k k0) as [->|]; [set_solver|]. by rewrite IHa. }
    rewrite IH; [by rewrite <- app_assoc|by rewrite map_app, <- app_assoc|set_solver].
Qed.

Lemma props_obj_of_pairs l :
  NoDup (map fst l) -> proto_key ∉ map fst l -> props (obj_of_pairs l) = l.
Proof. intros. unfold obj_of_pairs, empty. by apply props_obj_of_pairs_acc. Qed.

Lemma obj_set_keys o k v k' :
  k' ∈ map fst (props (obj_set k v o)) -> k' = k \/ k' ∈ map fst (props o).
Proof.
  unfold obj_set. destruct (String.eqb k proto_key); [by right|].
  simpl. rewrite keys_update. case_decide; [by right|]. set_solver.
Qed.

(** Every key of a reduce-built object is one of the assigned keys. *)
Lemma obj_of_pairs_keys l k :
  k ∈ map fst (props (obj_of_pairs l)) -> k ∈ map fst l.
Proof.
  unfold obj_of_pairs.
  enough (forall acc, k ∈ map fst (props (fold_left (fun o kv => obj_set kv.1 kv.2 o) l acc)) ->
                      k ∈ map fst (props acc) \/ k ∈ map fst l) as H.
  { intros Hk. destruct (H empty Hk) as [Hk'|]; [by apply elem_of_nil in Hk'|done]. }
  induction l as [|[k0 v0] l IH]; intros acc Hk; simpl in *; [by left|].
  destruct (IH _ Hk) as [Hk'|Hk']; [|set_solver].
  apply obj_set_keys in Hk' as [->|]; set_solver.
Qed.

Lemma obj_set_keys_incl o k v k' :
  k' ∈ map fst (props o) \/ (k' = k /\ k <> proto_key) -> k' ∈ map fst (props (obj_set k v o)).
Proof.
  unfold obj_set. destruct (String.eqb_spec k proto_key) as [->|Hk]; [naive_solver|].
  simpl. rewrite keys_update. case_decide; set_solver.
Qed.

(** Conversely, every assigned key other than [__proto__] is a key of the object. *)
Lemma obj_of_pairs_keys_complete l k :
  k ∈ map fst l -> k <> proto_key -> k ∈ map fst (props (obj_of_pairs l)).
Proof.
  unfold obj_of_pairs. generalize (@empty V). intros acc Hk Hp.
  enough (forall acc, k ∈ map fst (props acc) \/ k ∈ map fst l ->
                      k ∈ map fst (props (fold_left (fun o kv => obj_set kv.1 kv.2 o) l acc))) by auto.
  clear acc Hk. induction l as [|[k0 v0] l IH]; intros acc Hin; simpl in *; [set_solver|].
  apply IH. rewrite elem_of_cons in Hin.
  destruct Hin as [Hin|[->|Hin]]; [left; apply obj_set_keys_incl; auto..|by right].
Qed.

Lemma obj_of_pairs_wf l : obj_wf (obj_of_pairs l).
Proof.
  unfold obj_of_pairs.
  enough (forall acc, obj_wf acc -> obj_wf (fold_left (fun o kv => obj_set kv.1 kv.2 o) l acc)) as H.
  { apply H. split; [constructor|apply not_elem_of_nil]. }
  induction l as [|kv l IH]; intros acc Hacc; simpl; [done|]. by apply IH, obj_set_wf.
Qed.

End Laws.

(** *** The order of [Object.keys] *)

Definition index_le (a b : string) : Prop := (index_value a <= index_value b)%N.

Lemma insert_index_sorted k ks :
  Sorted index_le ks -> Sorted index_le (insert_index k ks).
Proof.
  induction 1 as [|k' r Hr IH Hhd]; simpl; [by repeat constructor|].
  destruct (N.leb_spec (index_value k) (index_value k')) as [Hle|Hlt].
  - constructor; [by constructor|]. by constructor.
  - constructor; [done|]. destruct r as [|k'' r]; simpl.
    + constructor. unfold index_le. lia.
    + inversion Hhd; subst. destruct (N.leb_spec (index_value k) (index_value k''));
        constructor; unfold index_le in *; lia.
Qed.

Lemma sort_indices_sorted ks : Sorted index_le (sort_indices ks).
Proof. induction ks as [|k ks IH]; simpl; [constructor|]. by apply insert_index_sorted. Qed.

Lemma sort_indices_id ks : Sorted index_le ks -> sort_indices ks = ks.
Proof.
  induction 1 as [|k r Hr IH Hhd]; [done|]. simpl. rewrite IH.
  destruct r as [|k' r]; [done|]. inversion Hhd; subst. simpl.
  unfold index_le in *. by rewrite (proj2 (N.leb_le _ _)).
Qed.

Lemma insert_index_forall (P : string -> Prop) k ks :
  P k -> Forall P ks -> Forall P (insert_index k ks).
Proof.
  intros Hk. induction 1 as [|k' r Hk' Hr IH]; simpl; [by constructor|].
  case_ifs; by repeat constructor.
Qed.

Lemma sort_indices_forall (P : string -> Prop) ks : Forall P ks -> Forall P (sort_indices ks).
Proof. induction 1; simpl; [constructor|]. by apply insert_index_forall. Qed.

(** The order of [Object.keys] is a fixed point: re-inserting keys in that
    order reproduces it. *)
Lemma order_keys_idem ks : order_keys (order_keys ks) = order_keys ks.
Proof.
  unfold order_keys. rewrite !List.filter_app.
  assert (Forall (fun k => is_array_index k = true) (sort_indices (List.filter is_array_index ks))) as Hi.
  { apply sort_indices_forall. apply Forall_forall. intros x Hx%list_elem_of_In%filter_In. apply Hx. }
  assert (Forall (fun k => is_array_index k = false) (List.filter (fun k => negb (is_array_index k)) ks)) as Hn.
  { apply Forall_forall. intros x Hx%list_elem_of_In%filter_In. destruct Hx as [_ Hx]. by destruct (is_array_index x). }
  rewrite (filter_all_true _ _ Hi), (filter_all_false _ _ Hn).
  rewrite (filter_all_false (fun k => negb (is_array_index k))).
  2:{ eapply Forall_impl; [exact Hi|]. simpl. by intros x ->. }
  rewrite (filter_all_true (fun k => negb (is_array_index k))).
  2:{ eapply Forall_impl; [exact Hn|]. simpl. by intros x ->. }
  rewrite !app_nil_r. simpl. by rewrite sort_indices_id by apply sort_indices_sorted.
Qed.

(** *** The equivalence and its morphisms *)

#[export] Instance obj_equiv_equivalence {V} : Equivalence (≡@{obj V}).
Proof.
  split.
  - by intros o; split.
  - intros o1 o2 [Hk Hg]; split; [done|]. intros k. by rewrite Hg.
  - intros o1 o2 o3 [Hk1 Hg1] [Hk2 Hg2]; split; [congruence|]. intros k. by rewrite Hg1, Hg2.
Qed.

#[export] Instance obj_get_proper {V} : Proper ((≡@{obj V}) ==> (=) ==> (=)) obj_get.
Proof. intros o1 o2 [_ Hg] k ? <-. apply Hg. Qed.

#[export] Instance obj_keys_proper {V} : Proper ((≡@{obj V}) ==> (=)) obj_keys.
Proof. by intros o1 o2 [Hk _]. Qed.

#[export] Instance obj_values_proper {V} : Proper ((≡@{obj V}) ==> (=)) obj_values.
Proof.
  intros o1 o2 [Hk Hg]. unfold obj_values. rewrite Hk.
  apply list_omap_ext, Forall2_same_length_lookup. split; [done|].
  intros i k k' Hk1 Hk2. rewrite Hk1 in Hk2. injection Hk2 as ->. apply Hg.
Qed.


(** *** [Object.keys] lists the own keys *)

Lemma insert_index_perm k ks : Permutation (insert_index k ks) (k :: ks).
Proof.
  induction ks as [|k' ks IH]; simpl; [done|]. case_ifs; [done|].
  by rewrite IH, perm_swap.
Qed.

Lemma sort_indices_perm ks : Permutation (sort_indices ks) ks.
Proof. induction ks as [|k ks IH]; simpl; [done|]. by rewrite insert_index_perm, IH. Qed.

Lemma filter_split_perm (f : string -> bool) (ks : list string) :
  Permutation (List.filter f ks ++ List.filter (fun k => negb (f k)) ks) ks.
Proof.
  induction ks as [|k ks IH]; simpl; [done|].
  destruct (f k); simpl; [by rewrite IH|]. by rewrite <- Permutation_middle, IH.
Qed.

Lemma order_keys_perm ks : Permutation (order_keys ks) ks.
Proof. unfold order_keys. by rewrite sort_indices_perm, filter_split_perm. Qed.

Lemma elem_of_obj_keys {V} (o : obj V) k : k ∈ obj_keys o <-> k ∈ map fst (props o).
Proof. unfold obj_keys. apply elem_of_Permutation_proper, order_keys_perm. Qed.

(** Without array-index keys, [Object.keys] is the insertion order. *)
Lemma order_keys_no_index ks :
  Forall (fun k => is_array_index k = false) ks -> order_keys ks = ks.
Proof.
  intros H. unfold order_keys. rewrite filter_all_false by done. simpl.
  apply filter_all_true. eapply Forall_impl; [done|]. by intros k ->.
Qed.

(** An assignment appends a new key and keeps the place of an existing one. *)
Lemma obj_set_key_order {V} (o : obj V) k v :
  k <> proto_key ->
  map fst (props (obj_set k v o)) =
    if decide (k ∈ map fst (props o)) then map fst (props o) else map fst (props o) ++ [k].
Proof.
  intros Hk. unfold obj_set. destruct (String.eqb_spec k proto_key); [done|]. apply keys_update.
Qed.

Lemma obj_keys_wf {V} (o : obj V) :
  obj_wf o -> NoDup (obj_keys o) /\ proto_key ∉ obj_keys o.
Proof.
  intros [Hnd Hp]. unfold obj_keys. rewrite (order_keys_perm (map fst (props o))). done.
Qed.

(** The object built from [(k, f k)] for a duplicate-free key list in
    [Object.keys] order is equivalent to any well-formed object with those
    keys and those values. *)
Lemma obj_of_keys_equiv (o : obj string) (ks : list string) (f : string -> string) :
  obj_wf o -> obj_keys o = ks -> (forall k, k ∈ ks -> obj_get o k = Some (f k)) ->
  obj_of_pairs (map (fun k => (k, f k)) ks) ≡ o.
Proof.
  intros Hwf Hks Hf. destruct (obj_keys_wf o Hwf) as [Hnd Hp]. rewrite Hks in Hnd, Hp.
  assert (Hmap : map fst (map (fun k => (k, f k)) ks) = ks) by (rewrite map_map; apply map_id).
  split.
  - unfold obj_keys at 1. rewrite props_obj_of_pairs by (rewrite Hmap; done).
    rewrite Hmap, <- Hks. apply order_keys_idem.
  - intros k. unfold obj_get at 1. rewrite props_obj_of_pairs by (rewrite Hmap; done).
    destruct (decide (k ∈ ks)) as [Hk|Hk].
    + rewrite Hf by done. clear -Hk. induction ks as [|k' ks IH]; [by apply elem_of_nil in Hk|].
      simpl. destruct (String.eqb_spec k k') as [->|]; [done|].
      apply IH. apply elem_of_cons in Hk as [|]; [congruence|done].
    + transitivity (@None string).
      * clear -Hk. induction ks as [|k' ks IH]; [done|]. simpl.
        destruct (String.eqb_spec k k') as [->|]; [set_solver|]. apply IH. set_solver.
      * symmetry. destruct (obj_get o k) eqn:E; [|done]. exfalso. apply Hk.
        rewrite <- Hks. apply elem_of_obj_keys, assoc_get_in. unfold obj_get in E. by rewrite E.
Qed.

End JsObject.
