(* ===== verification/JsNumber.v ===== *)
(** * JsNumber: the Number conversions the program applies to strings

    - [ToNumber(s)] (ECMA-262 7.1.4.1.1, StringToNumber) is used by
      [isNaN(va)] and [va - vb] in the comparator of [sortTable];
    - [parseInt(s)] (ECMA-262 19.2.5) by [getNumber] and by the feedback
      classification;
    - a comparator's result is read by SortCompare through its sign, a NaN
      counting as +0 (ECMA-262 23.1.3.30.2).

    A Number is a rational value ([Q]) or one of the three special values.
    [ToNumber] first reads the literal's mathematical value exactly
    ([string_mv]) and then rounds it to the nearest double as
    RoundMVResult does ([round_to_double]: 53 significant bits, ties to
    even, subnormals below [2^-1022], [+-Infinity] from [2^1024] on), so
    two literals that denote the same double, such as
    ["9007199254740993"] and ["9007199254740992"], give the same Number. *)

From stdpp Require Import base list strings.
From Stdlib Require Import Ascii String ZArith QArith Lia.
From S2P Require Import Spec2Rocq JsString.
Import JsString.

Module JsNumber.

Inductive number :=
  | Finite (q : Q)
  | PosInf
  | NegInf
  | NaN.

Definition is_nan (n : number) : bool := match n with NaN => true | _ => false end.

Definition digit_value (c : ascii) : Z := Z.of_nat (nat_of_ascii c - 48).

(** The digits of a radix below 37 that [c] denotes, if any. *)
Definition radix_digit (radix : Z) (c : ascii) : option Z :=
  let n := Z.of_nat (nat_of_ascii c) in
  let d := if ((48 <=? n) && (n <=? 57))%Z then Some (n - 48)%Z
           else if ((97 <=? n) && (n <=? 122))%Z then Some (n - 87)%Z
           else if ((65 <=? n) && (n <=? 90))%Z then Some (n - 55)%Z
           else None in
  match d with Some v => if (v <? radix)%Z then Some v else None | None => None end.

(** The longest prefix of digits of [radix]: its value, its length, the rest. *)
Fixpoint digit_run (radix : Z) (acc : Z) (len : nat) (s : string) : Z * nat * string :=
  match s with
  | String c r =>
      match radix_digit radix c with
      | Some d => digit_run radix (radix * acc + d)%Z (S len) r
      | None => (acc, len, s)
      end
  | EmptyString => (acc, len, s)
  end.

(** [m * 10^e] as an exact rational. *)
Definition scaled (m e : Z) : Q :=
  if (0 <=? e)%Z then inject_Z (m * 10 ^ e) else Qmake m (Z.to_pos (10 ^ (- e))).

(** ExponentPart, then the end of the literal. *)
Definition parse_exponent (s : string) : option Z :=
  match s with
  | EmptyString => Some 0%Z
  | String c r =>
      if char_is c "e"%char || char_is c "E"%char then
        let '(sign, r') := match r with
                           | String d r'' => if char_is d "+"%char then (1%Z, r'')
                                             else if char_is d "-"%char then ((-1)%Z, r'')
                                             else (1%Z, r)
                           | EmptyString => (1%Z, r)
                           end in
        match digit_run 10 0 0 r' with
        | (v, S _, EmptyString) => Some (sign * v)%Z
        | _ => None
        end
      else None
  end.

(** StrUnsignedDecimalLiteral. *)
Definition parse_unsigned_decimal (s : string) : option number :=
  if String.eqb s "Infinity" then Some PosInf else
  let '(ip, ilen, r) := digit_run 10 0 0 s in
  match r with
  | String c r' =>
      if char_is c "."%char then
        let '(fp, flen, r'') := digit_run 10 0 0 r' in
        if (ilen =? 0) && (flen =? 0) then None else
        match parse_exponent r'' with
        | Some e => Some (Finite (scaled (ip * 10 ^ Z.of_nat flen + fp) (e - Z.of_nat flen)))
        | None => None
        end
      else if ilen =? 0 then None
      else option_map (fun e => Finite (scaled ip e)) (parse_exponent r)
  | EmptyString => if ilen =? 0 then None else Some (Finite (inject_Z ip))
  end.

Definition negate (n : number) : number :=
  match n with
  | Finite q => Finite (- q)
  | PosInf => NegInf
  | NegInf => PosInf
  | NaN => NaN
  end.

(** NonDecimalIntegerLiteral: [0x], [0o], [0b] and their digits, no sign. *)
Definition parse_non_decimal (s : string) : option number :=
  match s with
  | String z (String p r) =>
      if char_is z "0"%char then
        let radix := if char_is p "x"%char || char_is p "X"%char then 16%Z
                     else if char_is p "o"%char || char_is p "O"%char then 8%Z
                     else if char_is p "b"%char || char_is p "B"%char then 2%Z else 0%Z in
        if (radix =? 0)%Z then None else
        match digit_run radix 0 0 r with
        | (v, S _, EmptyString) => Some (Finite (inject_Z v))
        | _ => None
        end
      else None
  | _ => None
  end.

(** The value of StringNumericLiteral before rounding: white space around
    the literal is ignored, the empty string is 0, and anything that is not
    a numeric literal is NaN; a finite literal has its exact mathematical
    value. *)
Definition string_mv (s : string) : number :=
  let t := trim s in
  if String.eqb t EmptyString then Finite 0 else
  match parse_non_decimal t with
  | Some n => n
  | None =>
      match t with
      | String c r =>
          if char_is c "+"%char then default NaN (parse_unsigned_decimal r)
          else if char_is c "-"%char then default NaN (negate <$> parse_unsigned_decimal r)
          else default NaN (parse_unsigned_decimal t)
      | EmptyString => NaN
      end
  end.

(** [parseInt(s)] with no radix: leading white space, a sign, an optional
    [0x] prefix (radix 16), then the longest run of digits; none is NaN. *)
Definition parse_int (s : string) : number :=
  let t := trim_start s in
  let '(sign, t1) := match t with
                     | String c r => if char_is c "-"%char then ((-1)%Z, r)
                                     else if char_is c "+"%char then (1%Z, r) else (1%Z, t)
                     | EmptyString => (1%Z, t)
                     end in
  let '(radix, t2) := match t1 with
                      | String z (String x r) =>
                          if char_is z "0"%char && (char_is x "x"%char || char_is x "X"%char)
                          then (16%Z, r) else (10%Z, t1)
                      | _ => (10%Z, t1)
                      end in
  match digit_run radix 0 0 t2 with
  | (_, O, _) => NaN
  | (v, S _, _) => Finite (inject_Z (sign * v))
  end.

(** The sign of [x - y] as SortCompare reads it: NaN (from a NaN operand or
    from [Infinity - Infinity]) counts as 0. *)
Definition sub_sign (x y : number) : comparison :=
  match x, y with
  | Finite a, Finite b => Qcompare a b
  | PosInf, PosInf | NegInf, NegInf => Eq
  | PosInf, _ | _, NegInf => if is_nan x || is_nan y then Eq else Gt
  | NegInf, _ | _, PosInf => if is_nan x || is_nan y then Eq else Lt
  | _, _ => Eq
  end.


(** ** Double arithmetic on the program's integer ratios *)

(** [floor(log2(a / b))] for [a, b > 0]. *)
Definition log2_ratio (a b : Z) : Z :=
  let t := (Z.log2 a - Z.log2 b)%Z in
  let ge := if (0 <=? t)%Z then (b * 2 ^ t <=? a)%Z else (b <=? a * 2 ^ (- t))%Z in
  if ge then t else (t - 1)%Z.

(** RoundMVResult (ECMA-262 6.1.6.1): the double nearest to a rational,
    ties to even, with the subnormals below [2^-1022] (a fixed exponent
    [-1074]) and [+/-Infinity] when the rounded value reaches [2^1024].
    [s] is the number of fraction bits kept: the mantissa [m] is
    [|q| * 2^s] rounded to an integer. *)
Definition round_to_double (q : Q) : number :=
  let a := Z.abs (Qnum q) in
  let b := Zpos (Qden q) in
  if (a =? 0)%Z then Finite 0 else
  let e := log2_ratio a b in
  let s := if (e <? -1022)%Z then 1074%Z else (52 - e)%Z in
  let '(num, den) := if (0 <=? s)%Z then (a * 2 ^ s, b)%Z else (a, b * 2 ^ (- s))%Z in
  let m0 := (num / den)%Z in
  let r := (num mod den)%Z in
  let m := if (den <? 2 * r)%Z || ((2 * r =? den)%Z && Z.odd m0) then (m0 + 1)%Z else m0 in
  let sign := if (Qnum q <? 0)%Z then (-1)%Z else 1%Z in
  if (m =? 0)%Z then Finite 0 else
  if (2 ^ (1024 + s) <=? m)%Z then (if (sign =? 1)%Z then PosInf else NegInf)
  else Finite (if (0 <=? s)%Z then Qmake (sign * m) (Z.to_pos (2 ^ s))
               else inject_Z (sign * m * 2 ^ (- s))).

Definition round_number (n : number) : number :=
  match n with Finite q => round_to_double q | _ => n end.

(** StringToNumber (ECMA-262 7.1.4.1.1): the literal's value rounded to a
    double. *)
Definition to_number (s : string) : number := round_number (string_mv s).

(** [a / b] for integers [a >= 0], [b > 0] whose quotient is a normal
    double: the exact value of the double the division returns, rounded to
    53 significant bits, ties to even (IEEE 754 roundTiesToEven). *)
Definition div_double (a b : Z) : Q :=
  if (a =? 0)%Z then 0%Q else
  let k := (52 - log2_ratio a b)%Z in
  let '(num, den) := if (0 <=? k)%Z then (a * 2 ^ k, b)%Z else (a, b * 2 ^ (- k))%Z in
  let m0 := (num / den)%Z in
  let r := (num mod den)%Z in
  let m := if (den <? 2 * r)%Z || ((2 * r =? den)%Z && Z.odd m0) then (m0 + 1)%Z else m0 in
  if (0 <=? k)%Z then Qmake m (Z.to_pos (2 ^ k)) else inject_Z (m * 2 ^ (- k)).

(** [Math.round(x)] of a finite [x]: the nearest integer, ties toward +∞. *)
Definition math_round (x : Q) : Z := Z.div (2 * Qnum x + Zpos (Qden x)) (2 * Zpos (Qden x)).

(** The character of a decimal digit [0 <= n < 10]. *)
Definition digit_char (n : Z) : ascii := ascii_of_nat (Z.to_nat n + 48).

(** The decimal digits of [n], last digit first, with [fuel] steps. *)
Fixpoint digits_rev (fuel : nat) (n : Z) : list ascii :=
  match fuel with
  | O => []
  | S f => digit_char (n mod 10) ::
             (if (n <? 10)%Z then [] else digits_rev f (n / 10)%Z)
  end.

(** The decimal notation of a non-negative integer ([Number.prototype.toString]). *)
Definition z_to_string (n : Z) : string :=
  string_of_list_ascii (rev (digits_rev (S (Z.to_nat (Z.log2 (Z.max n 1)))) n)).

(** [x.toFixed(d)] for [0 <= x < 1e21]: the integer [n] with [n / 10^d]
    nearest to [x], the larger one on a tie, written with [d] decimals. *)
Definition to_fixed (d : nat) (x : Q) : string :=
  let p := (10 ^ Z.of_nat d)%Z in
  let n := Z.div (2 * p * Qnum x + Zpos (Qden x)) (2 * Zpos (Qden x)) in
  let ip := z_to_string (n / p) in
  match d with
  | O => ip
  | S _ =>
      let fr := z_to_string (n mod p) in
      ip +:+ "." +:+ string_of_list_ascii (repeat "0"%char (d - String.length fr)) +:+ fr
  end.

(** ** Bounds of the rounded division

    On the ratios the program divides (below [2^52]) the double quotient
    is a 53-bit mantissa over [2^k] with [k >= 0]; an integer bound of
    the exact quotient is a bound of the rounded one, since integers
    below [2^53] are doubles and rounding is monotone. *)

Lemma log2_ratio_lower (a b : Z) :
  (0 < a)%Z -> (0 < b)%Z -> (0 <= log2_ratio a b)%Z -> (b * 2 ^ log2_ratio a b <= a)%Z.
Proof.
  intros Ha Hb. unfold log2_ratio.
  pose proof (Z.log2_spec a Ha). pose proof (Z.log2_spec b Hb).
  set (t := (Z.log2 a - Z.log2 b)%Z).
  destruct (Z.leb_spec 0 t) as [Ht|Ht].
  - destruct (Z.leb_spec (b * 2 ^ t) a); [done|]. intros Ht1.
    assert (2 ^ Z.log2 a = 2 ^ (Z.log2 b + 1) * 2 ^ (t - 1))%Z as E.
    { rewrite <- Z.pow_add_r by (pose proof (Z.log2_nonneg b); lia). f_equal. lia. }
    assert (b * 2 ^ (t - 1) < 2 ^ (Z.log2 b + 1) * 2 ^ (t - 1))%Z.
    { apply Z.mul_lt_mono_pos_r; [apply Z.pow_pos_nonneg|]; lia. }
    lia.
  - destruct (_ <=? _)%Z; lia.
Qed.

Lemma div_double_k (a b : Z) :
  (0 < a)%Z -> (0 < b)%Z -> (a < 2 ^ 52 * b)%Z -> (0 <= 52 - log2_ratio a b)%Z.
Proof.
  intros Ha Hb Hab. destruct (Z.leb_spec 0 (log2_ratio a b)) as [Ht|Ht]; [|lia].
  pose proof (log2_ratio_lower a b Ha Hb Ht).
  destruct (Z.leb_spec (log2_ratio a b) 52) as [|Hgt]; [lia|].
  assert (2 ^ 52 <= 2 ^ log2_ratio a b)%Z by (apply Z.pow_le_mono_r; lia). nia.
Qed.

(** The division on the ratios below [2^52]: a mantissa over [2^k]. *)
Lemma div_double_eq (a b : Z) :
  (0 < a)%Z -> (0 < b)%Z -> (a < 2 ^ 52 * b)%Z ->
  exists k m, (0 <= k)%Z /\ div_double a b = Qmake m (Z.to_pos (2 ^ k)) /\
    ((a * 2 ^ k) / b <= m <= (a * 2 ^ k) / b + 1)%Z /\
    (m = (a * 2 ^ k) / b + 1 -> 0 < (a * 2 ^ k) mod b)%Z.
Proof.
  intros Ha Hb Hab. pose proof (div_double_k a b Ha Hb Hab) as Hk.
  unfold div_double. rewrite (proj2 (Z.eqb_neq a 0)) by lia.
  set (k := (52 - log2_ratio a b)%Z) in *. rewrite (proj2 (Z.leb_le 0 k) Hk).
  exists k. eexists. split; [done|]. split; [reflexivity|].
  pose proof (Z.mod_pos_bound (a * 2 ^ k) b Hb).
  destruct (_ || _)%bool eqn:E; (split; [lia|]); [|lia].
  intros _. apply orb_true_iff in E as [E|E]; [apply Z.ltb_lt in E; lia|].
  apply andb_true_iff in E as [E _]. apply Z.eqb_eq in E. lia.
Qed.

Lemma Qle_mantissa (m c k : Z) :
  (0 <= k)%Z -> (Qmake m (Z.to_pos (2 ^ k)) <= inject_Z c)%Q <-> (m <= c * 2 ^ k)%Z.
Proof.
  intros Hk. unfold Qle; simpl. rewrite Z2Pos.id by (apply Z.pow_pos_nonneg; lia). lia.
Qed.

Lemma Qge_mantissa (m c k : Z) :
  (0 <= k)%Z -> (inject_Z c <= Qmake m (Z.to_pos (2 ^ k)))%Q <-> (c * 2 ^ k <= m)%Z.
Proof.
  intros Hk. unfold Qle; simpl. rewrite Z2Pos.id by (apply Z.pow_pos_nonneg; lia). lia.
Qed.

(** The rounded quotient stays below an integer bound of the exact one. *)
Lemma div_double_le (a b c : Z) :
  (0 <= a)%Z -> (0 < b)%Z -> (0 <= c < 2 ^ 52)%Z -> (a <= c * b)%Z ->
  (div_double a b <= inject_Z c)%Q.
Proof.
  intros Ha Hb Hc Hab. destruct (Z.eq_dec a 0) as [->|Ha0].
  { unfold Qle; simpl. lia. }
  destruct (div_double_eq a b ltac:(lia) Hb ltac:(nia)) as (k & m & Hk & -> & Hm & Hr).
  apply Qle_mantissa; [done|].
  pose proof (Z.pow_pos_nonneg 2 k ltac:(lia) Hk).
  assert (Hq : ((a * 2 ^ k) / b <= c * 2 ^ k)%Z).
  { apply Z.div_le_upper_bound; [done|]. nia. }
  destruct (Z.eq_dec ((a * 2 ^ k) / b) (c * 2 ^ k)) as [Eq|Ne]; [|lia].
  destruct (Z.eq_dec m ((a * 2 ^ k) / b + 1)) as [Em|]; [|lia].
  specialize (Hr Em). pose proof (Z.div_mod (a * 2 ^ k) b ltac:(lia)). nia.
Qed.

(** And above an integer lower bound of the exact one. *)
Lemma div_double_ge (a b c : Z) :
  (0 <= a)%Z -> (0 < b)%Z -> (a < 2 ^ 52 * b)%Z -> (c * b <= a)%Z ->
  (inject_Z c <= div_double a b)%Q.
Proof.
  intros Ha Hb Hab Hcb. destruct (Z.eq_dec a 0) as [->|Ha0].
  { unfold div_double; simpl. unfold Qle; simpl. nia. }
  destruct (div_double_eq a b ltac:(lia) Hb Hab) as (k & m & Hk & -> & Hm & _).
  apply Qge_mantissa; [done|].
  pose proof (Z.pow_pos_nonneg 2 k ltac:(lia) Hk).
  assert (c * 2 ^ k <= (a * 2 ^ k) / b)%Z.
  { apply Z.div_le_lower_bound; [done|]. nia. }
  lia.
Qed.

(** [Math.round] of a value between two integers lies between them. *)
Lemma math_round_bounds (x : Q) (lo hi : Z) :
  (inject_Z lo <= x)%Q -> (x <= inject_Z hi)%Q -> (lo <= math_round x <= hi)%Z.
Proof.
  destruct x as [n d]. unfold Qle, math_round; simpl. intros Hlo Hhi.
  split.
  - apply Z.div_le_lower_bound; lia.
  - apply Z.lt_succ_r. apply Z.div_lt_upper_bound; lia.
Qed.

(** ** The decimal notation [z_to_string]

    [digits_rev] divides by ten until the quotient is a single digit; the
    fuel [1 + log2 n] is enough because [n < 2^(1 + log2 n) <= 10^(1 + log2 n)],
    and then every larger fuel gives the same digits. *)

Lemma digits_rev_more (f k : nat) (n : Z) :
  (0 <= n < 10 ^ Z.of_nat (S f))%Z -> digits_rev (S f + k) n = digits_rev (S f) n.
Proof.
  revert n. induction f as [|f IH]; intros n Hn.
  - simpl in *. destruct (Z.ltb_spec n 10); [reflexivity|lia].
  - change (S (S f) + k)%nat with (S (S f + k)). simpl digits_rev.
    destruct (Z.ltb_spec n 10); [reflexivity|]. f_equal. apply IH.
    rewrite Nat2Z.inj_succ, Z.pow_succ_r in Hn by lia.
    split; [apply Z.div_pos; lia|]. apply Z.div_lt_upper_bound; lia.
Qed.

(** Two fuels that both exceed the number of digits agree. *)
Lemma digits_rev_indep (f g : nat) (n : Z) :
  (0 < f)%nat -> (0 < g)%nat -> (0 <= n < 10 ^ Z.of_nat f)%Z -> (0 <= n < 10 ^ Z.of_nat g)%Z ->
  digits_rev f n = digits_rev g n.
Proof.
  intros Hf Hg Hnf Hng. destruct (Nat.le_ge_cases f g) as [Hle|Hle].
  - destruct f as [|f]; [lia|]. replace g with (S f + (g - S f))%nat by lia.
    by rewrite digits_rev_more.
  - destruct g as [|g]; [lia|]. replace f with (S g + (f - S g))%nat by lia.
    by rewrite digits_rev_more.
Qed.

Lemma digits_fuel_bound (n : Z) :
  (0 <= n)%Z -> (n < 10 ^ Z.of_nat (S (Z.to_nat (Z.log2 (Z.max n 1)))))%Z.
Proof.
  intros Hn. pose proof (Z.log2_spec (Z.max n 1) ltac:(lia)) as [_ H].
  pose proof (Z.log2_nonneg (Z.max n 1)).
  rewrite Nat2Z.inj_succ, Z2Nat.id by lia.
  assert (2 ^ Z.succ (Z.log2 (Z.max n 1)) <= 10 ^ Z.succ (Z.log2 (Z.max n 1)))%Z
    by (apply Z.pow_le_mono_l; lia).
  lia.
Qed.

Lemma string_of_list_ascii_app (l1 l2 : list ascii) :
  string_of_list_ascii (l1 ++ l2) = string_of_list_ascii l1 +:+ string_of_list_ascii l2.
Proof. induction l1 as [|c l1 IH]; simpl; [done|by rewrite IH]. Qed.

(** A single digit is written as its character. *)
Lemma z_to_string_digit (r : Z) :
  (0 <= r < 10)%Z -> z_to_string r = String (digit_char r) EmptyString.
Proof.
  intros Hr. unfold z_to_string. simpl digits_rev.
  rewrite Z.mod_small by lia. by destruct (Z.ltb_spec r 10); [|lia].
Qed.

(** A number of two digits or more is the notation of its quotient by ten
    followed by its last digit. *)
Lemma z_to_string_snoc (q r : Z) :
  (0 < q)%Z -> (0 <= r < 10)%Z ->
  z_to_string (10 * q + r) = z_to_string q +:+ String (digit_char r) EmptyString.
Proof.
  intros Hq Hr. set (n := (10 * q + r)%Z).
  assert (Eq : (n / 10 = q)%Z) by (subst n; rewrite Z.mul_comm, Z.div_add_l, Z.div_small; lia).
  assert (Er : (n mod 10 = r)%Z) by (subst n; rewrite Z.mul_comm, Z.add_comm, Z.mod_add, Z.mod_small; lia).
  pose proof (digits_fuel_bound n ltac:(lia)) as Bn.
  pose proof (digits_fuel_bound q ltac:(lia)) as Bq.
  unfold z_to_string. simpl digits_rev. rewrite Er, Eq.
  destruct (Z.ltb_spec n 10); [lia|].
  assert (Hl : (3 <= Z.log2 (Z.max n 1))%Z).
  { change 3%Z with (Z.log2 8). apply Z.log2_le_mono. lia. }
  rewrite (digits_rev_indep (Z.to_nat (Z.log2 (Z.max n 1))) (S (Z.to_nat (Z.log2 (Z.max q 1)))) q);
    [| lia | lia | | lia].
  - cbn [rev]. by rewrite string_of_list_ascii_app.
  - split; [lia|]. rewrite <- Eq. apply Z.div_lt_upper_bound; [lia|].
    rewrite Nat2Z.inj_succ, Z.pow_succ_r in Bn by lia. lia.
Qed.

(** The character of a digit character's value is the character itself. *)
Lemma digit_char_value (c : ascii) :
  is_digit c = true -> digit_char (digit_value c) = c /\ (0 <= digit_value c < 10)%Z.
Proof.
  unfold is_digit, digit_char, digit_value. intros [H1 H2]%andb_true_iff.
  apply Nat.leb_le in H1, H2. rewrite Nat2Z.id. split; [|lia].
  rewrite Nat.sub_add by done. apply ascii_nat_embedding.
Qed.

(** The number that digits written last digit first denote. *)
Fixpoint rev_digits_value (l : list ascii) : Z :=
  match l with
  | [] => 0%Z
  | c :: r => (digit_value c + 10 * rev_digits_value r)%Z
  end.

Lemma digit_value_char (x : Z) : (0 <= x < 10)%Z -> digit_value (digit_char x) = x.
Proof.
  intros Hx. unfold digit_value, digit_char.
  rewrite nat_ascii_embedding by lia. rewrite Nat.add_sub, Z2Nat.id; lia.
Qed.

Lemma digits_rev_value (f : nat) (n : Z) :
  (0 < f)%nat -> (0 <= n < 10 ^ Z.of_nat f)%Z -> rev_digits_value (digits_rev f n) = n.
Proof.
  revert n. induction f as [|f IH]; intros n Hf Hn; [lia|]. simpl.
  pose proof (Z.mod_pos_bound n 10 ltac:(lia)). rewrite digit_value_char by lia.
  pose proof (Z.div_mod n 10 ltac:(lia)).
  destruct (Z.ltb_spec n 10); simpl.
  - rewrite Z.mod_small; lia.
  - destruct f as [|f]; [simpl in Hn; lia|].
    rewrite IH; [lia|lia|]. rewrite Nat2Z.inj_succ, Z.pow_succ_r in Hn by lia.
    split; [apply Z.div_pos; lia|]. apply Z.div_lt_upper_bound; lia.
Qed.

(** [digits_rev], the fuelled recursion of [z_to_string]
    ([Number.prototype.toString] of the counts and percentages the page
    writes), terminates within the fuel [1 + log2 n] it is given: it
    reaches its base case, so any larger fuel yields the same digits, and
    the digits it yields are all of [n] (read back they give [n]). *)
Theorem z_to_string_fuel_enough (n : Z) (k : nat) :
  (0 <= n)%Z ->
  digits_rev (S (Z.to_nat (Z.log2 (Z.max n 1))) + k) n = digits_rev (S (Z.to_nat (Z.log2 (Z.max n 1)))) n /\
  rev_digits_value (digits_rev (S (Z.to_nat (Z.log2 (Z.max n 1)))) n) = n.
Proof.
  intros Hn. pose proof (digits_fuel_bound n Hn).
  split; [by apply digits_rev_more|]. apply digits_rev_value; lia.
Qed.

Example z_to_string_fuel_enough_witness :
  (0 <= 1754276400000)%Z /\
  digits_rev (S (Z.to_nat (Z.log2 (Z.max 1754276400000 1))) + 5) 1754276400000 =
    digits_rev (S (Z.to_nat (Z.log2 (Z.max 1754276400000 1)))) 1754276400000 /\
  rev_digits_value (digits_rev (S (Z.to_nat (Z.log2 (Z.max 1754276400000 1)))) 1754276400000) = 1754276400000%Z.
Proof. split; [lia|]. exact (z_to_string_fuel_enough 1754276400000 5 ltac:(lia)). Defined.

End JsNumber.
