(* ===== verification/CsvParser.v ===== *)
(** * CsvParser: [parseCSV] of [src/script.js] (lines 2-31)

    The parser turns the fetched text into an array of row objects:
    - [text.split(/\r?\n/)] is [split_lines], [.filter(l => l.trim())] is
      [nonblank_lines];
    - the header line loses a [N|] prefix ([strip_row_prefix]), is split at
      the commas outside quotes ([split_even_commas]) and every token is
      stripped of one leading and one trailing quote and trimmed, twice
      ([parse_header]);
    - every other line loses its [N|] prefix and is scanned code unit by
      code unit by the loop of lines 13-23 ([scan_fields]); quotes only
      toggle [inQuotes] and are never copied into a field;
    - the reduce of lines 26-29 assigns [key := parts[i]] cleaned, for each
      header key in order, to a fresh object ([parse_row]);
    - [lines[0]] of an input without a non-blank line is [undefined], and
      [undefined.replace] throws a [TypeError]: [parseCSV] is a
      [completion]. *)

From stdpp Require Import base list sets strings.
From Stdlib Require Import Ascii String ZArith Lia.
From S2P Require Import Spec2Rocq JsString JsObject.
Import JsString JsObject.

Module CsvParser.

(** The line terminator of [exportToCSV]. *)
Definition crlf : string := String cr_char (String lf_char EmptyString).

(** [text.split(/\r?\n/)]: the split matcher tries every position in
    order; a CR immediately followed by LF is one separator, a lone LF is
    another, and a lone CR is an ordinary code unit. *)
Fixpoint split_lines (s : string) : list string :=
  match s with
  | EmptyString => [EmptyString]
  | String c r =>
      if char_is c lf_char then EmptyString :: split_lines r
      else match r with
           | String d r' =>
               if char_is c cr_char && char_is d lf_char
               then EmptyString :: split_lines r'
               else cons_first c (split_lines r)
           | EmptyString => [String c EmptyString]
           end
  end.

(** [.filter(l => l.trim())]: an empty string is falsy. *)
Definition is_blank (l : string) : bool := String.eqb (trim l) EmptyString.

Definition nonblank_lines (text : string) : list string :=
  List.filter (fun l => negb (is_blank l)) (split_lines text).

(** Line 5 and line 7: the header keys. *)
Definition parse_header (line : string) : list string :=
  map trim (map (fun h => trim (strip_quotes h)) (split_even_commas (strip_row_prefix line))).

(** Lines 11-24: the quote-aware character scan.  [parts.push(current)]
    appends, [current += char] appends a code unit. *)
Fixpoint scan (s : string) (parts : list string) (current : string) (inQuotes : bool)
  : list string :=
  match s with
  | EmptyString => parts ++ [current]
  | String c r =>
      if char_is c quote_char then scan r parts current (negb inQuotes)
      else if char_is c comma_char && negb inQuotes then scan r (parts ++ [current]) EmptyString inQuotes
      else scan r parts (current +:+ String c EmptyString) inQuotes
  end.

(** Line 9 and the loop: the positional values of one data line. *)
Definition scan_fields (line : string) : list string :=
  scan (strip_row_prefix line) [] EmptyString false.

(** Line 27: [(parts[i] || '').replace(/(^\x22|\x22$)/g, '').trim()]. *)
Definition clean_value (part : option string) : string :=
  trim (strip_quotes (default EmptyString part)).

(** Lines 26-29: the row object. *)
Definition row_pairs (header : list string) (parts : list string) : list (string * string) :=
  imap (fun i key => (key, clean_value (parts !! i))) header.

Definition parse_row (header : list string) (line : string) : obj string :=
  obj_of_pairs (row_pairs header (scan_fields line)).

(** [parseCSV(text)] *)
Definition parseCSV (text : string) : completion (list (obj string)) :=
  match nonblank_lines text with
  | [] => Throw (undefined_read "replace")
  | line0 :: rest => Normal (map (parse_row (parse_header line0)) rest)
  end.

(** ** Lemmas *)

Lemma map_fst_imap_pair {B} (g : nat -> B) (h : list string) :
  map fst (imap (fun i k => (k, g i)) h) = h.
Proof.
  revert g. induction h as [|k h IH]; intros g; simpl; [done|]. f_equal. apply (IH (g ∘ S)).
Qed.

Lemma map_fst_row_pairs header parts : map fst (row_pairs header parts) = header.
Proof. exact (map_fst_imap_pair (fun i => clean_value (parts !! i)) header). Qed.

(** The row object of a header with distinct keys and no [__proto__]
    stores exactly the header keys, in header order. *)
Lemma props_parse_row header line :
  NoDup header -> JsObject.proto_key ∉ header ->
  props (parse_row header line) = row_pairs header (scan_fields line).
Proof. intros. unfold parse_row. apply props_obj_of_pairs; by rewrite map_fst_row_pairs. Qed.

Lemma parse_row_keys header line k :
  k ∈ map fst (props (parse_row header line)) -> k ∈ header.
Proof. unfold parse_row. intros Hk%obj_of_pairs_keys. by rewrite map_fst_row_pairs in Hk. Qed.

(** A field [row[k]] of a parsed row is defined exactly for the header keys
    other than [__proto__]. *)
Lemma parse_row_defined header line k :
  is_Some (obj_get (parse_row header line) k) <-> k ∈ header /\ k <> JsObject.proto_key.
Proof.
  unfold obj_get. rewrite assoc_get_in. split.
  - intros Hk. split; [exact (parse_row_keys header line k Hk)|].
    intros ->. destruct (obj_of_pairs_wf (row_pairs header (scan_fields line))) as [_ Hp].
    by apply Hp.
  - intros [Hk Hp]. apply obj_of_pairs_keys_complete; [|done]. by rewrite map_fst_row_pairs.
Qed.

Lemma parse_header_trimmed line k : k ∈ parse_header line -> trim k = k.
Proof.
  unfold parse_header. intros (k' & -> & _)%list_elem_of_fmap. apply trim_idem.
Qed.

(** The records of a successful parse: one per line after the header line. *)
Lemma parseCSV_normal text rows :
  parseCSV text = Normal rows ->
  exists line0 rest, nonblank_lines text = line0 :: rest /\ rows = map (parse_row (parse_header line0)) rest.
Proof.
  unfold parseCSV. destruct (nonblank_lines text) as [|l ls]; [done|]. intros [= <-]. eauto.
Qed.

(** *** The character scan *)

Lemma scan_inside v s parts cur :
  has_char quote_char v = false ->
  scan (v +:+ s) parts cur true = scan s parts (cur +:+ v) true.
Proof.
  revert cur. induction v as [|c v IH]; intros cur Hv.
  - by rewrite sapp_nil_l, sapp_nil_r.
  - change (char_is c quote_char || has_char quote_char v = false) in Hv.
    apply orb_false_iff in Hv as [Hc Hv].
    rewrite sapp_cons. cbn [scan negb]. rewrite Hc, andb_false_r, IH by done.
    by rewrite sapp_assoc, sapp_cons, sapp_nil_l.
Qed.

(** A quoted value is read whole, commas included, and loses its quotes. *)
Lemma scan_quoted v s parts cur :
  has_char quote_char v = false ->
  scan (quote_wrap v +:+ s) parts cur false = scan s parts (cur +:+ v) false.
Proof.
  intros Hv. unfold quote_wrap. rewrite sapp_cons. cbn [scan negb].
  rewrite char_is_refl, sapp_assoc, sapp_cons, sapp_nil_l, scan_inside by done.
  cbn [scan negb]. by rewrite char_is_refl.
Qed.

Lemma scan_quoted_join vs parts :
  vs <> [] -> Forall (fun v => has_char quote_char v = false) vs ->
  scan (join comma_sep (map quote_wrap vs)) parts EmptyString false = parts ++ vs.
Proof.
  revert parts. induction vs as [|v [|v' vs] IH]; intros parts Hne Hvs; [done| |].
  - inversion Hvs; subst. cbn [map join].
    rewrite <- (sapp_nil_r (quote_wrap v)), scan_quoted by done. by rewrite sapp_nil_l.
  - inversion Hvs as [|? ? Hv Hrest]; subst.
    change (join comma_sep (map quote_wrap (v :: v' :: vs)))
      with (quote_wrap v +:+ comma_sep +:+ join comma_sep (map quote_wrap (v' :: vs))).
    rewrite scan_quoted by done. unfold comma_sep. rewrite sapp_cons, sapp_nil_l.
    cbn [scan negb]. rewrite comma_not_quote, char_is_refl. simpl andb. rewrite sapp_nil_l, IH by done.
    by rewrite <- app_assoc.
Qed.

(** *** The [N|] row prefix *)

Lemma after_digits_pipe_digits d line :
  all_digits d = true -> after_digits_pipe (d +:+ String pipe_char line) = Some line.
Proof.
  induction d as [|c d IH]; intros Hd.
  - rewrite sapp_nil_l. cbn [after_digits_pipe].
    by rewrite pipe_not_digit, char_is_refl.
  - apply andb_true_iff in Hd as [Hc Hd].
    rewrite sapp_cons. cbn [after_digits_pipe]. by rewrite Hc, IH.
Qed.

Lemma strip_row_prefix_digits d line :
  d <> EmptyString -> all_digits d = true ->
  strip_row_prefix (d +:+ String pipe_char line) = line.
Proof.
  destruct d as [|c d]; intros Hne Hd; [done|].
  apply andb_true_iff in Hd as [Hc Hd].
  rewrite sapp_cons. unfold strip_row_prefix. by rewrite Hc, after_digits_pipe_digits.
Qed.

Lemma strip_row_prefix_quote s : strip_row_prefix (String quote_char s) = String quote_char s.
Proof. reflexivity. Qed.

(** *** Line splitting *)

Lemma split_lines_no_lf l :
  has_char lf_char l = false -> split_lines l = [l].
Proof.
  induction l as [|c l IH]; intros Hl; [done|].
  change (char_is c lf_char || has_char lf_char l = false) in Hl.
  apply orb_false_iff in Hl as [Hc Hl].
  cbn [split_lines]. rewrite Hc. destruct l as [|d l]; [done|].
  change (char_is d lf_char || has_char lf_char l = false) in Hl.
  pose proof Hl as Hl'. apply orb_false_iff in Hl' as [Hd _].
  rewrite Hd, andb_false_r, IH by done. done.
Qed.

(** One step of the line split on a code unit that does not start a separator. *)
Lemma split_lines_cons c r :
  char_is c lf_char = false ->
  match r with String d _ => char_is c cr_char && char_is d lf_char | EmptyString => false end = false ->
  split_lines (String c r) = cons_first c (split_lines r).
Proof. intros Hc Hr. destruct r as [|d r]; cbn [split_lines]; rewrite Hc; [done|]. by rewrite Hr. Qed.

Lemma split_lines_crlf l rest :
  has_char lf_char l = false ->
  split_lines (l +:+ String cr_char (String lf_char rest)) = l :: split_lines rest.
Proof.
  induction l as [|c l IH]; intros Hl.
  - rewrite sapp_nil_l. cbn [split_lines]. by rewrite cr_not_lf, !char_is_refl.
  - change (char_is c lf_char || has_char lf_char l = false) in Hl.
    apply orb_false_iff in Hl as [Hc Hl].
    rewrite sapp_cons. rewrite split_lines_cons; [by rewrite IH|done|].
    destruct l as [|d l].
    + rewrite sapp_nil_l. by rewrite cr_not_lf, andb_false_r.
    + change (char_is d lf_char || has_char lf_char l = false) in Hl.
      apply orb_false_iff in Hl as [Hd _]. rewrite sapp_cons. by rewrite Hd, andb_false_r.
Qed.

Lemma crlf_app (x : string) : crlf +:+ x = String cr_char (String lf_char x).
Proof. reflexivity. Qed.

(** [join('\r\n')] of lines without LF is split back into those lines. *)
Lemma split_lines_join_crlf ls :
  ls <> [] -> Forall (fun l => has_char lf_char l = false) ls ->
  split_lines (join crlf ls) = ls.
Proof.
  induction ls as [|l [|l' ls] IH]; intros Hne Hls; [done| |].
  - inversion Hls; subst. by apply split_lines_no_lf.
  - inversion Hls as [|? ? Hl Hrest]; subst.
    change (join crlf (l :: l' :: ls)) with (l +:+ crlf +:+ join crlf (l' :: ls)).
    rewrite crlf_app, split_lines_crlf by done. by rewrite IH.
Qed.


(** Quotes removed from a string: what the scan keeps of a field. *)
Fixpoint remove_quotes (s : string) : string :=
  match s with
  | EmptyString => EmptyString
  | String c r => if char_is c quote_char then remove_quotes r else String c (remove_quotes r)
  end.

Lemma scan_escaped_inside v s parts cur :
  scan (escape_quotes v +:+ s) parts cur true = scan s parts (cur +:+ remove_quotes v) true.
Proof.
  revert cur. induction v as [|c v IH]; intros cur; simpl.
  - by rewrite sapp_nil_l, sapp_nil_r.
  - destruct (char_is c quote_char) eqn:Hc.
    + rewrite !sapp_cons. cbn [scan negb]. by rewrite char_is_refl, IH.
    + rewrite sapp_cons. cbn [scan negb]. rewrite Hc, andb_false_r, IH.
      by rewrite sapp_assoc, sapp_cons, sapp_nil_l.
Qed.

Lemma join_quote_wrap_head v vs :
  exists r, join comma_sep (map quote_wrap (v :: vs)) = String quote_char r.
Proof. cbn [map]. rewrite join_cons. destruct vs; unfold quote_wrap; rewrite ?sapp_cons; eauto. Qed.

Lemma scan_fields_wrap vs :
  vs <> [] -> Forall (fun v => has_char quote_char v = false) vs ->
  scan_fields (join comma_sep (map quote_wrap vs)) = vs.
Proof.
  intros Hne Hvs. unfold scan_fields. destruct vs as [|v vs]; [done|].
  destruct (join_quote_wrap_head v vs) as [r Hr].
  rewrite Hr, strip_row_prefix_quote, <- Hr. by apply scan_quoted_join.
Qed.

Lemma nonblank_lines_join_crlf ls :
  ls <> [] -> Forall (fun l => has_char lf_char l = false /\ is_blank l = false) ls ->
  nonblank_lines (join crlf ls) = ls.
Proof.
  intros Hne Hls. unfold nonblank_lines. rewrite split_lines_join_crlf.
  - apply filter_all_true. eapply Forall_impl; [exact Hls|]. intros l [_ ->]. done.
  - done.
  - eapply Forall_impl; [exact Hls|]. by intros l [? _].
Qed.

Lemma imap_clean (ks l : list string) :
  Forall2 (fun _ v => clean_value (Some v) = v) ks l ->
  imap (fun i k => (k, clean_value (l !! i))) ks = zip ks l.
Proof.
  induction 1 as [|k v ks l Hv _ IH]; [done|]. simpl. f_equal; [by rewrite Hv|exact IH].
Qed.

Lemma row_pairs_values (ks : list string) (g : string -> string) :
  (forall k, k ∈ ks -> clean_value (Some (g k)) = g k) ->
  row_pairs ks (map g ks) = map (fun k => (k, g k)) ks.
Proof.
  intros Hg. unfold row_pairs. rewrite imap_clean.
  - clear Hg. induction ks as [|k ks IH]; simpl; [done|]. by rewrite IH.
  - induction ks as [|k ks IH]; simpl; constructor.
    + apply Hg. by left.
    + apply IH. intros k' Hk'. apply Hg. by right.
Qed.

(** *** Properties of [parseCSV] *)

(** A quote-free header line yields keys without commas. *)
Lemma parse_header_no_comma (line : string) :
  has_char quote_char line = false ->
  Forall (fun k => has_char comma_char k = false) (parse_header line).
Proof.
  intros Hq. unfold parse_header. rewrite !Forall_map.
  eapply Forall_impl; [apply split_even_commas_no_comma, has_char_strip_row_prefix, Hq|].
  intros p Hp. by apply has_char_trim, has_char_trim, has_char_strip_quotes.
Qed.

(** C2: [parseCSV] returns one record per non-blank line after the header;
    it throws (a [TypeError], from [lines[0].replace]) exactly when the text
    has no non-blank line. *)
Theorem parseCSV_row_count text :
  match parseCSV text with
  | Normal rows => S (List.length rows) = List.length (nonblank_lines text)
  | Throw e => e = undefined_read "replace" /\ nonblank_lines text = []
  end.
Proof. unfold parseCSV. destruct (nonblank_lines text) as [|l ls]; simpl; by rewrite ?length_map. Qed.

(** C24: a line of double-quoted, quote-free values separated by commas is
    split into exactly those values: a comma inside quotes does not end a
    field, and the quotes are dropped. *)
Theorem scan_fields_quoted vs :
  vs <> [] -> Forall (fun v => has_char quote_char v = false) vs ->
  scan_fields (join comma_sep (map quote_wrap vs)) = vs.
Proof.
  apply scan_fields_wrap.
Qed.

Example scan_fields_quoted_witness :
  ["a,b"] <> [] /\ Forall (fun v => has_char quote_char v = false) ["a,b"] /\
  scan_fields (join comma_sep (map quote_wrap ["a,b"])) = ["a,b"].
Proof.
  assert (H : Forall (fun v => has_char quote_char v = false) ["a,b"]) by (repeat constructor).
  split; [done|]. split; [exact H|]. apply scan_fields_quoted; [done|exact H].
Defined.

(** C25: a line carrying a numeric prefix [N|] (one or more digits and a
    pipe) is parsed, as a header and as a data line, like the line
    without it, when that line does not itself start with such a prefix. *)
Theorem parse_line_prefix header d line :
  d <> EmptyString -> all_digits d = true -> strip_row_prefix line = line ->
  parse_row header (d +:+ String pipe_char line) = parse_row header line /\
  parse_header (d +:+ String pipe_char line) = parse_header line.
Proof.
  intros Hd Hdig Hl. unfold parse_row, scan_fields, parse_header.
  by rewrite strip_row_prefix_digits, Hl.
Qed.

Example parse_line_prefix_witness :
  parse_row ["a"; "b"] ("5" +:+ String pipe_char "val1,val2") = parse_row ["a"; "b"] "val1,val2" /\
  parse_header ("5" +:+ String pipe_char "val1,val2") = parse_header "val1,val2".
Proof. apply parse_line_prefix; [discriminate|reflexivity|reflexivity]. Defined.

(** C26: every record [parseCSV] returns is a well-formed object whose keys
    are all trimmed: no key starts or ends with white space. *)
Theorem parseCSV_keys_trimmed text rows :
  parseCSV text = Normal rows ->
  Forall (fun r => obj_wf r /\ Forall (fun k => trim k = k) (map fst (props r))) rows.
Proof.
  unfold parseCSV. destruct (nonblank_lines text) as [|l ls]; [done|]. intros [= <-].
  apply Forall_forall. intros r (line & -> & _)%list_elem_of_fmap.
  split; [apply obj_of_pairs_wf|].
  apply Forall_forall. intros k Hk%parse_row_keys.
  unfold parse_header in Hk. apply list_elem_of_fmap in Hk as (k' & -> & _). apply trim_idem.
Qed.

Example parseCSV_keys_trimmed_witness :
  parseCSV (" a , b " +:+ crlf +:+ "1,2") = Normal [parse_row ["a"; "b"] "1,2"] /\
  Forall (fun r => obj_wf r /\ Forall (fun k => trim k = k) (map fst (props r)))
    [parse_row ["a"; "b"] "1,2"].
Proof.
  assert (H : parseCSV (" a , b " +:+ crlf +:+ "1,2") = Normal [parse_row ["a"; "b"] "1,2"])
    by reflexivity.
  split; [exact H|]. exact (parseCSV_keys_trimmed _ _ H).
Defined.

(** C27: a value exported as [\x22...\x22] with its quotes doubled comes back
    with every quote removed, not with its quotes un-doubled or kept. *)
Theorem scan_escaped_value v :
  scan_fields (quote_wrap (escape_quotes v)) = [remove_quotes v].
Proof.
  unfold scan_fields, quote_wrap. rewrite strip_row_prefix_quote. cbn [scan negb].
  rewrite char_is_refl, scan_escaped_inside. cbn [scan negb].
  by rewrite char_is_refl, sapp_nil_l.
Qed.

End CsvParser.
