(* ===== verification/TableView.v ===== *)
(** * TableView: the response table of [src/script.js] (lines 171-256, 283-299)

    The table keeps its state in globals: [tableData], [currentPage],
    [rowsPerPage = 10], [currentSearch], [currentFilter] (line 171), and
    [window._sortKey] / [window._sortAsc] (line 285).  The model gathers
    them in the record [state].  [renderTable] is a pure function of the
    state ([render]): it filters the rows (lines 212-219), slices the
    current page (220-223), computes the cells with the retro-compatible
    lookup (228-237), the page buttons (245-256) and the info line (242,
    [table_info]); [renderTableHeader] (200-209) writes the labels.  The
    handlers of [setupTable] (187-196), the page buttons (253) and
    [sortTable] (283-299) are the transitions of [step]; [steps] chains
    them, for the invariants of the [reachable] states and the liveness
    of the table (any response can be brought back on screen).

    [sortTable] reorders [tableData] in place with a comparator; the table
    only relies on the reordering being a permutation, stated by the class
    [TableSorter] that [Sorting.v] implements. *)

From stdpp Require Import base list sets strings.
From Stdlib Require Import Ascii String ZArith Lia Permutation.
From S2P Require Import Spec2Rocq JsString JsObject JsNumber.
Import JsString JsObject JsNumber.

Module TableView.

(** Line 172-181: the canonical column order.  Accented letters are
    ISO-8859-1 code units. *)
Record column := { col_key : string; col_label : string }.

Definition e_circ : ascii := "234"%char.   (* ê *)
Definition a_grave : ascii := "224"%char.  (* à *)
Definition a_acute : ascii := "225"%char.  (* á *)
Definition a_tilde : ascii := "227"%char.  (* ã *)

Definition key_date : string := "Carimbo de data/hora".
Definition key_name : string := "1. Qual seu nome?".
Definition key_age : string := "2. Qual sua idade?".
Definition key_rating : string :=
  "3. Em uma escala de 1 a 5, como voc" +:+ String e_circ
  " avaliaria sua experi" +:+ String e_circ
  "ncia na UBS? ( 1 = Muito ruim | 5 = Excelente )".
Definition key_expectations : string :=
  "4. O atendimento que voc" +:+ String e_circ " recebeu atendeu " +:+ String a_grave
  "s suas expectativas?".
Definition key_schedule : string :=
  "5. Em uma escala de 1 a 5, como voc" +:+ String e_circ
  " avalia a experi" +:+ String e_circ "ncia com o hor" +:+ String a_acute
  "rio corrido?  ( 1 = Muito ruim | 5 = Excelente )".
Definition key_comment : string := "6. O que poderiamos melhorar? Resposta aberta:".

Definition tableColumns : list column := [
  {| col_key := key_date; col_label := "Data" |};
  {| col_key := key_name; col_label := "Nome" |};
  {| col_key := key_age; col_label := "Idade" |};
  {| col_key := key_rating; col_label := "Nota Experi" +:+ String e_circ "ncia UBS" |};
  {| col_key := key_expectations; col_label := "Expectativas Atendidas" |};
  {| col_key := key_schedule; col_label := "Nota Hor" +:+ String a_acute "rio Corrido" |};
  {| col_key := key_comment; col_label := "Sugest" +:+ String a_tilde "o/Melhoria" |}
].

Definition rowsPerPage : Z := 10.

(** Line 171 and [window._sortKey], [window._sortAsc] ([None] is [undefined]). *)
Record state := {
  tableData : list (obj string);
  currentPage : Z;
  currentSearch : string;
  currentFilter : string;
  sortKey : option string;
  sortAsc : option bool
}.

(** ** [renderTable] *)

(** Lines 212-219: the row filter.  [currentSearch] is already lower case
    (the input handler stores [e.target.value.toLowerCase()]). *)
Definition row_visible (search filter : string) (row : obj string) : bool :=
  let rating := obj_get row key_rating in
  if negb (String.eqb filter EmptyString) && bool_decide (rating <> Some filter) then false
  else if negb (String.eqb search EmptyString) then
    existsb (fun col => includes (to_lower (get_or_empty row (col_key col))) search) tableColumns
  else true.

Definition filtered (st : state) : list (obj string) :=
  List.filter (row_visible (currentSearch st) (currentFilter st)) (tableData st).

(** Lines 221-223. *)
Definition page_start (page : Z) : Z := ((page - 1) * rowsPerPage)%Z.

Definition page_rows (rows : list (obj string)) (page : Z) : list (obj string) :=
  js_slice rows (page_start page) (page_start page + rowsPerPage).

(** Lines 229-235: the cell of a column, falling back on the key with a
    trailing space when the key ends with a question mark. *)
Definition cell_value (row : obj string) (col : column) : string :=
  let v := match obj_get row (col_key col) with
           | Some v => Some v
           | None =>
               if ends_with_char (col_key col) "?"%char
               then obj_get row (col_key col +:+ " ") else None
           end in
  match v with Some s => s | None => EmptyString end.

(** Line 246: [Math.ceil(total / rowsPerPage)]. *)
Definition page_count (total : Z) : Z := ceil_div total rowsPerPage.

Record view := {
  view_cells : list (list string);
  view_buttons : list (Z * bool);  (* label [i], [className === 'active'] *)
  view_shown : Z;                  (* [Math.min(total, end)] of line 242 *)
  view_total : Z
}.

(** Lines 249-255: one button per page, the current one active. *)
Definition page_buttons (total page : Z) : list (Z * bool) :=
  map (fun n => let i := Z.of_nat n in (i, bool_decide (i = page)))
    (seq 1 (Z.to_nat (page_count total))).

Definition render (st : state) : view :=
  let rows := filtered st in
  let total := Z.of_nat (List.length rows) in
  let stop := (page_start (currentPage st) + rowsPerPage)%Z in
  {| view_cells := map (fun row => map (cell_value row) tableColumns) (page_rows rows (currentPage st));
     view_buttons := page_buttons total (currentPage st);
     view_shown := Z.min total stop;
     view_total := total |}.

(** Line 242: [`Mostrando ${Math.min(total, end)} de ${total} respostas`]. *)
Definition table_info (v : view) : string :=
  "Mostrando " +:+ z_to_string (view_shown v) +:+ " de " +:+ z_to_string (view_total v) +:+ " respostas".

(** Lines 200-209: [renderTableHeader] writes one header cell per column,
    with its label (its [onclick] is the [ClickHeader] event below). *)
Definition renderTableHeader : list string := map col_label tableColumns.

(** ** The handlers *)

(** The reordering [sortTable] applies to [tableData]; it is a permutation. *)
Class TableSorter := {
  sort_table : nat -> bool -> list (obj string) -> list (obj string);
  sort_table_perm : forall idx asc rows, Permutation (sort_table idx asc rows) rows
}.

(** Lines 184-185: [setupTable(data)] on the initial globals. *)
Definition setupTable (data : list (obj string)) : state :=
  {| tableData := data; currentPage := 1; currentSearch := EmptyString;
     currentFilter := EmptyString; sortKey := None; sortAsc := None |}.

(** Lines 187-191. *)
Definition on_search (value : string) (st : state) : state :=
  {| tableData := tableData st; currentPage := 1; currentSearch := to_lower value;
     currentFilter := currentFilter st; sortKey := sortKey st; sortAsc := sortAsc st |}.

(** Lines 192-196. *)
Definition on_filter (value : string) (st : state) : state :=
  {| tableData := tableData st; currentPage := 1; currentSearch := currentSearch st;
     currentFilter := value; sortKey := sortKey st; sortAsc := sortAsc st |}.

(** Line 253. *)
Definition on_page (i : Z) (st : state) : state :=
  {| tableData := tableData st; currentPage := i; currentSearch := currentSearch st;
     currentFilter := currentFilter st; sortKey := sortKey st; sortAsc := sortAsc st |}.

(** Line 285: [window._sortKey === key ? !window._sortAsc : true]; [!undefined]
    is [true]. *)
Definition next_asc (key : string) (st : state) : bool :=
  match sortKey st with
  | Some k => if String.eqb k key then match sortAsc st with Some b => negb b | None => true end
              else true
  | None => true
  end.

(** Lines 283-299 (a header exists for [colIdx < 7] only). *)
Definition sortTable `{TableSorter} (colIdx : nat) (st : state) : state :=
  let key := default EmptyString (col_key <$> tableColumns !! colIdx) in
  let asc := next_asc key st in
  {| tableData := sort_table colIdx asc (tableData st); currentPage := 1;
     currentSearch := currentSearch st; currentFilter := currentFilter st;
     sortKey := Some key; sortAsc := Some asc |}.

(** The user's actions: typing in the search box, choosing a rating,
    clicking a page button, clicking a column header, exporting. *)
Inductive event :=
  | Search (value : string)
  | Filter (value : string)
  | ClickPage (i : Z)
  | ClickHeader (colIdx : nat)
  | Export.

(** A transition exists only for a button that the last render displayed. *)
Inductive step `{TableSorter} : state -> event -> state -> Prop :=
  | step_search st v : step st (Search v) (on_search v st)
  | step_filter st v : step st (Filter v) (on_filter v st)
  | step_page st i :
      (1 <= i <= page_count (Z.of_nat (List.length (filtered st))))%Z ->
      step st (ClickPage i) (on_page i st)
  | step_sort st idx : idx < List.length tableColumns -> step st (ClickHeader idx) (sortTable idx st)
  | step_export st : step st Export st.

(** The states reachable from [setupTable data]. *)
Inductive reachable `{TableSorter} (data : list (obj string)) : state -> Prop :=
  | reach_init : reachable data (setupTable data)
  | reach_step st ev st' : reachable data st -> step st ev st' -> reachable data st'.

(** A sequence of the user's actions, each one a transition. *)
Inductive steps `{TableSorter} : state -> list event -> state -> Prop :=
  | steps_nil st : steps st [] st
  | steps_cons st ev st' evs st'' : step st ev st' -> steps st' evs st'' -> steps st (ev :: evs) st''.

(** The page invariant: [currentPage] is 1 or the label of a page button. *)
Definition page_valid (st : state) : Prop :=
  (1 <= currentPage st)%Z /\
  (currentPage st = 1 \/ currentPage st <= page_count (Z.of_nat (List.length (filtered st))))%Z.

(** ** Lemmas *)

(** Page [k+1] is the [k]-th block of ten rows. *)
Lemma page_rows_block (rows : list (obj string)) (k : nat) :
  page_rows rows (Z.of_nat (S k)) = take 10 (drop (10 * k) rows).
Proof.
  unfold page_rows, page_start, rowsPerPage.
  replace ((Z.of_nat (S k) - 1) * 10)%Z with (Z.of_nat (10 * k)) by lia.
  replace (Z.of_nat (10 * k) + 10)%Z with (Z.of_nat (10 * k + 10)) by lia.
  rewrite js_slice_nat by lia. f_equal. lia.
Qed.

Lemma concat_blocks {A} (c m : nat) (l : list A) :
  List.length l <= c * m ->
  List.concat (map (fun k => take c (drop (c * k) l)) (seq 0 m)) = l.
Proof.
  revert l. induction m as [|m IH]; intros l Hl; simpl.
  - destruct l; simpl in *; [done|lia].
  - rewrite Nat.mul_0_r, drop_0, <- seq_shift, map_map.
    transitivity (take c l ++ drop c l); [|apply take_drop]. f_equal.
    rewrite <- (IH (drop c l)) by (rewrite length_drop; lia).
    f_equal. apply map_ext. intros k. rewrite drop_drop. do 2 f_equal. lia.
Qed.

Lemma page_count_bound (n : nat) : n <= 10 * Z.to_nat (page_count (Z.of_nat n)).
Proof.
  unfold page_count, ceil_div, rowsPerPage.
  pose proof (Z.div_mod (Z.of_nat n + 10 - 1) 10 ltac:(lia)).
  pose proof (Z.mod_pos_bound (Z.of_nat n + 10 - 1) 10 ltac:(lia)). lia.
Qed.

Lemma filtered_nil_search_filter (st : state) :
  currentSearch st = EmptyString -> currentFilter st = EmptyString -> filtered st = tableData st.
Proof.
  intros Hs Hf. unfold filtered. rewrite Hs, Hf. apply filter_all_true.
  apply Forall_forall. intros row _. reflexivity.
Qed.

(** Strings whose last code unit is a space are not trimmed. *)
Lemma trim_app_space (k : string) : trim (k +:+ " ") <> k +:+ " ".
Proof.
  assert (last_char (k +:+ " ") = Some " "%char) as Hl.
  { induction k as [|c k IH]; [done|]. rewrite sapp_cons. simpl.
    destruct (k +:+ " ") eqn:E; [by destruct k|]. exact IH. }
  intros Ht. rewrite <- Ht in Hl. by apply trim_last in Hl.
Qed.

Lemma page_count_upper (n : Z) : (0 <= n)%Z -> (page_count n * 10 < n + 10)%Z.
Proof.
  intros Hn. unfold page_count, ceil_div, rowsPerPage.
  pose proof (Z.div_mod (n + 10 - 1) 10 ltac:(lia)).
  pose proof (Z.mod_pos_bound (n + 10 - 1) 10 ltac:(lia)). lia.
Qed.

(** The row at index [i] is on page [i / 10 + 1], whose button exists. *)
Lemma row_on_page (rows : list (obj string)) (i : nat) (row : obj string) :
  rows !! i = Some row ->
  row ∈ page_rows rows (Z.of_nat (S (i / 10)%nat)) /\
  (1 <= Z.of_nat (S (i / 10)%nat) <= page_count (Z.of_nat (List.length rows)))%Z.
Proof.
  intros Hi. pose proof (lookup_lt_Some _ _ _ Hi).
  pose proof (Nat.div_mod i 10 ltac:(lia)). pose proof (Nat.mod_upper_bound i 10 ltac:(lia)).
  split.
  - rewrite page_rows_block. apply list_elem_of_lookup_2 with (i - 10 * (i / 10)).
    rewrite lookup_take_lt, lookup_drop by lia.
    by replace (10 * (i / 10) + (i - 10 * (i / 10)))%nat with i by lia.
  - unfold page_count, ceil_div, rowsPerPage.
    pose proof (Z.div_mod (Z.of_nat (List.length rows) + 10 - 1) 10 ltac:(lia)).
    pose proof (Z.mod_pos_bound (Z.of_nat (List.length rows) + 10 - 1) 10 ltac:(lia)). lia.
Qed.

Lemma page_count_pos (n : Z) : (0 < n)%Z -> (1 <= page_count n)%Z.
Proof. intros Hn. unfold page_count, ceil_div, rowsPerPage. apply Z.div_le_lower_bound; lia. Qed.

(** The number of rows on page [i]: ten, or the remainder on the last page. *)
Lemma page_rows_length (rows : list (obj string)) (i : Z) :
  let n := Z.of_nat (List.length rows) in
  (1 <= i <= page_count n)%Z ->
  Z.of_nat (List.length (page_rows rows i)) =
    if bool_decide (i = page_count n) then (n - 10 * (i - 1))%Z else 10%Z.
Proof.
  intros n Hi. replace i with (Z.of_nat (S (Z.to_nat (i - 1)))) by lia.
  rewrite page_rows_block, length_take, length_drop.
  pose proof (page_count_bound (List.length rows)).
  pose proof (page_count_upper n ltac:(lia)).
  case_bool_decide; subst n; lia.
Qed.

(** ** Properties of the table *)

(** C8: the pages [1 .. Math.ceil(total / 10)] of the page buttons, put end
    to end, are exactly the filtered rows: no row is skipped or shown twice. *)
Theorem pages_partition_rows (rows : list (obj string)) :
  List.concat (map (fun i => page_rows rows (Z.of_nat i))
            (seq 1 (Z.to_nat (page_count (Z.of_nat (List.length rows)))))) = rows.
Proof.
  rewrite <- seq_shift, map_map.
  erewrite map_ext by (intros k; apply page_rows_block).
  apply concat_blocks, page_count_bound.
Qed.

(** C29: every page but the last holds ten rows and the last one holds the
    remainder: [total - 10 * (pages - 1)] rows. *)
Theorem page_sizes (rows : list (obj string)) (i : Z) :
  let n := Z.of_nat (List.length rows) in
  (1 <= i <= page_count n)%Z ->
  Z.of_nat (List.length (page_rows rows i)) =
    if bool_decide (i = page_count n) then (n - 10 * (i - 1))%Z else 10%Z.
Proof. apply page_rows_length. Qed.

Example page_sizes_witness :
  (1 <= 3 <= page_count (Z.of_nat (List.length (repeat (@empty string) 25))))%Z /\
  Z.of_nat (List.length (page_rows (repeat (@empty string) 25) 3)) = 5%Z.
Proof.
  assert (Hi : (1 <= 3 <= page_count (Z.of_nat (List.length (repeat (@empty string) 25))))%Z)
    by (vm_compute; split; discriminate).
  split; [exact Hi|]. rewrite (page_sizes (repeat empty 25) 3 Hi). reflexivity.
Defined.

(** C34: for a row whose keys are trimmed, as every row of [parseCSV] is,
    the retro-compatible lookup of [row[col.key + ' ']] (lines 231-233)
    never finds anything: a cell is [row[col.key] || ''] for every column. *)
Theorem cell_fallback_dead (row : obj string) (col : column) :
  Forall (fun k => trim k = k) (map fst (props row)) ->
  cell_value row col = get_or_empty row (col_key col).
Proof.
  intros Hrow. unfold cell_value, get_or_empty.
  destruct (obj_get row (col_key col)) as [v|]; [done|].
  destruct (ends_with_char (col_key col) "?"%char); [|done].
  destruct (obj_get row (col_key col +:+ " ")) as [v|] eqn:Hv; [|done].
  exfalso. assert (Hin : is_Some (obj_get row (col_key col +:+ " "))) by eauto.
  apply assoc_get_in in Hin. rewrite Forall_forall in Hrow.
  by apply (trim_app_space (col_key col)), Hrow.
Qed.

Example cell_fallback_dead_witness :
  Forall (fun k => trim k = k) (map fst (props (obj_of_pairs [(key_age, "31")]))) /\
  cell_value (obj_of_pairs [(key_age, "31")]) {| col_key := key_name; col_label := "Nome" |} =
    get_or_empty (obj_of_pairs [(key_age, "31")]) key_name.
Proof.
  assert (H : Forall (fun k => trim k = k) (map fst (props (obj_of_pairs [(key_age, "31")]))))
    by (apply (bool_decide_unpack _); vm_compute; reflexivity).
  split; [exact H|]. exact (cell_fallback_dead _ {| col_key := key_name; col_label := "Nome" |} H).
Defined.

Section Handlers.
Context `{TableSorter}.

Lemma step_page_valid st ev st' : step st ev st' -> page_valid st -> page_valid st'.
Proof.
  destruct 1 as [st v|st v|st i Hi|st idx Hidx|st]; intros Hv;
    try (split; simpl; lia); [|done].
  split; simpl; [lia|]. right. unfold filtered in *. simpl. lia.
Qed.

Lemma step_data_perm st ev st' : step st ev st' -> Permutation (tableData st') (tableData st).
Proof. destruct 1; simpl; try done. apply sort_table_perm. Qed.

Lemma reachable_page_valid_ind data st : reachable data st -> page_valid st.
Proof.
  induction 1 as [|st ev st' _ IH Hstep].
  - split; simpl; lia.
  - by eapply step_page_valid.
Qed.

Lemma reachable_perm_ind data st : reachable data st -> Permutation (tableData st) data.
Proof.
  induction 1 as [|st ev st' _ IH Hstep]; [done|].
  etransitivity; [eapply step_data_perm; eassumption|exact IH].
Qed.

Lemma steps_reachable data st evs st' : reachable data st -> steps st evs st' -> reachable data st'.
Proof. intros Hr Hs. induction Hs; eauto using reach_step. Qed.

(** C6: in every state reachable from [setupTable(data)], [currentPage] is 1
    or the label of one of the page buttons of the current filter. *)
Theorem reachable_page_valid data st : reachable data st -> page_valid st.
Proof. apply reachable_page_valid_ind. Qed.

(** C7: in every reachable state, [tableData] is a permutation of the
    loaded records: sorting never loses or duplicates a response. *)
Theorem reachable_data_perm data st : reachable data st -> Permutation (tableData st) data.
Proof. apply reachable_perm_ind. Qed.

(** C28: whenever some row matches the search and the filter, the page the
    table shows is not empty. *)
Theorem reachable_page_nonempty data st :
  reachable data st -> filtered st <> [] -> page_rows (filtered st) (currentPage st) <> [].
Proof.
  intros Hr Hne. destruct (reachable_page_valid_ind data st Hr) as [H1 H2].
  set (n := Z.of_nat (List.length (filtered st))) in *.
  assert (0 < n)%Z by (destruct (filtered st); [done|subst n; simpl; lia]).
  pose proof (page_count_pos n ltac:(lia)). pose proof (page_count_upper n ltac:(lia)).
  assert (Hin : (1 <= currentPage st <= page_count n)%Z) by lia.
  pose proof (page_rows_length (filtered st) (currentPage st) Hin) as Hs.
  intros Hnil. revert Hs. rewrite Hnil. fold n. case_bool_decide; simpl; lia.
Qed.

(** C30: clicking the same column header repeatedly toggles the order,
    starting ascending on a column that was not the sort key. *)
Theorem sort_toggle st idx key :
  tableColumns !! idx = Some key -> sortKey st <> Some (col_key key) ->
  sortAsc (sortTable idx st) = Some true /\
  sortAsc (sortTable idx (sortTable idx st)) = Some false /\
  sortAsc (sortTable idx (sortTable idx (sortTable idx st))) = Some true.
Proof.
  intros Hidx Hk. unfold sortTable, next_asc. rewrite Hidx. simpl.
  destruct (sortKey st) as [k|];
    [destruct (String.eqb_spec k (col_key key)); [congruence|]|];
    simpl; by rewrite String.eqb_refl.
Qed.

(** C9: whatever the user has done, every loaded response can still be
    brought on screen: from every reachable state, clearing the search box,
    choosing no rating and clicking one page button (three actions) reach a
    state whose table shows that response's cells. *)
Theorem response_reachable_on_screen data st row :
  reachable data st -> row ∈ data ->
  exists evs st', List.length evs = 3%nat /\ steps st evs st' /\ reachable data st' /\
    map (cell_value row) tableColumns ∈ view_cells (render st').
Proof.
  intros Hr Hrow. set (st1 := on_filter EmptyString (on_search EmptyString st)).
  assert (Hf : filtered st1 = tableData st) by (by rewrite filtered_nil_search_filter).
  assert (Hin : row ∈ tableData st).
  { apply list_elem_of_In. eapply Permutation_in; [symmetry; apply reachable_perm_ind, Hr|].
    by apply list_elem_of_In. }
  apply list_elem_of_lookup_1 in Hin as [i Hi].
  destruct (row_on_page (tableData st) i row Hi) as [Hp Hb].
  exists [Search EmptyString; Filter EmptyString; ClickPage (Z.of_nat (S (i / 10)%nat))],
    (on_page (Z.of_nat (S (i / 10)%nat)) st1).
  assert (Hs : steps st [Search EmptyString; Filter EmptyString; ClickPage (Z.of_nat (S (i / 10)%nat))]
                 (on_page (Z.of_nat (S (i / 10)%nat)) st1)).
  { eapply steps_cons; [apply step_search|]. eapply steps_cons; [apply step_filter|].
    eapply steps_cons; [apply step_page; fold st1; by rewrite Hf|]. apply steps_nil. }
  split; [done|]. split; [done|]. split; [by eapply steps_reachable|].
  unfold render. cbn [view_cells currentPage on_page].
  apply (list_elem_of_fmap_2 (fun r => map (cell_value r) tableColumns)).
  change (filtered (on_page _ st1)) with (filtered st1). by rewrite Hf.
Qed.

End Handlers.

End TableView.
