(* ===== verification/Sorting.v ===== *)
(** * Sorting: [getDate] and the comparator of [sortTable] (lines 60-64, 283-296)

    [sortTable(colIdx)] sorts [tableData] in place with
    [(a, b) => ...]: the date column compares [getDate(v) || new Date(0)]
    by subtraction, any other column subtracts the two values when both
    convert to numbers and calls [localeCompare] otherwise.

    - [find_date] is the regular expression [/(\d{4}\/\d{2}\/\d{2})/] (the
      leftmost match); [date_value] is [new Date("YYYY/MM/DD")] as V8's
      legacy date parser reads it: three numbers, year first unless the
      first one is a valid day (1-31), years 0-49 and 50-99 moved to
      20xx and 19xx, month 1-12 and day 1-31 checked (an Invalid Date
      otherwise, whose time value is NaN), the day counted from the first
      of the month, at local midnight: [utc_offset] is the time zone's
      offset in milliseconds (10800000 for GMT-3, which has had no daylight
      saving time since 2019).
    - [localeCompare] is the engine's ICU collation: the development is
      parametric in it ([locale_compare]).
    - [Array.prototype.sort] is TimSort in V8, a stable sort; [stable_sort]
      is a stable insertion sort, which orders an array the same way
      whenever the comparator is consistent ([stable_sort_unique]: a
      sorted and stable permutation is unique); ECMA-262 leaves the order
      implementation-defined otherwise. *)

From stdpp Require Import base list sets strings.
From Stdlib Require Import Ascii String ZArith Lia Permutation Sorted.
From Stdlib Require QArith_base.
From S2P Require Import Spec2Rocq JsString JsObject JsNumber TableView.
Import JsString JsObject JsNumber TableView.

Module Sorting.

(** ** [getDate] *)

Definition slash_char : ascii := "/"%char.

(** [\d{4}\/\d{2}\/\d{2}] at the start of [s]: the three numbers. *)
Definition date_at (s : string) : option (Z * Z * Z) :=
  match s with
  | String y1 (String y2 (String y3 (String y4 (String s1
      (String m1 (String m2 (String s2 (String d1 (String d2 _))))))))) =>
      if forallb is_digit [y1; y2; y3; y4; m1; m2; d1; d2]
         && char_is s1 slash_char && char_is s2 slash_char
      then Some ((1000 * digit_value y1 + 100 * digit_value y2 + 10 * digit_value y3 + digit_value y4)%Z,
                 (10 * digit_value m1 + digit_value m2)%Z,
                 (10 * digit_value d1 + digit_value d2)%Z)
      else None
  | _ => None
  end.

(** [val.match(/(\d{4}\/\d{2}\/\d{2})/)]: the leftmost match. *)
Fixpoint find_date (s : string) : option (Z * Z * Z) :=
  match s with
  | EmptyString => None
  | String _ r => match date_at s with Some d => Some d | None => find_date r end
  end.

(** Days from 1970-01-01 to a proleptic Gregorian date (month 1-12); the
    day may exceed the month's length and then counts on, as MakeDay does. *)
Definition days_from_civil (y m d : Z) : Z :=
  let y' := if (m <=? 2)%Z then (y - 1)%Z else y in
  let era := (y' / 400)%Z in
  let yoe := (y' - era * 400)%Z in
  let mp := ((m + 9) mod 12)%Z in
  let doy := ((153 * mp + 2) / 5 + d - 1)%Z in
  let doe := (yoe * 365 + yoe / 4 - yoe / 100 + doy)%Z in
  (era * 146097 + doe - 719468)%Z.

Definition ms_per_day : Z := 86400000.

Definition is_day (x : Z) : bool := ((1 <=? x) && (x <=? 31))%Z.

(** [new Date("a/b/c")] with three numbers: the time value, [None] for an
    Invalid Date. *)
Definition date_value (utc_offset a b c : Z) : option Z :=
  let '(y, m, d) := if is_day a then (c, a, b) else (a, b, c) in
  let y := if ((0 <=? y) && (y <=? 49))%Z then (y + 2000)%Z
           else if ((50 <=? y) && (y <=? 99))%Z then (y + 1900)%Z else y in
  if ((1 <=? m) && (m <=? 12))%Z && is_day d
  then Some (days_from_civil y m d * ms_per_day + utc_offset)%Z
  else None.

(** Lines 60-64: [getDate(val)] on a string: [null] when no date matches,
    otherwise a Date object, given by its time value ([None] for an
    Invalid Date). *)
Definition getDate (utc_offset : Z) (val : string) : option (option Z) :=
  match find_date val with
  | None => None
  | Some (a, b, c) => Some (date_value utc_offset a b c)
  end.

(** [getDate(v) || new Date(0)] as a time value: no match gives the epoch;
    an Invalid Date object is truthy and keeps its NaN time value. *)
Definition date_or_epoch (utc_offset : Z) (v : string) : option Z :=
  default (Some 0%Z) (getDate utc_offset v).

(** Lines 288-291 on the date column: [a[key] || ''], then
    [getDate(va) || new Date(0)], as a time value. *)
Definition row_time (utc_offset : Z) (row : obj string) : option Z :=
  date_or_epoch utc_offset (get_or_empty row key_date).

(** The sign of [ta - tb] for two Date objects. *)
Definition time_sub_sign (ta tb : option Z) : comparison :=
  match ta, tb with
  | Some a, Some b => Z.compare a b
  | _, _ => Eq
  end.

(** ** The comparator and the sort *)

Section Comparator.
Variable locale_compare : string -> string -> comparison.
Variable utc_offset : Z.

(** Lines 287-296, as SortCompare reads the result. *)
Definition sort_compare (colIdx : nat) (asc : bool) (a b : obj string) : comparison :=
  let key := default EmptyString (col_key <$> tableColumns !! colIdx) in
  let va := get_or_empty a key in
  let vb := get_or_empty b key in
  if Nat.eqb colIdx 0 then
    let ta := date_or_epoch utc_offset va in
    let tb := date_or_epoch utc_offset vb in
    if asc then time_sub_sign ta tb else time_sub_sign tb ta
  else if negb (is_nan (to_number va)) && negb (is_nan (to_number vb)) then
    if asc then sub_sign (to_number va) (to_number vb) else sub_sign (to_number vb) (to_number va)
  else if asc then locale_compare va vb else locale_compare vb va.

End Comparator.

(** A stable insertion sort: [x] goes after every element not greater than it. *)
Fixpoint insert_sorted {A} (cmp : A -> A -> comparison) (x : A) (l : list A) : list A :=
  match l with
  | [] => [x]
  | y :: r => match cmp y x with Gt => x :: l | _ => y :: insert_sorted cmp x r end
  end.

Definition stable_sort {A} (cmp : A -> A -> comparison) (l : list A) : list A :=
  fold_left (fun acc x => insert_sorted cmp x acc) l [].

(** [tableData.sort(comparator)] *)
Definition sort_rows (locale_compare : string -> string -> comparison) (utc_offset : Z)
    (colIdx : nat) (asc : bool) (rows : list (obj string)) : list (obj string) :=
  stable_sort (sort_compare locale_compare utc_offset colIdx asc) rows.


(** ** Lemmas *)

Section Sort.
Context {A : Type} (cmp : A -> A -> comparison).

Lemma insert_sorted_perm x l : Permutation (insert_sorted cmp x l) (x :: l).
Proof.
  induction l as [|y l IH]; simpl; [done|].
  destruct (cmp y x); try (etransitivity; [apply perm_skip, IH|apply perm_swap]); done.
Qed.

Lemma stable_sort_acc_perm l acc :
  Permutation (fold_left (fun acc x => insert_sorted cmp x acc) l acc) (l ++ acc).
Proof.
  revert acc. induction l as [|x l IH]; intros acc; simpl; [done|].
  rewrite IH, insert_sorted_perm. by rewrite Permutation_middle.
Qed.

Lemma stable_sort_perm l : Permutation (stable_sort cmp l) l.
Proof. unfold stable_sort. by rewrite stable_sort_acc_perm, app_nil_r. Qed.

(** The comparator is antisymmetric on the values of [P]. *)
Definition antisym_on (P : A -> Prop) : Prop :=
  forall a b, P a -> P b -> cmp b a = CompOpp (cmp a b).

Definition not_after (a b : A) : Prop := cmp a b <> Gt.

Lemma insert_sorted_hdrel y x l :
  not_after y x -> HdRel not_after y l -> HdRel not_after y (insert_sorted cmp x l).
Proof.
  intros Hyx Hhd. destruct l as [|z l]; simpl; [by constructor|].
  inversion Hhd; subst. destruct (cmp z x); by constructor.
Qed.

Lemma insert_sorted_sorted (P : A -> Prop) x l :
  antisym_on P -> P x -> Forall P l ->
  Sorted not_after l -> Sorted not_after (insert_sorted cmp x l).
Proof.
  intros Hanti Hx Hl Hs. induction Hs as [|y l Hs IH Hhd]; simpl; [by repeat constructor|].
  inversion Hl as [|? ? Hy Hl']; subst.
  destruct (cmp y x) eqn:Eyx.
  1,2: constructor; [by apply IH|apply insert_sorted_hdrel; [unfold not_after; congruence|done]].
  constructor; [by constructor|]. constructor. unfold not_after.
  by rewrite (Hanti y x Hy Hx), Eyx.
Qed.

Lemma fold_insert_sorted (P : A -> Prop) l acc :
  antisym_on P -> Forall P l -> Forall P acc -> Sorted not_after acc ->
  Sorted not_after (fold_left (fun acc x => insert_sorted cmp x acc) l acc).
Proof.
  intros Hanti Hl. revert acc. induction Hl as [|x l Hx Hl IH]; intros acc Hacc Hs; simpl; [done|].
  apply IH.
  - eapply Permutation_Forall; [symmetry; apply insert_sorted_perm|by constructor].
  - by apply (insert_sorted_sorted P).
Qed.

Lemma stable_sort_sorted_on l :
  antisym_on (fun a => a ∈ l) -> Sorted not_after (stable_sort cmp l).
Proof.
  intros Hanti. apply (fold_insert_sorted (fun a => a ∈ l)); [done| |constructor|constructor].
  by apply Forall_forall.
Qed.

(** ** Uniqueness of the stable order

    [Array.prototype.sort] is stable in V8 (TimSort).  For a comparator
    that is a total preorder on the array, a stable sort has a single
    possible result: the permutation that is sorted and keeps the elements
    of equal rank in their original order.  So [stable_sort], an insertion
    sort, is the order the engine produces. *)

(** [cmp] is transitive on the values of [P]. *)
Definition trans_on (P : A -> Prop) : Prop :=
  forall a b c, P a -> P b -> P c -> not_after a b -> not_after b c -> not_after a c.

(** [y] has the same rank as [x]: [cmp] does not order them apart. *)
Definition same_rank (x y : A) : bool := bool_decide (cmp x y = Eq).

Section Consistent.
Context (P : A -> Prop) (Hanti : antisym_on P) (Htrans : trans_on P).

Lemma cmp_refl_on x : P x -> cmp x x = Eq.
Proof. intros Hx. pose proof (Hanti x x Hx Hx). destruct (cmp x x); simpl in *; congruence. Qed.

Lemma not_after_same_rank x y : P x -> P y -> cmp x y = Eq -> not_after x y /\ not_after y x.
Proof. intros Hx Hy E. unfold not_after. rewrite (Hanti x y Hx Hy), E. split; discriminate. Qed.

Lemma sorted_head_le x l :
  Forall P (x :: l) -> Sorted not_after (x :: l) -> forall y, y ∈ l -> not_after x y.
Proof.
  revert x. induction l as [|z l IH]; intros x HP Hs y Hy; [by apply elem_of_nil in Hy|].
  apply Sorted_inv in Hs as [Hs Hhd]. apply HdRel_inv in Hhd.
  apply Forall_cons in HP as [Hx HP]. pose proof HP as [Hz HPl]%Forall_cons.
  apply elem_of_cons in Hy as [->|Hy]; [done|].
  rewrite Forall_forall in HPl.
  apply (Htrans x z y); [done|done|by apply HPl|done|by apply IH].
Qed.

(** The head of a sorted list is not after any element of it. *)
Lemma sorted_in_le y l w :
  Forall P (y :: l) -> Sorted not_after (y :: l) -> w ∈ y :: l -> not_after y w.
Proof.
  intros HP Hs [->|Hw]%elem_of_cons; [|by eapply sorted_head_le].
  apply Forall_cons in HP as [Hy _]. unfold not_after. by rewrite cmp_refl_on.
Qed.

(** The head of a sorted list that holds an element of [x]'s rank is not
    after [x]. *)
Lemma rank_member_le x y l :
  P x -> Forall P (y :: l) -> Sorted not_after (y :: l) ->
  List.filter (same_rank x) (y :: l) <> [] -> not_after y x.
Proof.
  intros Hx HP Hs Hne. destruct (List.filter (same_rank x) (y :: l)) as [|w ws] eqn:F; [done|].
  assert (Hw : In w (List.filter (same_rank x) (y :: l))) by (rewrite F; by left).
  apply filter_In in Hw as [Hw Hr%bool_decide_eq_true]. apply list_elem_of_In in Hw.
  assert (Pw : P w) by (rewrite Forall_forall in HP; by apply HP).
  apply (Htrans y w x); [by apply Forall_cons in HP as []|done|done|by eapply sorted_in_le|].
  by apply not_after_same_rank.
Qed.

(** No element after a greater one has the rank of a smaller one. *)
Lemma rank_absent_after z x y l :
  P z -> P x -> Forall P (y :: l) -> Sorted not_after (y :: l) ->
  cmp z x = Eq -> cmp y x = Gt -> List.filter (same_rank z) (y :: l) = [].
Proof.
  intros Hz Hx HP Hs Ezx Eyx. destruct (List.filter (same_rank z) (y :: l)) eqn:F; [done|exfalso].
  assert (Hyz : not_after y z) by (apply (rank_member_le z y l); rewrite ?F; done).
  assert (Hy : P y) by (by apply Forall_cons in HP as []).
  apply (Htrans y z x Hy Hz Hx Hyz (proj1 (not_after_same_rank z x Hz Hx Ezx))). done.
Qed.

(** Inserting [x] puts it after the elements of its rank. *)
Lemma insert_sorted_filter z x l :
  P z -> P x -> Forall P l -> Sorted not_after l ->
  List.filter (same_rank z) (insert_sorted cmp x l) =
    List.filter (same_rank z) l ++ (if same_rank z x then [x] else []).
Proof.
  intros Hz Hx. induction l as [|y l IH]; intros HP Hs; simpl; [by destruct (same_rank z x)|].
  pose proof HP as [Hy HPl]%Forall_cons. pose proof Hs as [Hsl _]%Sorted_inv.
  destruct (cmp y x) eqn:E.
  1,2: cbn [List.filter]; rewrite IH by done; by destruct (same_rank z y).
  change (List.filter (same_rank z) (x :: y :: l)) with
    (if same_rank z x then x :: List.filter (same_rank z) (y :: l) else List.filter (same_rank z) (y :: l)).
  destruct (same_rank z x) eqn:Ez; [|by rewrite app_nil_r].
  apply bool_decide_eq_true in Ez. pose proof (rank_absent_after z x y l Hz Hx HP Hs Ez E) as H0.
  cbn [List.filter] in H0 |- *. by rewrite H0.
Qed.

Lemma fold_insert_filter z l acc :
  P z -> Forall P l -> Forall P acc -> Sorted not_after acc ->
  List.filter (same_rank z) (fold_left (fun acc x => insert_sorted cmp x acc) l acc) =
    List.filter (same_rank z) acc ++ List.filter (same_rank z) l.
Proof.
  intros Hz Hl. revert acc. induction Hl as [|x l Hx Hl IH]; intros acc Hacc Hs; simpl.
  { by rewrite app_nil_r. }
  rewrite IH.
  - rewrite insert_sorted_filter by done. rewrite <- app_assoc. by destruct (same_rank z x).
  - eapply Permutation_Forall; [symmetry; apply insert_sorted_perm|by constructor].
  - by apply (insert_sorted_sorted P).
Qed.

(** [stable_sort] keeps the elements of each rank in their order. *)
Lemma stable_sort_stable z l :
  P z -> Forall P l -> List.filter (same_rank z) (stable_sort cmp l) = List.filter (same_rank z) l.
Proof. intros Hz Hl. unfold stable_sort. by rewrite fold_insert_filter. Qed.

(** Two sorted lists with the same elements of each rank, in the same
    order, are equal. *)
Lemma sorted_unique l1 l2 :
  Forall P l1 -> Forall P l2 -> Sorted not_after l1 -> Sorted not_after l2 ->
  (forall z, P z -> List.filter (same_rank z) l1 = List.filter (same_rank z) l2) -> l1 = l2.
Proof.
  revert l2. induction l1 as [|x l1 IH]; intros [|y l2] HP1 HP2 Hs1 Hs2 Hf; [done|..].
  - apply Forall_cons in HP2 as [Hy _]. specialize (Hf y Hy). simpl in Hf. unfold same_rank in Hf.
    by rewrite (bool_decide_eq_true_2 (cmp y y = Eq) (cmp_refl_on y Hy)) in Hf.
  - apply Forall_cons in HP1 as [Hx _]. specialize (Hf x Hx). simpl in Hf. unfold same_rank in Hf.
    by rewrite (bool_decide_eq_true_2 (cmp x x = Eq) (cmp_refl_on x Hx)) in Hf.
  - pose proof HP1 as [Hx HPl1]%Forall_cons. pose proof HP2 as [Hy HPl2]%Forall_cons.
    assert (Hxx : same_rank x x = true) by (apply bool_decide_eq_true_2, cmp_refl_on, Hx).
    assert (Hyy : same_rank y y = true) by (apply bool_decide_eq_true_2, cmp_refl_on, Hy).
    assert (Exy : cmp x y = Eq).
    { destruct (cmp x y) eqn:E; [done|exfalso..].
      - apply (rank_member_le x y l2 Hx HP2 Hs2); [rewrite <- (Hf x Hx); simpl; by rewrite Hxx|].
        unfold not_after. by rewrite (Hanti x y Hx Hy), E.
      - apply (rank_member_le y x l1 Hy HP1 Hs1); [rewrite (Hf y Hy); simpl; by rewrite Hyy|].
        unfold not_after. by rewrite E. }
    pose proof (Hf x Hx) as Hfx. simpl in Hfx. rewrite Hxx in Hfx.
    assert (Hxy : same_rank x y = true) by (by apply bool_decide_eq_true_2).
    rewrite Hxy in Hfx. injection Hfx as <- _.
    f_equal. apply IH; [done|done|by apply Sorted_inv in Hs1 as []|by apply Sorted_inv in Hs2 as []|].
    intros z Hz. specialize (Hf z Hz). simpl in Hf. destruct (same_rank z x); [by injection Hf|done].
Qed.

End Consistent.

(** For a comparator that is a total preorder on the array, the
    stable insertion sort is the only order a stable sort can produce:
    any permutation of the rows that is sorted and keeps the rows of equal
    rank in their original order (as V8's TimSort does) is [stable_sort]'s
    result. *)
Theorem stable_sort_unique l l' :
  antisym_on (fun a => a ∈ l) -> trans_on (fun a => a ∈ l) ->
  Permutation l' l -> Sorted not_after l' ->
  (forall x, x ∈ l -> List.filter (same_rank x) l' = List.filter (same_rank x) l) ->
  l' = stable_sort cmp l.
Proof.
  intros Hanti Htrans Hperm Hs Hstab.
  assert (Hl : Forall (fun a => a ∈ l) l) by (by apply Forall_forall).
  apply (sorted_unique _ Hanti Htrans).
  - eapply Permutation_Forall; [symmetry; exact Hperm|exact Hl].
  - eapply Permutation_Forall; [symmetry; apply stable_sort_perm|exact Hl].
  - exact Hs.
  - by apply stable_sort_sorted_on.
  - intros z Hz. rewrite Hstab by done. symmetry. by apply (stable_sort_stable _ Hanti Htrans).
Qed.

End Sort.

Lemma sub_sign_antisym x y : sub_sign y x = CompOpp (sub_sign x y).
Proof. destruct x, y; simpl; try done. symmetry. apply QArith_base.Qcompare_antisym. Qed.

Lemma time_sub_sign_antisym x y : time_sub_sign y x = CompOpp (time_sub_sign x y).
Proof. destruct x, y; simpl; try done. apply Z.compare_antisym. Qed.

(** The implementation of the table's reordering. *)
Definition v8_sorter (locale_compare : string -> string -> comparison) (utc_offset : Z) : TableSorter :=
  {| sort_table := sort_rows locale_compare utc_offset;
     sort_table_perm idx asc rows := stable_sort_perm _ rows |}.


Lemma Sorted_weaken_in {A} (R R' : A -> A -> Prop) (l : list A) :
  (forall a b, a ∈ l -> b ∈ l -> R a b -> R' a b) -> Sorted R l -> Sorted R' l.
Proof.
  intros HRR' Hs. induction Hs as [|x l Hs IH Hhd]; constructor.
  - apply IH. intros a b Ha Hb. apply HRR'; by right.
  - destruct Hhd as [|y l' Hxy]; constructor. apply HRR'; [by left|by right; left|done].
Qed.

(** Antisymmetry on the elements of a list, checked pair by pair. *)
Lemma antisym_on_check {A} (cmp : A -> A -> comparison) (l : list A) :
  forallb (fun a => forallb (fun b => bool_decide (cmp b a = CompOpp (cmp a b))) l) l = true ->
  antisym_on cmp (fun a => a ∈ l).
Proof.
  intros H a b Ha Hb. rewrite forallb_forall in H.
  specialize (H a (proj1 (list_elem_of_In _ _) Ha)). rewrite forallb_forall in H.
  specialize (H b (proj1 (list_elem_of_In _ _) Hb)). by apply bool_decide_eq_true in H.
Qed.

(** Transitivity on the elements of a list, checked triple by triple. *)
Lemma trans_on_check {A} (cmp : A -> A -> comparison) (l : list A) :
  forallb (fun a => forallb (fun b => forallb (fun c =>
    bool_decide (not_after cmp a b -> not_after cmp b c -> not_after cmp a c)) l) l) l = true ->
  trans_on cmp (fun a => a ∈ l).
Proof.
  intros H a b c Ha Hb Hc. rewrite forallb_forall in H.
  specialize (H a (proj1 (list_elem_of_In _ _) Ha)). rewrite forallb_forall in H.
  specialize (H b (proj1 (list_elem_of_In _ _) Hb)). rewrite forallb_forall in H.
  specialize (H c (proj1 (list_elem_of_In _ _) Hc)). by apply bool_decide_eq_true in H.
Qed.

(** Sortedness, checked pair by pair. *)
Lemma sorted_check {A} (cmp : A -> A -> comparison) (l : list A) :
  forallb (fun '(a, b) => bool_decide (not_after cmp a b)) (zip l (tail l)) = true ->
  Sorted (not_after cmp) l.
Proof.
  induction l as [|x [|y l] IH]; intros H; [constructor|by repeat constructor|].
  simpl in H. apply andb_true_iff in H as [Hxy H].
  constructor; [by apply IH|constructor]. by apply bool_decide_eq_true in Hxy.
Qed.

(** On a non-date column whose values all convert to numbers, the
    comparator is the sign of the difference of the numbers. *)
Lemma sort_compare_numeric lc tz (idx : nat) (asc : bool) key a b :
  tableColumns !! idx = Some key -> idx <> 0 ->
  is_nan (to_number (get_or_empty a (col_key key))) = false ->
  is_nan (to_number (get_or_empty b (col_key key))) = false ->
  sort_compare lc tz idx asc a b =
    let x := to_number (get_or_empty a (col_key key)) in
    let y := to_number (get_or_empty b (col_key key)) in
    if asc then sub_sign x y else sub_sign y x.
Proof.
  intros Hidx H0 Ha Hb. unfold sort_compare. rewrite Hidx. simpl.
  rewrite Ha, Hb. destruct idx; [done|]. reflexivity.
Qed.

(** On the date column the comparator is the sign of the difference of
    the two time values. *)
Lemma sort_compare_date lc tz (asc : bool) a b :
  sort_compare lc tz 0 asc a b =
    if asc then time_sub_sign (row_time tz a) (row_time tz b)
    else time_sub_sign (row_time tz b) (row_time tz a).
Proof. reflexivity. Qed.

(** The elements of a sorted list of rows are the rows. *)
Lemma sort_rows_in lc tz idx asc rows a : a ∈ sort_rows lc tz idx asc rows -> a ∈ rows.
Proof.
  intros Ha%list_elem_of_In. apply list_elem_of_In.
  by apply (Permutation_in _ (stable_sort_perm (sort_compare lc tz idx asc) rows)).
Qed.

(** The rows of the test fixture: a name and a rating. *)
Definition rating_row (r : string) : obj string :=
  obj_of_pairs [(key_name, "x"); (key_rating, r)].

Definition age_row (a : string) : obj string := obj_of_pairs [(key_age, a)].

(** On the age column (2) the comparator reads the age answers. *)
Lemma sort_compare_age lc tz (asc : bool) a b :
  sort_compare lc tz 2 asc (age_row a) (age_row b) =
    if negb (is_nan (to_number a)) && negb (is_nan (to_number b)) then
      (if asc then sub_sign (to_number a) (to_number b) else sub_sign (to_number b) (to_number a))
    else if asc then lc a b else lc b a.
Proof. reflexivity. Qed.

Definition fixture : list (obj string) := [rating_row "3"; rating_row "1"; rating_row "2"].

(** Two respondents with the same rating, and the ascending rating order. *)
Definition named_row (n r : string) : obj string :=
  obj_of_pairs [(key_name, n); (key_rating, r)].

Definition tie_fixture : list (obj string) := [named_row "a" "2"; named_row "b" "1"; named_row "c" "2"].

Definition rating_order : obj string -> obj string -> comparison :=
  sort_compare String.compare 10800000 3 true.

(** A code-unit collation at GMT-3, for the concrete runs below. *)
#[local] Instance gmt3_sorter : TableSorter := v8_sorter String.compare 10800000.

(** ** Properties of [sortTable] *)

(** C10: sorting a column other than the date on which every value converts
    to a number orders the rows by that number, ascending or descending as
    [window._sortAsc] says. *)
Theorem sort_numeric_column lc tz (idx : nat) (asc : bool) key rows :
  tableColumns !! idx = Some key -> idx <> 0 ->
  Forall (fun r => is_nan (to_number (get_or_empty r (col_key key))) = false) rows ->
  Sorted (fun a b =>
            let x := to_number (get_or_empty a (col_key key)) in
            let y := to_number (get_or_empty b (col_key key)) in
            (if asc then sub_sign x y else sub_sign y x) <> Gt)
         (sort_rows lc tz idx asc rows).
Proof.
  intros Hidx H0 Hnum. rewrite Forall_forall in Hnum.
  pose proof (sort_rows_in lc tz idx asc rows) as Hin.
  eapply Sorted_weaken_in; [|apply stable_sort_sorted_on].
  - intros a b Ha Hb Hab. unfold not_after in Hab.
    by rewrite (sort_compare_numeric lc tz idx asc key) in Hab by auto.
  - intros a b Ha Hb. rewrite !(sort_compare_numeric lc tz idx asc key) by auto.
    destruct asc; apply sub_sign_antisym.
Qed.

Example sort_numeric_column_witness :
  Forall (fun r => is_nan (to_number (get_or_empty r key_rating)) = false) fixture /\
  Sorted (fun a b =>
            let x := to_number (get_or_empty a key_rating) in
            let y := to_number (get_or_empty b key_rating) in
            sub_sign x y <> Gt)
         (sort_rows String.compare 10800000 3 true fixture) /\
  sort_rows String.compare 10800000 3 true fixture = [rating_row "1"; rating_row "2"; rating_row "3"].
Proof.
  assert (H : Forall (fun r => is_nan (to_number (get_or_empty r key_rating)) = false) fixture)
    by (apply (bool_decide_unpack _); vm_compute; reflexivity).
  split; [exact H|]. split; [|vm_compute; reflexivity].
  exact (sort_numeric_column String.compare 10800000 3 true
           {| col_key := key_rating; col_label := "Nota Experi" +:+ String e_circ "ncia UBS" |}
           fixture eq_refl ltac:(discriminate) H).
Defined.

(** Two ratings that are the same double, [2^53 + 1] and [2^53], compare
    equal: the sort keeps them in their input order. *)
Example sort_rounds_to_double :
  sort_rows String.compare 10800000 3 true [rating_row "9007199254740993"; rating_row "9007199254740992"] =
    [rating_row "9007199254740993"; rating_row "9007199254740992"] /\
  sort_rows String.compare 10800000 3 true [rating_row "1e401"; rating_row "1e400"] =
    [rating_row "1e401"; rating_row "1e400"].
Proof. split; vm_compute; reflexivity. Qed.

(** C11: clicking the date header (column 0) when no timestamp is an
    Invalid Date orders the rows by the time value of their timestamp's
    date ([new Date(0)] for a row without a date), ascending or descending
    as [window._sortAsc] says. *)
Theorem sort_date_column lc tz (asc : bool) rows :
  Forall (fun r => is_Some (row_time tz r)) rows ->
  Sorted (fun a b => match row_time tz a, row_time tz b with
                     | Some x, Some y => if asc then (x <= y)%Z else (y <= x)%Z
                     | _, _ => False
                     end)
         (sort_rows lc tz 0 asc rows).
Proof.
  intros Hdate. rewrite Forall_forall in Hdate.
  pose proof (sort_rows_in lc tz 0 asc rows) as Hin.
  eapply Sorted_weaken_in; [|apply stable_sort_sorted_on].
  - intros a b Ha Hb Hab. unfold not_after in Hab. rewrite sort_compare_date in Hab.
    destruct (Hdate a (Hin a Ha)) as [x Hx], (Hdate b (Hin b Hb)) as [y Hy].
    rewrite Hx, Hy in Hab |- *. simpl in Hab. destruct asc; apply Z.compare_le_iff; congruence.
  - intros a b Ha Hb. rewrite !sort_compare_date. destruct asc; apply time_sub_sign_antisym.
Qed.

Example sort_date_column_witness :
  Forall (fun r => is_Some (row_time 10800000 r))
    [obj_of_pairs [(key_date, "2025/08/05 09:00:00")]; obj_of_pairs [(key_date, "2025/08/04 10:02:03")]] /\
  Sorted (fun a b => match row_time 10800000 a, row_time 10800000 b with
                     | Some x, Some y => (x <= y)%Z
                     | _, _ => False
                     end)
         (sort_rows String.compare 10800000 0 true
            [obj_of_pairs [(key_date, "2025/08/05 09:00:00")]; obj_of_pairs [(key_date, "2025/08/04 10:02:03")]]) /\
  sort_rows String.compare 10800000 0 true
    [obj_of_pairs [(key_date, "2025/08/05 09:00:00")]; obj_of_pairs [(key_date, "2025/08/04 10:02:03")]] =
    [obj_of_pairs [(key_date, "2025/08/04 10:02:03")]; obj_of_pairs [(key_date, "2025/08/05 09:00:00")]].
Proof.
  assert (H : Forall (fun r => is_Some (row_time 10800000 r))
    [obj_of_pairs [(key_date, "2025/08/05 09:00:00")]; obj_of_pairs [(key_date, "2025/08/04 10:02:03")]])
    by (apply (bool_decide_unpack _); vm_compute; reflexivity).
  split; [exact H|]. split; [|vm_compute; reflexivity].
  exact (sort_date_column String.compare 10800000 true _ H).
Defined.

(** C35: on the age column the comparator is not consistent when numeric
    and non-numeric answers are mixed: two answers [a < b] that convert to
    numbers and one [c] that does not, with a collation that puts [b]
    before [c] and [c] before [a], compare in a cycle [a < b < c < a], so
    ECMA-262 leaves the order [sort] produces implementation-defined. *)
Theorem age_comparator_cycle lc tz a b c :
  is_nan (to_number a) = false -> is_nan (to_number b) = false -> is_nan (to_number c) = true ->
  sub_sign (to_number a) (to_number b) = Lt -> lc b c = Lt -> lc c a = Lt ->
  sort_compare lc tz 2 true (age_row a) (age_row b) = Lt /\
  sort_compare lc tz 2 true (age_row b) (age_row c) = Lt /\
  sort_compare lc tz 2 true (age_row c) (age_row a) = Lt.
Proof.
  intros Ha Hb Hc Hab Hbc Hca. rewrite !sort_compare_age, Ha, Hb, Hc. done.
Qed.

Example age_comparator_cycle_witness :
  is_nan (to_number "55") = false /\ is_nan (to_number "100") = false /\
  is_nan (to_number "31 anos") = true /\ sub_sign (to_number "55") (to_number "100") = Lt /\
  String.compare "100" "31 anos" = Lt /\ String.compare "31 anos" "55" = Lt /\
  sort_compare String.compare 10800000 2 true (age_row "55") (age_row "100") = Lt /\
  sort_compare String.compare 10800000 2 true (age_row "100") (age_row "31 anos") = Lt /\
  sort_compare String.compare 10800000 2 true (age_row "31 anos") (age_row "55") = Lt.
Proof.
  do 6 (split; [vm_compute; reflexivity|]).
  apply age_comparator_cycle; vm_compute; reflexivity.
Defined.

(** Two rows rated 2 keep their order: the only stable ascending order
    of [a:2, b:1, c:2] is [b, a, c]. *)
Example stable_sort_unique_witness :
  antisym_on rating_order (fun a => a ∈ tie_fixture) /\
  trans_on rating_order (fun a => a ∈ tie_fixture) /\
  Permutation [named_row "b" "1"; named_row "a" "2"; named_row "c" "2"] tie_fixture /\
  Sorted (not_after rating_order) [named_row "b" "1"; named_row "a" "2"; named_row "c" "2"] /\
  (forall x, x ∈ tie_fixture ->
     List.filter (same_rank rating_order x) [named_row "b" "1"; named_row "a" "2"; named_row "c" "2"] =
     List.filter (same_rank rating_order x) tie_fixture) /\
  [named_row "b" "1"; named_row "a" "2"; named_row "c" "2"] = stable_sort rating_order tie_fixture.
Proof.
  assert (H1 : antisym_on rating_order (fun a => a ∈ tie_fixture))
    by (apply antisym_on_check; vm_compute; reflexivity).
  assert (H2 : trans_on rating_order (fun a => a ∈ tie_fixture))
    by (apply trans_on_check; vm_compute; reflexivity).
  assert (H3 : Permutation [named_row "b" "1"; named_row "a" "2"; named_row "c" "2"] tie_fixture)
    by (apply (bool_decide_unpack _); vm_compute; reflexivity).
  assert (H4 : Sorted (not_after rating_order) [named_row "b" "1"; named_row "a" "2"; named_row "c" "2"])
    by (apply sorted_check; vm_compute; reflexivity).
  assert (H5 : forall x, x ∈ tie_fixture ->
     List.filter (same_rank rating_order x) [named_row "b" "1"; named_row "a" "2"; named_row "c" "2"] =
     List.filter (same_rank rating_order x) tie_fixture).
  { apply Forall_forall. apply (bool_decide_unpack _). vm_compute. reflexivity. }
  split; [exact H1|]. split; [exact H2|]. split; [exact H3|]. split; [exact H4|]. split; [exact H5|].
  exact (stable_sort_unique rating_order tie_fixture _ H1 H2 H3 H4 H5).
Defined.

(** *** Concrete runs of the table's invariants on the fixture *)

Example reachable_page_valid_witness :
  reachable fixture (sortTable 3 (setupTable fixture)) /\ page_valid (sortTable 3 (setupTable fixture)).
Proof.
  assert (H : reachable fixture (sortTable 3 (setupTable fixture))).
  { eapply reach_step; [apply reach_init|]. apply step_sort. simpl. lia. }
  split; [exact H|]. exact (reachable_page_valid fixture _ H).
Defined.

Example reachable_data_perm_witness :
  reachable fixture (sortTable 3 (setupTable fixture)) /\
  Permutation (tableData (sortTable 3 (setupTable fixture))) fixture.
Proof.
  assert (H : reachable fixture (sortTable 3 (setupTable fixture))).
  { eapply reach_step; [apply reach_init|]. apply step_sort. simpl. lia. }
  split; [exact H|]. exact (reachable_data_perm fixture _ H).
Defined.

Example reachable_page_nonempty_witness :
  reachable fixture (setupTable fixture) /\ filtered (setupTable fixture) <> [] /\
  page_rows (filtered (setupTable fixture)) (currentPage (setupTable fixture)) <> [].
Proof.
  assert (H : reachable fixture (setupTable fixture)) by apply reach_init.
  assert (Hne : filtered (setupTable fixture) <> []) by (vm_compute; discriminate).
  split; [exact H|]. split; [exact Hne|]. exact (reachable_page_nonempty fixture _ H Hne).
Defined.

(** The spec's fixture: clicking the rating header twice sorts the three
    rows ascending and then descending. *)
Example sort_toggle_witness :
  tableColumns !! 3 = Some {| col_key := key_rating; col_label := "Nota Experi" +:+ String e_circ "ncia UBS" |} /\
  sortKey (setupTable fixture) <> Some key_rating /\
  (sortAsc (sortTable 3 (setupTable fixture)) = Some true /\
   sortAsc (sortTable 3 (sortTable 3 (setupTable fixture))) = Some false /\
   sortAsc (sortTable 3 (sortTable 3 (sortTable 3 (setupTable fixture)))) = Some true) /\
  tableData (sortTable 3 (setupTable fixture)) = [rating_row "1"; rating_row "2"; rating_row "3"] /\
  tableData (sortTable 3 (sortTable 3 (setupTable fixture))) = [rating_row "3"; rating_row "2"; rating_row "1"].
Proof.
  split; [reflexivity|]. split; [discriminate|]. split.
  { apply (sort_toggle (setupTable fixture) 3
      {| col_key := key_rating; col_label := "Nota Experi" +:+ String e_circ "ncia UBS" |});
      [reflexivity|discriminate]. }
  split; vm_compute; reflexivity.
Defined.

(** The spec's fixture, sorted by rating: the row rated 1 is brought back
    on screen by clearing the search, the filter and clicking page 1. *)
Example response_reachable_on_screen_witness :
  reachable fixture (sortTable 3 (setupTable fixture)) /\ rating_row "1" ∈ fixture /\
  exists evs st', List.length evs = 3%nat /\ steps (sortTable 3 (setupTable fixture)) evs st' /\
    reachable fixture st' /\ map (cell_value (rating_row "1")) tableColumns ∈ view_cells (render st').
Proof.
  assert (H : reachable fixture (sortTable 3 (setupTable fixture))).
  { eapply reach_step; [apply reach_init|]. apply step_sort. simpl. lia. }
  assert (Hin : rating_row "1" ∈ fixture) by (apply elem_of_cons; right; apply elem_of_cons; by left).
  split; [exact H|]. split; [exact Hin|]. exact (response_reachable_on_screen fixture _ _ H Hin).
Defined.

End Sorting.
