(* ===== verification/Calendar.v ===== *)
(** * Calendar: [toLocaleDateString('pt-BR', ...)] of the survey period (line 87)

    [renderDashboard] writes the first and the last date of the survey
    with [toLocaleDateString('pt-BR', { year: 'numeric', month: '2-digit',
    day: '2-digit' })].  The engine's ICU data give the pattern [dd/MM/y]:
    the day and the month in two digits, the year in as many digits as it
    has, in the local time zone; an Invalid Date gives ["Invalid Date"]
    (ECMA-402 20.4.1, ECMA-262 21.4.4.39).

    - [civil_from_days] is the proleptic Gregorian date of a day number
      counted from 1970-01-01, the inverse of [Sorting.days_from_civil];
    - [toLocaleDateString] takes the local day of a time value and writes
      it.  The years are those of the dates [getDate] builds (100 to
      9999); the eras of years before 1 are not modelled.

    The round trip [civil_from_days (days_from_civil y m d) = (y, m, d)]
    holds for every valid date; it is reduced to one era of 400 years
    (146097 days), which both conversions repeat, and checked on that era
    by evaluation. *)

From stdpp Require Import base list strings.
From Stdlib Require Import Ascii String ZArith Lia.
From S2P Require Import Spec2Rocq JsString JsNumber Sorting.
Import JsString JsNumber Sorting.

Local Open Scope Z_scope.

Module Calendar.

(** ** The date of a day number *)

(** The year of an era that its [doe]-th day falls in, years counted from
    the first of March (the year of a day is one more in January and
    February). *)
Definition yoe_of (doe : Z) : Z := (doe - doe / 1460 + doe / 36524 - doe / 146096) / 365.

(** The year within its era, the month and the day of the [doe]-th day
    of an era that starts on the first of March of a year divisible by
    400. *)
Definition civil_of_doe (doe : Z) : Z * Z * Z :=
  let yoe := yoe_of doe in
  let doy := doe - (365 * yoe + yoe / 4 - yoe / 100) in
  let mp := (5 * doy + 2) / 153 in
  let d := doy - (153 * mp + 2) / 5 + 1 in
  let m := if mp <? 10 then mp + 3 else mp - 9 in
  (yoe + (if m <=? 2 then 1 else 0), m, d).

(** The date of the [z]-th day after 1970-01-01. *)
Definition civil_from_days (z : Z) : Z * Z * Z :=
  let z' := z + 719468 in
  let era := z' / 146097 in
  let '(y, m, d) := civil_of_doe (z' - era * 146097) in
  (y + era * 400, m, d).

(** ** [toLocaleDateString] *)

(** A number of 0-99 in two digits (['2-digit']). *)
Definition pad2 (n : Z) : string :=
  String (digit_char (n / 10)) (String (digit_char (n mod 10)) EmptyString).

(** Line 87: a Date object, given by its time value ([None] for an
    Invalid Date), in the pattern [dd/MM/y] of its local day. *)
Definition toLocaleDateString (utc_offset : Z) (t : option Z) : string :=
  match t with
  | None => "Invalid Date"
  | Some t =>
      let '(y, m, d) := civil_from_days ((t - utc_offset) / ms_per_day) in
      pad2 d +:+ "/" +:+ pad2 m +:+ "/" +:+ z_to_string y
  end.

(** ** Valid dates *)

Definition leap_year (y : Z) : bool :=
  ((y mod 4 =? 0) && negb (y mod 100 =? 0)) || (y mod 400 =? 0).

Definition days_in_month (y m : Z) : Z :=
  if m =? 2 then (if leap_year y then 29 else 28)
  else if (m =? 4) || (m =? 6) || (m =? 9) || (m =? 11) then 30 else 31.

Definition valid_date (y m d : Z) : bool :=
  (1 <=? m) && (m <=? 12) && (1 <=? d) && (d <=? days_in_month y m).

(** ** One era *)

(** The day of the year, counted from the first of March, that
    [days_from_civil] gives a date. *)
Definition doy_of (m d : Z) : Z := (153 * ((m + 9) mod 12) + 2) / 5 + d - 1.

(** The day of its era that [days_from_civil] gives a date. *)
Definition doe_of (yoe m d : Z) : Z := yoe * 365 + yoe / 4 - yoe / 100 + doy_of m d.

Definition zrange (a : Z) (n : nat) : list Z := map (fun i => a + Z.of_nat i) (seq 0 n).

Definition jan_feb (m : Z) : Z := if m <=? 2 then 1 else 0.

(** The last day of each year of the era that starts in March of year 0
    (a February in the following calendar year), and [yoe_of] of its
    first and its last day. *)
Definition year_check : bool :=
  forallb (fun yoe =>
    let last := doe_of yoe 2 (days_in_month (yoe + 1) 2) in
    (yoe_of (doe_of yoe 3 1) =? yoe) && (yoe_of last =? yoe) && (last <? 146097))
    (zrange 0 400).

(** The month and the day of every day of a year, found back from the
    day of the year (February with 29 days). *)
Definition month_check : bool :=
  forallb (fun m => forallb (fun d =>
    let doy := doy_of m d in
    let mp := (5 * doy + 2) / 153 in
    (doy - (153 * mp + 2) / 5 + 1 =? d) && ((if mp <? 10 then mp + 3 else mp - 9) =? m))
    (zrange 1 (Z.to_nat (days_in_month 0 m)))) (zrange 1 12).

(** ** Lemmas *)

Lemma in_zrange (a x : Z) (n : nat) : a <= x < a + Z.of_nat n -> In x (zrange a n).
Proof.
  intros Hx. unfold zrange. apply in_map_iff. exists (Z.to_nat (x - a)).
  split; [lia|]. apply in_seq. lia.
Qed.

Lemma forallb_zrange (f : Z -> bool) (a x : Z) (n : nat) :
  forallb f (zrange a n) = true -> a <= x < a + Z.of_nat n -> f x = true.
Proof. rewrite forallb_forall. intros H Hx. by apply H, in_zrange. Qed.

Lemma days_in_month_bounds (y m : Z) : 28 <= days_in_month y m <= 31.
Proof. unfold days_in_month. repeat case_match; lia. Qed.

(** Year 0 is a leap year: its months are the longest. *)
Lemma days_in_month_le (y m : Z) : days_in_month y m <= days_in_month 0 m.
Proof. unfold days_in_month. change (leap_year 0) with true. repeat case_match; lia. Qed.

Lemma year_check_true : year_check = true.
Proof. vm_compute. reflexivity. Qed.

Lemma month_check_true : month_check = true.
Proof. vm_compute. reflexivity. Qed.

(** [yoe_of] never decreases along an era. *)
Lemma yoe_of_mono (x y : Z) : 0 <= x <= y -> y <= 146096 -> yoe_of x <= yoe_of y.
Proof.
  intros Hxy Hy. unfold yoe_of. apply Z.div_le_mono; [lia|].
  pose proof (Z.div_le_mono x y 36524 ltac:(lia) ltac:(lia)).
  pose proof (Z.div_mod x 1460 ltac:(lia)). pose proof (Z.mod_pos_bound x 1460 ltac:(lia)).
  pose proof (Z.div_mod y 1460 ltac:(lia)). pose proof (Z.mod_pos_bound y 1460 ltac:(lia)).
  pose proof (Z.div_mod x 146096 ltac:(lia)). pose proof (Z.mod_pos_bound x 146096 ltac:(lia)).
  pose proof (Z.div_mod y 146096 ltac:(lia)). pose proof (Z.mod_pos_bound y 146096 ltac:(lia)).
  lia.
Qed.

(** The days of a valid date's year lie between its first and its last. *)
Lemma doy_of_bounds (yoe m d : Z) :
  valid_date (yoe + jan_feb m) m d = true ->
  0 <= doy_of m d <= doy_of 2 (days_in_month (yoe + 1) 2).
Proof.
  unfold valid_date. rewrite !andb_true_iff, !Z.leb_le. intros [[[Hm1 Hm2] Hd1] Hd2].
  pose proof (days_in_month_bounds (yoe + jan_feb m) m).
  pose proof (days_in_month_bounds (yoe + 1) 2).
  destruct (Z.eq_dec m 2) as [->|Hne]; unfold doy_of.
  - change (jan_feb 2) with 1 in Hd2. zeval_consts. lia.
  - assert (m = 1 \/ m = 3 \/ m = 4 \/ m = 5 \/ m = 6 \/ m = 7 \/ m = 8 \/ m = 9 \/
            m = 10 \/ m = 11 \/ m = 12) as Hm by lia.
    repeat destruct Hm as [->|Hm]; try subst m; zeval_consts; lia.
Qed.

Lemma era_check_spec (yoe m d : Z) :
  0 <= yoe < 400 -> valid_date (yoe + jan_feb m) m d = true ->
  0 <= doe_of yoe m d < 146097 /\ civil_of_doe (doe_of yoe m d) = (yoe + jan_feb m, m, d).
Proof.
  intros Hy Hv. pose proof (doy_of_bounds yoe m d Hv) as Hb.
  pose proof (forallb_zrange _ _ yoe _ year_check_true ltac:(lia)) as Hyr. cbv beta in Hyr.
  rewrite !andb_true_iff, !Z.eqb_eq, Z.ltb_lt in Hyr. destruct Hyr as [[Hf Hl] Hlt].
  unfold doe_of in *. change (doy_of 3 1) with 0 in Hf.
  assert (yoe_of (yoe * 365 + yoe / 4 - yoe / 100 + doy_of m d) = yoe) as Hyoe.
  { pose proof (Z.div_le_compat_l yoe 4 100 ltac:(lia) ltac:(lia)).
    apply Z.le_antisymm.
    - transitivity (yoe_of (yoe * 365 + yoe / 4 - yoe / 100 + doy_of 2 (days_in_month (yoe + 1) 2)));
        [apply yoe_of_mono|]; lia.
    - transitivity (yoe_of (yoe * 365 + yoe / 4 - yoe / 100 + 0)); [lia|apply yoe_of_mono; lia]. }
  split; [pose proof (Z.div_le_compat_l yoe 4 100 ltac:(lia) ltac:(lia)); lia|].
  unfold valid_date in Hv. rewrite !andb_true_iff, !Z.leb_le in Hv.
  pose proof (days_in_month_le (yoe + jan_feb m) m).
  pose proof (forallb_zrange _ _ m _ month_check_true ltac:(lia)) as Hm. cbv beta in Hm.
  pose proof (forallb_zrange _ _ d _ Hm ltac:(lia)) as Hd. cbv beta in Hd.
  rewrite !andb_true_iff, !Z.eqb_eq in Hd. destruct Hd as [Hd Hm'].
  unfold civil_of_doe. rewrite Hyoe.
  replace (yoe * 365 + yoe / 4 - yoe / 100 + doy_of m d - (365 * yoe + yoe / 4 - yoe / 100))
    with (doy_of m d) by lia.
  rewrite Hd, Hm'. done.
Qed.

(** Leap years repeat every 400 years. *)
Lemma leap_year_era (y k : Z) : leap_year (y + k * 400) = leap_year y.
Proof.
  unfold leap_year.
  replace (y + k * 400) with (y + (k * 100) * 4) by lia. rewrite Z.mod_add by lia.
  replace (y + k * 100 * 4) with (y + (k * 4) * 100) by lia. rewrite Z.mod_add by lia.
  replace (y + k * 4 * 100) with (y + k * 400) by lia. rewrite Z.mod_add by lia.
  done.
Qed.

Lemma valid_date_era (y k m d : Z) : valid_date (y + k * 400) m d = valid_date y m d.
Proof. unfold valid_date, days_in_month. by rewrite leap_year_era. Qed.

(** [days_from_civil] counts whole eras and the day within the era. *)
Lemma days_from_civil_era (y m d : Z) :
  days_from_civil y m d + 719468 =
    ((y - jan_feb m) / 400) * 146097 + doe_of ((y - jan_feb m) mod 400) m d.
Proof.
  unfold days_from_civil, doe_of, doy_of, jan_feb. cbv zeta.
  destruct (m <=? 2); rewrite ?Z.sub_0_r, (Z.mul_comm (_ / 400) 400), <- Z.mod_eq by lia; lia.
Qed.

(** The date of a day is found by dividing it into eras. *)
Lemma civil_from_days_era (k doe : Z) :
  0 <= doe < 146097 ->
  civil_from_days (k * 146097 + doe - 719468) =
    let '(y, m, d) := civil_of_doe doe in (y + k * 400, m, d).
Proof.
  intros Hd. unfold civil_from_days.
  replace (k * 146097 + doe - 719468 + 719468) with (doe + k * 146097) by lia.
  rewrite Z.div_add, Z.div_small, Z.add_0_l by lia.
  replace (doe + k * 146097 - k * 146097) with doe by lia. done.
Qed.

(** The round trip of the two conversions. *)
Lemma civil_from_days_days_from_civil (y m d : Z) :
  valid_date y m d = true -> civil_from_days (days_from_civil y m d) = (y, m, d).
Proof.
  intros Hv. set (y' := y - jan_feb m).
  pose proof (Z.mod_pos_bound y' 400 ltac:(lia)).
  pose proof (Z.div_mod y' 400 ltac:(lia)).
  assert (Hv' : valid_date (y' mod 400 + jan_feb m) m d = true).
  { rewrite <- (valid_date_era _ (y' / 400)).
    replace (y' mod 400 + jan_feb m + y' / 400 * 400) with y by lia. done. }
  destruct (era_check_spec (y' mod 400) m d ltac:(lia) Hv') as [Hb Hc].
  replace (days_from_civil y m d) with ((y' / 400) * 146097 + doe_of (y' mod 400) m d - 719468)
    by (pose proof (days_from_civil_era y m d) as E; fold y' in E; lia).
  rewrite civil_from_days_era, Hc by done. f_equal. f_equal. lia.
Qed.

(** The local day of the local midnight [date_value] builds. *)
Lemma local_day (utc_offset days : Z) :
  (days * ms_per_day + utc_offset - utc_offset) / ms_per_day = days.
Proof. rewrite Z.add_simpl_r. apply Z.div_mul. discriminate. Qed.

(** Two digits, written back. *)
Lemma pad2_digits (c1 c2 : ascii) :
  is_digit c1 = true -> is_digit c2 = true ->
  pad2 (10 * digit_value c1 + digit_value c2) = String c1 (String c2 EmptyString).
Proof.
  intros [E1 B1]%digit_char_value [E2 B2]%digit_char_value. unfold pad2.
  rewrite (Z.mul_comm 10), Z.div_add_l, (Z.div_small (digit_value c2)), Z.add_0_r by lia.
  rewrite (Z.add_comm (_ * 10)), Z.mod_add, Z.mod_small by lia. by rewrite E1, E2.
Qed.

(** A year of four digits, the first one not 0, written back. *)
Lemma z_to_string_4 (c1 c2 c3 c4 : ascii) :
  is_digit c1 = true -> is_digit c2 = true -> is_digit c3 = true -> is_digit c4 = true ->
  c1 <> "0"%char ->
  z_to_string (1000 * digit_value c1 + 100 * digit_value c2 + 10 * digit_value c3 + digit_value c4) =
    String c1 (String c2 (String c3 (String c4 EmptyString))).
Proof.
  intros [E1 B1]%digit_char_value [E2 B2]%digit_char_value [E3 B3]%digit_char_value
    [E4 B4]%digit_char_value H0.
  assert (digit_value c1 <> 0) by (intros Z; apply H0; rewrite <- E1, Z; reflexivity).
  replace (1000 * digit_value c1 + 100 * digit_value c2 + 10 * digit_value c3 + digit_value c4)
    with (10 * (10 * (10 * digit_value c1 + digit_value c2) + digit_value c3) + digit_value c4) by lia.
  rewrite !z_to_string_snoc, z_to_string_digit by lia. by rewrite E1, E2, E3, E4.
Qed.

(** [/(\d{4}\/\d{2}\/\d{2})/] matches at the start of a string that
    starts with a date. *)
Lemma find_date_here (c : ascii) (r : string) x :
  date_at (String c r) = Some x -> find_date (String c r) = Some x.
Proof. intros H. change (match date_at (String c r) with Some d => Some d | None => find_date r end = Some x). by rewrite H. Qed.

(** The time value of a timestamp that starts with a valid date of four,
    two and two digits, the year from 1000 on. *)
Lemma getDate_digits (utc_offset : Z) (y1 y2 y3 y4 m1 m2 d1 d2 : ascii) (rest : string) :
  forallb is_digit [y1; y2; y3; y4; m1; m2; d1; d2] = true -> y1 <> "0"%char ->
  valid_date (1000 * digit_value y1 + 100 * digit_value y2 + 10 * digit_value y3 + digit_value y4)
             (10 * digit_value m1 + digit_value m2) (10 * digit_value d1 + digit_value d2) = true ->
  getDate utc_offset (string_of_list_ascii [y1; y2; y3; y4; "/"; m1; m2; "/"; d1; d2]%char +:+ rest) =
    Some (Some (days_from_civil
      (1000 * digit_value y1 + 100 * digit_value y2 + 10 * digit_value y3 + digit_value y4)
      (10 * digit_value m1 + digit_value m2) (10 * digit_value d1 + digit_value d2) * ms_per_day + utc_offset)).
Proof.
  intros Hd H0 Hv. pose proof Hd as Hd'.
  cbn [forallb] in Hd'. rewrite !andb_true_iff in Hd'.
  destruct Hd' as (Hy1 & Hy2 & Hy3 & Hy4 & _).
  apply digit_char_value in Hy1 as [E1 B1], Hy2 as [_ B2], Hy3 as [_ B3], Hy4 as [_ B4].
  assert (digit_value y1 <> 0) by (intros Z; apply H0; rewrite <- E1, Z; reflexivity).
  unfold getDate. cbn [string_of_list_ascii]. cbv [append].
  rewrite (find_date_here _ _ (1000 * digit_value y1 + 100 * digit_value y2 + 10 * digit_value y3 + digit_value y4,
                               10 * digit_value m1 + digit_value m2, 10 * digit_value d1 + digit_value d2))
    by (cbn [date_at]; rewrite Hd; reflexivity).
  unfold date_value, is_day. unfold valid_date in Hv. rewrite !andb_true_iff, !Z.leb_le in Hv.
  pose proof (days_in_month_bounds
    (1000 * digit_value y1 + 100 * digit_value y2 + 10 * digit_value y3 + digit_value y4)
    (10 * digit_value m1 + digit_value m2)).
  case_ifs; rewrite ?andb_true_iff, ?andb_false_iff, ?Z.leb_le, ?Z.leb_gt in *; try done; lia.
Qed.

(** ** The dates the period line shows *)

(** C12: a timestamp of the sheet that starts with a valid date
    [YYYY/MM/DD] (year 1000-9999) is read by [getDate] as a Date, and
    [toLocaleDateString('pt-BR', ...)] writes that Date back as the same
    digits in the order [DD/MM/YYYY], whatever the time zone. *)
Theorem getDate_display (utc_offset : Z) (y1 y2 y3 y4 m1 m2 d1 d2 : ascii) (rest : string) :
  forallb is_digit [y1; y2; y3; y4; m1; m2; d1; d2] = true -> y1 <> "0"%char ->
  valid_date (1000 * digit_value y1 + 100 * digit_value y2 + 10 * digit_value y3 + digit_value y4)
             (10 * digit_value m1 + digit_value m2) (10 * digit_value d1 + digit_value d2) = true ->
  exists t, getDate utc_offset (string_of_list_ascii [y1; y2; y3; y4; "/"; m1; m2; "/"; d1; d2]%char +:+ rest) = Some (Some t) /\
    toLocaleDateString utc_offset (Some t) = string_of_list_ascii [d1; d2; "/"; m1; m2; "/"; y1; y2; y3; y4]%char.
Proof.
  intros Hd H0 Hv. eexists. split; [by apply getDate_digits|].
  cbn [forallb] in Hd. rewrite !andb_true_iff in Hd. destruct Hd as (? & ? & ? & ? & ? & ? & ? & ? & _).
  unfold toLocaleDateString. rewrite local_day, civil_from_days_days_from_civil by done.
  by rewrite !pad2_digits, z_to_string_4.
Qed.

Example getDate_display_witness :
  exists t, getDate 10800000 (string_of_list_ascii ["2"; "0"; "2"; "5"; "/"; "0"; "8"; "/"; "0"; "4"]%char +:+ " 10:02:03 GMT-3") = Some (Some t) /\
    toLocaleDateString 10800000 (Some t) = string_of_list_ascii ["0"; "4"; "/"; "0"; "8"; "/"; "2"; "0"; "2"; "5"]%char.
Proof. apply getDate_display; [reflexivity | discriminate | reflexivity]. Defined.

(** A day the month does not have is accepted and counted on: the
    timestamp [2025/02/30] is shown as [02/03/2025]. *)
Example overflow_day_display :
  option_map (toLocaleDateString 10800000) (getDate 10800000 "2025/02/30 09:00:00") = Some "02/03/2025".
Proof. vm_compute. reflexivity. Qed.

End Calendar.
