(* ===== verification/CsvExport.v ===== *)
(** * CsvExport: [window.exportToCSV] of [src/script.js] (lines 259-280)

    The export re-filters [tableData] with its own predicate (lines
    260-267: the rating filter of the table, but the search runs over
    [Object.values(row)] rather than over the seven table columns), returns
    without a download when nothing matches (268), takes the header from
    [Object.keys(filtered[0])] (269) and writes every value quoted, with
    its quotes doubled, lines joined by CRLF (270).  The download itself
    (Blob, object URL, a synthetic click: 271-279) is the delivery of the
    text [exportToCSV] computes and is not modelled. *)

From stdpp Require Import base list sets strings.
From Stdlib Require Import Ascii String ZArith Lia.
From S2P Require Import Spec2Rocq JsString JsObject CsvParser TableView.
Import JsString JsObject CsvParser TableView.

Module CsvExport.

(** Lines 260-267. *)
Definition export_visible (search filter : string) (row : obj string) : bool :=
  let rating := obj_get row key_rating in
  if negb (String.eqb filter EmptyString) && bool_decide (rating <> Some filter) then false
  else if negb (String.eqb search EmptyString) then
    existsb (fun v => includes (to_lower v) search) (obj_values row)
  else true.

Definition export_rows (st : state) : list (obj string) :=
  List.filter (export_visible (currentSearch st) (currentFilter st)) (tableData st).

(** One data line of line 270. *)
Definition csv_line (header : list string) (row : obj string) : string :=
  join comma_sep (map (fun k => quote_wrap (escape_quotes (get_or_empty row k))) header).

(** Lines 268-270: [None] is the early [return] when no row matches. *)
Definition csv_text (rows : list (obj string)) : option string :=
  match rows with
  | [] => None
  | r0 :: _ =>
      let header := obj_keys r0 in
      Some (join crlf (join comma_sep header :: map (csv_line header) rows))
  end.

Definition exportToCSV (st : state) : option string := csv_text (export_rows st).


(** ** Lemmas *)

(** What a key must avoid to survive the unquoted header line. *)
Definition safe_key (k : string) : Prop :=
  has_char comma_char k = false /\ has_char quote_char k = false /\
  has_char lf_char k = false /\ trim k = k /\ k <> EmptyString.

(** What a value must avoid to survive a quoted field. *)
Definition safe_value (v : string) : Prop :=
  has_char quote_char v = false /\ has_char lf_char v = false /\ trim v = v.

Lemma export_rows_all (st : state) :
  currentSearch st = EmptyString -> currentFilter st = EmptyString -> export_rows st = tableData st.
Proof.
  intros Hs Hf. unfold export_rows. rewrite Hs, Hf. apply filter_all_true.
  apply Forall_forall. intros r _. reflexivity.
Qed.

Lemma csv_line_wrap ks r :
  Forall (fun k => has_char quote_char (get_or_empty r k) = false) ks ->
  csv_line ks r = join comma_sep (map quote_wrap (map (get_or_empty r) ks)).
Proof.
  intros Hks. unfold csv_line. rewrite map_map. f_equal. apply map_ext_in.
  intros k Hk. rewrite escape_quotes_id; [done|]. rewrite Forall_forall in Hks.
  by apply Hks, list_elem_of_In.
Qed.

Lemma csv_line_head ks r :
  ks <> [] -> exists rest, csv_line ks r = String quote_char rest.
Proof.
  unfold csv_line. destruct ks as [|k ks]; [done|]. intros _. cbn [map]. rewrite join_cons.
  unfold quote_wrap. destruct ks; rewrite ?sapp_cons; eauto.
Qed.

Lemma csv_line_safe ks r :
  ks <> [] -> Forall (fun k => safe_value (get_or_empty r k)) ks ->
  has_char lf_char (csv_line ks r) = false /\ CsvParser.is_blank (csv_line ks r) = false.
Proof.
  intros Hne Hks. split.
  - rewrite csv_line_wrap by (eapply Forall_impl; [exact Hks|]; by intros k [? _]).
    apply has_char_join; [done|]. rewrite !Forall_map.
    eapply Forall_impl; [exact Hks|]. intros k (_ & Hlf & _).
    by rewrite has_char_quote_wrap.
  - destruct (csv_line_head ks r Hne) as [rest ->]. unfold is_blank.
    destruct (String.eqb_spec (trim (String quote_char rest)) EmptyString) as [H|]; [|done].
    by apply trim_head_nonblank in H.
Qed.

Lemma header_line_safe ks :
  ks <> [] -> Forall safe_key ks ->
  has_char lf_char (join comma_sep ks) = false /\ CsvParser.is_blank (join comma_sep ks) = false.
Proof.
  intros Hne Hks. split.
  - apply has_char_join; [done|]. eapply Forall_impl; [exact Hks|]. by intros k (_ & _ & ? & _).
  - destruct ks as [|k ks]; [done|]. inversion Hks as [|? ? (_ & _ & _ & Ht & Hk) _]; subst.
    destruct (trimmed_head k Ht Hk) as (c & r & -> & Hc).
    assert (exists rest, join comma_sep (String c r :: ks) = String c rest) as [rest ->].
    { rewrite join_cons. destruct ks; rewrite ?sapp_cons; eauto. }
    unfold is_blank. destruct (String.eqb_spec (trim (String c rest)) EmptyString) as [H|]; [|done].
    by apply trim_head_nonblank in H.
Qed.

Lemma parse_header_join ks :
  ks <> [] -> Forall safe_key ks ->
  strip_row_prefix (join comma_sep ks) = join comma_sep ks ->
  parse_header (join comma_sep ks) = ks.
Proof.
  intros Hne Hks Hp. unfold parse_header. rewrite Hp.
  change (join comma_sep ks) with (join "," ks).
  rewrite split_even_commas_join; [|done|].
  - rewrite map_map. transitivity (map id ks); [|apply map_id]. apply map_ext_in.
    intros k Hk. rewrite Forall_forall in Hks. apply list_elem_of_In, Hks in Hk as (_ & Hq & _ & Ht & _).
    by rewrite strip_quotes_id, Ht, Ht.
  - eapply Forall_impl; [exact Hks|]. by intros k (? & ? & _).
Qed.

(** One exported line read back under the exported header is the row. *)
Lemma parse_csv_line_equiv ks r :
  ks <> [] -> obj_wf r -> obj_keys r = ks ->
  Forall (fun k => safe_value (get_or_empty r k)) ks ->
  parse_row ks (csv_line ks r) ≡ r.
Proof.
  intros Hne Hwf Hks Hvals. unfold parse_row.
  rewrite csv_line_wrap by (eapply Forall_impl; [exact Hvals|]; by intros k [? _]).
  rewrite scan_fields_wrap; [|by destruct ks|].
  2:{ rewrite Forall_map. eapply Forall_impl; [exact Hvals|]. by intros k [? _]. }
  rewrite row_pairs_values.
  - apply obj_of_keys_equiv; [done|done|]. intros k Hk. unfold get_or_empty.
    destruct (obj_get r k) eqn:E; [done|]. exfalso.
    rewrite <- Hks in Hk. apply elem_of_obj_keys, assoc_get_in in Hk.
    unfold obj_get in E. rewrite E in Hk. by destruct Hk.
  - intros k Hk. rewrite Forall_forall in Hvals. destruct (Hvals k Hk) as (Hq & _ & Ht).
    unfold clean_value. simpl. by rewrite strip_quotes_id.
Qed.


(** ** Properties of [exportToCSV] *)

(** The preconditions of the round trip, on the rows of the table. *)
Definition export_safe (rows : list (obj string)) : Prop :=
  let ks := match rows with r0 :: _ => obj_keys r0 | [] => [] end in
  ks <> [] /\ strip_row_prefix (join comma_sep ks) = join comma_sep ks /\
  Forall safe_key ks /\
  Forall (fun r => obj_wf r /\ obj_keys r = ks /\ Forall (fun k => safe_value (get_or_empty r k)) ks) rows.

(** C3: exporting every row (no search, no filter) and parsing the file
    again gives back rows equivalent to the table's, as long as the keys
    have no comma, quote or line feed, are trimmed and non-empty, the header
    line does not look like an [N|] prefix, and the values have no quote or
    line feed and are trimmed. *)
Theorem export_parse_roundtrip (st : state) (text : string) :
  currentSearch st = EmptyString -> currentFilter st = EmptyString ->
  exportToCSV st = Some text -> export_safe (tableData st) ->
  exists rows', parseCSV text = Normal rows' /\ Forall2 (≡) rows' (tableData st).
Proof.
  intros Hs Hf Hexp Hsafe. unfold exportToCSV in Hexp. rewrite export_rows_all in Hexp by done.
  destruct (tableData st) as [|r0 rest] eqn:Hdata; [done|].
  assert (text = join crlf (join comma_sep (obj_keys r0) :: map (csv_line (obj_keys r0)) (r0 :: rest)))
    as -> by (cbv [csv_text] in Hexp; congruence).
  destruct Hsafe as (Hne & Hp & Hks & Hrows). cbv zeta in *.
  set (ks := obj_keys r0) in *.
  exists (map (fun r => parse_row ks (csv_line ks r)) (r0 :: rest)). split.
  - unfold parseCSV. rewrite nonblank_lines_join_crlf; [| done |].
    + rewrite parse_header_join by done. by rewrite map_map.
    + constructor; [by apply header_line_safe|].
      rewrite Forall_map. eapply Forall_impl; [exact Hrows|]. intros r (_ & _ & Hv).
      by apply csv_line_safe.
  - apply Forall2_fmap_l, Forall_Forall2_diag. eapply Forall_impl; [exact Hrows|].
    intros r (Hwf & Hk & Hv). by apply parse_csv_line_equiv.
Qed.

(** The preconditions are decidable: a concrete table is checked by evaluation. *)
#[export] Instance export_safe_dec rows : Decision (export_safe rows).
Proof. unfold export_safe, safe_key, safe_value, obj_wf. destruct rows; apply _. Defined.

Definition sample_rows : list (obj string) :=
  [obj_of_pairs [("Nome", "Ana"); ("Idade", "31 anos")];
   obj_of_pairs [("Nome", "Rui, Jr."); ("Idade", "55")]].

Example export_parse_roundtrip_witness :
  let st := setupTable sample_rows in
  exists text, exportToCSV st = Some text /\
  exists rows', parseCSV text = Normal rows' /\ Forall2 (≡) rows' (tableData st).
Proof.
  cbv zeta. eexists. split; [vm_compute; reflexivity|].
  apply export_parse_roundtrip; [reflexivity|reflexivity|vm_compute; reflexivity|].
  apply (bool_decide_unpack _); vm_compute; reflexivity.
Defined.

(** C31: the export filter keeps every row the table shows: the rating
    filter is the same and a search hit in one of the table's columns is a
    hit among the row's values. *)
Theorem table_rows_exported (search filter : string) (row : obj string) :
  row_visible search filter row = true -> export_visible search filter row = true.
Proof.
  unfold row_visible, export_visible. cbv zeta.
  destruct (negb (String.eqb filter EmptyString) && _); [done|].
  destruct (String.eqb_spec search EmptyString) as [|Hs]; [done|]. cbn [negb].
  intros (col & _ & Hcol)%existsb_exists. apply existsb_exists.
  exists (get_or_empty row (col_key col)). split; [|done].
  unfold get_or_empty in *. destruct (obj_get row (col_key col)) as [v|] eqn:E.
  - apply list_elem_of_In, list_elem_of_omap. exists (col_key col). split; [|done].
    apply elem_of_obj_keys, assoc_get_in. unfold obj_get in E. by rewrite E.
  - exfalso. destruct search as [|c r]; [done|]. done.
Qed.

Example table_rows_exported_witness :
  row_visible "ana" EmptyString (obj_of_pairs [(key_name, "Ana"); (key_rating, "5")]) = true /\
  export_visible "ana" EmptyString (obj_of_pairs [(key_name, "Ana"); (key_rating, "5")]) = true.
Proof.
  assert (H : row_visible "ana" EmptyString (obj_of_pairs [(key_name, "Ana"); (key_rating, "5")]) = true)
    by (vm_compute; reflexivity).
  split; [exact H|]. exact (table_rows_exported _ _ _ H).
Defined.

(** C32: with a search term, the rows the file holds and the table hides
    are exactly those that pass the rating filter, hold the term in some
    value of the row, and hold it in none of the seven table columns: the
    export searches [Object.values(row)], the table its columns. *)
Theorem export_hidden_rows (search filter : string) (row : obj string) :
  search <> EmptyString ->
  (export_visible search filter row = true /\ row_visible search filter row = false) <->
  (filter = EmptyString \/ obj_get row key_rating = Some filter) /\
  (exists v, v ∈ obj_values row /\ includes (to_lower v) search = true) /\
  Forall (fun col => includes (to_lower (get_or_empty row (col_key col))) search = false) tableColumns.
Proof.
  intros Hs. unfold export_visible, row_visible. cbv zeta.
  rewrite (proj2 (String.eqb_neq _ _) Hs). cbn [negb].
  assert (forall P : Prop, P -> (existsb (fun v => includes (to_lower v) search) (obj_values row) = true /\
     existsb (fun col => includes (to_lower (get_or_empty row (col_key col))) search) tableColumns = false) <->
    P /\ (exists v, v ∈ obj_values row /\ includes (to_lower v) search = true) /\
    Forall (fun col => includes (to_lower (get_or_empty row (col_key col))) search = false) tableColumns)
    as Hcore.
  { intros P HP. rewrite existsb_exists, existsb_false_Forall. setoid_rewrite list_elem_of_In. naive_solver. }
  destruct (String.eqb_spec filter EmptyString) as [->|Hf]; cbn [negb andb]; [by apply Hcore; left|].
  destruct (decide (obj_get row key_rating = Some filter)) as [Hr|Hr].
  - rewrite bool_decide_false by (intros Hn; exact (Hn Hr)). by apply Hcore; right.
  - rewrite bool_decide_true by exact Hr. naive_solver.
Qed.

Example export_hidden_rows_witness :
  let row := obj_of_pairs [(key_name, "Ana"); ("Bairro", "Centro")] in
  "centro" <> EmptyString /\
  export_visible "centro" EmptyString row = true /\ row_visible "centro" EmptyString row = false.
Proof.
  cbv zeta. assert (Hs : "centro" <> EmptyString) by discriminate. split; [exact Hs|].
  apply (export_hidden_rows _ _ _ Hs). split; [by left|]. split.
  - exists "Centro". split; [|vm_compute; reflexivity].
    apply (bool_decide_unpack _); vm_compute; reflexivity.
  - apply (bool_decide_unpack _); vm_compute; reflexivity.
Defined.

(** C33: the header line is written unquoted, so when the first exported
    row has a key holding a comma (the survey's rating column does), the
    export still succeeds but reading the file back splits the header at
    that comma: no record of the parsed file has any key containing a
    comma.  Keys are assumed free of quotes and line feeds. *)
Theorem export_header_splits_key (st : state) (r0 : obj string) rest k :
  export_rows st = r0 :: rest ->
  Forall (fun k => has_char quote_char k = false /\ has_char lf_char k = false) (obj_keys r0) ->
  k ∈ obj_keys r0 -> has_char comma_char k = true ->
  exists text rows, exportToCSV st = Some text /\ parseCSV text = Normal rows /\
    Forall (fun r => forall k', has_char comma_char k' = true -> obj_get r k' = None) rows.
Proof.
  intros Hrows Hks Hk Hc. unfold exportToCSV. rewrite Hrows. cbv [csv_text].
  set (ks := obj_keys r0) in *. set (h := join comma_sep ks).
  assert (has_char lf_char h = false) as Hlf.
  { apply has_char_join; [done|]. eapply Forall_impl; [exact Hks|]. by intros ? [_ ?]. }
  assert (has_char quote_char h = false) as Hq.
  { apply has_char_join; [done|]. eapply Forall_impl; [exact Hks|]. by intros ? [? _]. }
  assert (is_blank h = false) as Hb.
  { unfold is_blank. destruct (String.eqb_spec (trim h) EmptyString) as [He|]; [exfalso|done].
    refine (trim_nonblank_char comma_char h eq_refl _ He). by apply has_char_join_true with k. }
  eexists _, _. split; [reflexivity|]. split.
  - unfold parseCSV, nonblank_lines. cbn [map]. rewrite join_cons. cbv beta iota.
    change crlf with (String cr_char (String lf_char EmptyString)).
    rewrite sapp_cons, sapp_cons, sapp_nil_l, split_lines_crlf by done.
    cbn [List.filter]. rewrite Hb. reflexivity.
  - apply Forall_map, Forall_forall. intros line _ k' Hk'.
    destruct (obj_get _ k') eqn:E; [exfalso|done].
    assert (is_Some (obj_get (parse_row (parse_header h) line) k')) as [? _]%parse_row_defined by eauto.
    pose proof (parse_header_no_comma h Hq) as Hn. rewrite Forall_forall in Hn.
    rewrite (Hn k') in Hk'; done.
Qed.

Example export_header_splits_key_witness :
  let r0 := obj_of_pairs [(key_name, "Ana"); (key_rating, "5")] in
  export_rows (setupTable [r0]) = [r0] /\
  Forall (fun k => has_char quote_char k = false /\ has_char lf_char k = false) (obj_keys r0) /\
  key_rating ∈ obj_keys r0 /\ has_char comma_char key_rating = true /\
  exists text rows, exportToCSV (setupTable [r0]) = Some text /\ parseCSV text = Normal rows /\
    Forall (fun r => forall k', has_char comma_char k' = true -> obj_get r k' = None) rows.
Proof.
  cbv zeta.
  assert (H1 : export_rows (setupTable [obj_of_pairs [(key_name, "Ana"); (key_rating, "5")]]) =
               [obj_of_pairs [(key_name, "Ana"); (key_rating, "5")]]) by (vm_compute; reflexivity).
  assert (H2 : Forall (fun k => has_char quote_char k = false /\ has_char lf_char k = false)
                 (obj_keys (obj_of_pairs [(key_name, "Ana"); (key_rating, "5")])))
    by (apply (bool_decide_unpack _); vm_compute; reflexivity).
  assert (H3 : key_rating ∈ obj_keys (obj_of_pairs [(key_name, "Ana"); (key_rating, "5")]))
    by (apply (bool_decide_unpack _); vm_compute; reflexivity).
  assert (H4 : has_char comma_char key_rating = true) by (vm_compute; reflexivity).
  do 4 (split; [assumption|]).
  exact (export_header_splits_key _ _ _ _ H1 H2 H3 H4).
Defined.

End CsvExport.
