(* ===== verification/Dashboard.v ===== *)
(** * Dashboard: the statistics of [renderDashboard] (lines 53-64, 67-168)

    [getNumber] (53-58) reads the first run of one to three digits of a
    field; the ratings (71, 79) keep the values 1-5; the averages (72, 80)
    are [(sum / length).toFixed(2)] on doubles; the satisfaction rate (76)
    is [Math.round(100 * satisfied / length)]; the dates (84) are the
    [getDate] of every timestamp, sorted; the ages (92-96) are every
    [getNumber] that is not null; the expectation counts (100-103) read the
    key ['4. ...expectativas? '] with a trailing space;
    [renderAgeDistribution] (121-135) buckets the ages,
    [renderExpectationsChart] (137-150) sizes three bars and
    [renderBarChart] (152-168) counts each score and scales the bars to
    180 pixels.  The texts of the period line (through
    [Calendar.toLocaleDateString]), the age line, the age badges and the
    expectations line are the template literals of lines 87-88, 95, 104
    and 132.  Each function returns the values the code writes into the
    page; [Page.v] puts them in the order [renderDashboard] writes them. *)

From stdpp Require Import base list sets strings.
From Stdlib Require Import Ascii String ZArith Lia Permutation Sorted.
From Stdlib Require Import QArith_base.
From S2P Require Import Spec2Rocq JsString JsObject JsNumber CsvParser TableView Sorting Calendar.
Import JsString JsObject JsNumber CsvParser TableView Sorting Calendar.

Local Open Scope Z_scope.
Local Open Scope js_scope.

Module Dashboard.

(** ** [getNumber] *)

(** Up to [n] digits from the start of [s], appended to [acc]. *)
Fixpoint digits_upto (n : nat) (acc : Z) (s : string) : Z :=
  match n, s with
  | S n', String c r => if is_digit c then digits_upto n' (10 * acc + digit_value c) r else acc
  | _, _ => acc
  end.

(** [String(val).match(/\d{1,3}/)] then [parseInt(match[0])]: the leftmost
    digit starts the match, which takes at most three digits. *)
Fixpoint first_number (s : string) : option Z :=
  match s with
  | EmptyString => None
  | String c r => if is_digit c then Some (digits_upto 3 0 s) else first_number r
  end.

(** Lines 53-58: [val] is [d[key]], [undefined] when the key is absent;
    [!val] holds for [undefined] and for [''] *)
Definition getNumber (val : option string) : option Z :=
  match val with
  | None => None
  | Some v => if String.eqb v EmptyString then None else first_number v
  end.

(** ** Ratings, averages and the satisfaction rate *)

Definition key_expectations_spaced : string := key_expectations +:+ " ".

Definition sum_z (xs : list Z) : Z := fold_left Z.add xs 0.

(** [xs.filter(p).length] *)
Definition count_z {A} (p : A -> bool) (xs : list A) : Z := Z.of_nat (List.length (List.filter p xs)).

(** Lines 71 and 79: [data.map(d => getNumber(d[key])).filter(n => n >= 1 && n <= 5)];
    [null >= 1] is false. *)
Definition scores (key : string) (data : list (obj string)) : list Z :=
  List.filter (fun n => (1 <=? n) && (n <=? 5)) (omap (fun d => getNumber (obj_get d key)) data).

(** [xs.reduce((a, b) => a + b, 0) / xs.length] *)
Definition average_value (xs : list Z) : Q := div_double (sum_z xs) (Z.of_nat (List.length xs)).

(** Lines 72 and 80: [xs.length ? avg.toFixed(2) : '0'] *)
Definition average_text (xs : list Z) : string :=
  match xs with
  | [] => "0"
  | _ => to_fixed 2 (average_value xs)
  end.

(** Lines 75-76. *)
Definition satisfaction_rate (ratings : list Z) : Z :=
  let satisfied := count_z (fun n => 4 <=? n) ratings in
  match ratings with
  | [] => 0
  | _ => math_round (div_double (100 * satisfied) (Z.of_nat (List.length ratings)))
  end.

(** ** The survey period (lines 84-89) *)

(** [getDate(d['Carimbo de data/hora'])]: [val.match] on [undefined]
    throws a TypeError. *)
Definition row_date (utc_offset : Z) (d : obj string) : completion (option (option Z)) :=
  match obj_get d key_date with
  | None => Throw (undefined_read "match")
  | Some v => Normal (getDate utc_offset v)
  end.

(** Line 84: [.filter(Boolean)] drops the nulls and keeps every Date
    object, an Invalid Date included; [.sort((a, b) => a - b)]. *)
Definition dates (utc_offset : Z) (data : list (obj string)) : completion (list (option Z)) :=
  let! ds := c_map (row_date utc_offset) data in
  Normal (stable_sort time_sub_sign (omap (fun x => x) ds)).

(** Lines 85-89: the first and the last date and ["N dias de respostas"]. *)
Record period := { period_first : option Z; period_last : option Z; period_count : Z }.

Definition period_of (ds : list (option Z)) : option period :=
  match ds with
  | [] => None
  | d0 :: _ => Some {| period_first := d0; period_last := List.last ds d0;
                      period_count := Z.of_nat (List.length ds) |}
  end.

(** Line 87: the text of [periodInfo], the first and the last date in
    [toLocaleDateString('pt-BR', options)]. *)
Definition period_text (utc_offset : Z) (p : period) : string :=
  toLocaleDateString utc_offset (period_first p) +:+ " a " +:+
  toLocaleDateString utc_offset (period_last p).

(** Line 88: [`${dates.length} dias de respostas`]. *)
Definition period_detail (p : period) : string :=
  z_to_string (period_count p) +:+ " dias de respostas".

(** ** Ages (lines 92-97, 121-135) *)

(** Line 92: [.filter(Number.isFinite)] drops the nulls. *)
Definition ages (data : list (obj string)) : list Z :=
  omap (fun d => getNumber (obj_get d key_age)) data.

(** Lines 94-95: [Math.min(...ages)], [Math.max(...ages)] and the average
    with one decimal, for a non-empty list. *)
Record age_info := { age_avg : string; age_min : Z; age_max : Z }.

Definition ageInfo (xs : list Z) : option age_info :=
  match xs with
  | [] => None
  | x :: r => Some {| age_avg := to_fixed 1 (average_value xs);
                     age_min := fold_left Z.min r x; age_max := fold_left Z.max r x |}
  end.

Definition e_acute : ascii := "233"%char.  (* é *)
Definition i_acute : ascii := "237"%char.  (* í *)
Definition a_acute : ascii := "225"%char.  (* á *)

(** Line 95: [`Média: ${avg} | Mín: ${min} | Máx: ${max}`]. *)
Definition age_text (i : age_info) : string :=
  "M" +:+ String e_acute "dia: " +:+ age_avg i +:+
  " | M" +:+ String i_acute "n: " +:+ z_to_string (age_min i) +:+
  " | M" +:+ String a_acute "x: " +:+ z_to_string (age_max i).

(** Line 124: the age bucket. *)
Definition faixa (age : Z) : string :=
  if age <? 20 then "-19" else if age <? 30 then "20-29"
  else if age <? 40 then "30-39" else if age <? 50 then "40-49"
  else if age <? 60 then "50-59" else "60+".

Definition dist_step (dist : obj Z) (age : Z) : obj Z :=
  let f := faixa age in obj_set f (default 0 (obj_get dist f) + 1) dist.

(** Lines 122-126: [dist[faixa] = (dist[faixa] || 0) + 1] for each age. *)
Definition age_distribution (xs : list Z) : obj Z := fold_left dist_step xs empty.

(** Lines 129-134: the badges [faixa: count] in [Object.entries] order. *)
Definition age_entries (xs : list Z) : list (string * Z) :=
  let dist := age_distribution xs in
  omap (fun k => pair k <$> obj_get dist k) (obj_keys dist).

(** Line 132: the text [`${faixa}: ${count}`] of each badge. *)
Definition age_badges (xs : list Z) : list string :=
  map (fun '(f, c) => f +:+ ": " +:+ z_to_string c) (age_entries xs).

(** ** Expectations (lines 100-104, 137-150) *)

(** Lines 100-103: yes, partial and no answers; [n] [ã] [o] is "não". *)
Definition expectation_counts (data : list (obj string)) : Z * Z * Z :=
  let es := map (fun d => to_lower (get_or_empty d key_expectations_spaced)) data in
  (count_z (fun e => String.eqb e "sim") es,
   count_z (fun e => includes e "parcial") es,
   count_z (fun e => String.eqb e (String "n"%char (String a_tilde "o"))) es).

(** Line 104: [`Sim: ${yes} | Parcial: ${partial} | Não: ${no}`]. *)
Definition expectations_text (yes partial no : Z) : string :=
  "Sim: " +:+ z_to_string yes +:+ " | Parcial: " +:+ z_to_string partial +:+
  " | N" +:+ String a_tilde "o: " +:+ z_to_string no.

(** Lines 138-148: the width of each bar, [None] for ['0%'] *)
Definition expectation_widths (yes partial no : Z) : list (option Q) :=
  let total := yes + partial + no in
  map (fun v => if total =? 0 then None else Some (div_double (100 * v) total)) [yes; partial; no].

(** ** [renderBarChart] (lines 152-168) *)

(** Line 153: the number of values equal to each score 1-5. *)
Definition bar_counts (values : list Z) : list Z :=
  map (fun n => count_z (fun v => v =? n) values) [1; 2; 3; 4; 5].

(** Line 154: [Math.max(...counts, 1)] *)
Definition bar_max (counts : list Z) : Z := fold_left Z.max counts 1.

(** Line 160: [180 * count / max] pixels for each bar. *)
Definition bar_heights (values : list Z) : list Q :=
  let counts := bar_counts values in
  map (fun c => div_double (180 * c) (bar_max counts)) counts.

(** Lines 159, 161 and 164: the class, the title [`Nota ${i+1}: ${count}`]
    and the text [count] of each bar. *)
Definition bar_labels (values : list Z) : list (string * string * string) :=
  imap (fun i c => let n := z_to_string (Z.of_nat i + 1) in
                   ("chart-bar score-" +:+ n, "Nota " +:+ n +:+ ": " +:+ z_to_string c, z_to_string c))
       (bar_counts values).

(** ** Specification of the distribution: buckets in order of first occurrence *)

Definition first_occurrences (l : list string) : list string :=
  fold_left (fun acc x => if decide (x ∈ acc) then acc else acc ++ [x]) l [].

Definition age_buckets : list string := ["-19"; "20-29"; "30-39"; "40-49"; "50-59"; "60+"].

(** Two time values in order (an Invalid Date is in order with nothing). *)
Definition time_le (a b : option Z) : Prop :=
  match a, b with Some x, Some y => x <= y | _, _ => False end.

(** ** Lemmas *)

Lemma digits_upto_bounds n acc s :
  0 <= acc -> acc <= digits_upto n acc s <= (acc + 1) * 10 ^ Z.of_nat n - 1.
Proof.
  revert acc s. induction n as [|n IH]; intros acc s Hacc; [simpl; lia|].
  rewrite Nat2Z.inj_succ, Z.pow_succ_r by lia.
  pose proof (Z.pow_pos_nonneg 10 (Z.of_nat n) ltac:(lia) ltac:(lia)).
  destruct s as [|c r]; simpl; [nia|].
  destruct (is_digit c) eqn:Hc; [|nia].
  assert (0 <= digit_value c <= 9).
  { unfold is_digit in Hc. apply andb_true_iff in Hc as [H1 H2].
    apply Nat.leb_le in H1, H2. unfold digit_value. lia. }
  specialize (IH (10 * acc + digit_value c) r ltac:(lia)). nia.
Qed.

Lemma first_number_bounds s n : first_number s = Some n -> 0 <= n <= 999.
Proof.
  induction s as [|c r IH]; cbn [first_number]; [done|].
  destruct (is_digit c); [|done]. intros Hn.
  pose proof (digits_upto_bounds 3 0 (String c r) ltac:(lia)) as H.
  change (10 ^ Z.of_nat 3) with 1000 in H. assert (n = digits_upto 3 0 (String c r)) by congruence. lia.
Qed.

Lemma sum_z_acc xs acc : fold_left Z.add xs acc = acc + sum_z xs.
Proof.
  unfold sum_z. revert acc. induction xs as [|x xs IH]; intros acc; simpl; [lia|].
  rewrite (IH (acc + x)), (IH (0 + x)). lia.
Qed.

Lemma sum_z_cons x xs : sum_z (x :: xs) = x + sum_z xs.
Proof. unfold sum_z at 1. simpl. rewrite sum_z_acc. lia. Qed.

(** A sum of values in [lo, hi] lies between [n * lo] and [n * hi]. *)
Lemma sum_z_bounds lo hi xs :
  Forall (fun x => lo <= x <= hi) xs ->
  lo * Z.of_nat (List.length xs) <= sum_z xs <= hi * Z.of_nat (List.length xs).
Proof.
  induction 1 as [|x xs Hx _ IH]; [unfold sum_z; simpl; lia|].
  rewrite sum_z_cons. simpl List.length. lia.
Qed.

Lemma count_z_le {A} (p : A -> bool) xs : 0 <= count_z p xs <= Z.of_nat (List.length xs).
Proof.
  unfold count_z. pose proof (List.filter_length_le p xs) as H. lia.
Qed.

Lemma count_z_all {A} (p : A -> bool) xs : Forall (fun x => p x = true) xs -> count_z p xs = Z.of_nat (List.length xs).
Proof. intros H. unfold count_z. by rewrite filter_all_true. Qed.

Lemma scores_range key data : Forall (fun n => 1 <= n <= 5) (scores key data).
Proof.
  apply Forall_forall. intros n Hn%list_elem_of_In. apply filter_In in Hn as [_ Hn].
  apply andb_true_iff in Hn as [H1 H2]. lia.
Qed.

(** The average of values in [lo, hi] lies in [lo, hi]. *)
Lemma average_value_bounds lo hi xs :
  xs <> [] -> 0 <= lo -> hi < 2 ^ 52 -> Forall (fun x => lo <= x <= hi) xs ->
  (inject_Z lo <= average_value xs <= inject_Z hi)%Q.
Proof.
  intros Hne Hlo Hhi Hxs. pose proof (sum_z_bounds lo hi xs Hxs).
  assert (0 < Z.of_nat (List.length xs)) by (destruct xs; [done|simpl; lia]).
  unfold average_value. split.
  - apply div_double_ge; nia.
  - apply div_double_le; nia.
Qed.

Lemma fold_min_le r x : Forall (fun y => fold_left Z.min r x <= y) (x :: r).
Proof.
  revert x. induction r as [|y r IH]; intros x; simpl; [repeat constructor; lia|].
  specialize (IH (Z.min x y)). inversion IH as [|? ? Hm Hr]; subst.
  constructor; [lia|]. constructor; [lia|done].
Qed.

Lemma fold_max_ge r x : Forall (fun y => y <= fold_left Z.max r x) (x :: r).
Proof.
  revert x. induction r as [|y r IH]; intros x; simpl; [repeat constructor; lia|].
  specialize (IH (Z.max x y)). inversion IH as [|? ? Hm Hr]; subst.
  constructor; [lia|]. constructor; [lia|done].
Qed.

Lemma fold_min_lower lo r x : Forall (fun y => lo <= y) (x :: r) -> lo <= fold_left Z.min r x.
Proof.
  revert x. induction r as [|y r IH]; intros x H; simpl; [by inversion H|].
  apply IH. inversion H as [|? ? Hx Hr]; inversion Hr; subst. constructor; [lia|done].
Qed.

Lemma fold_max_upper hi r x : Forall (fun y => y <= hi) (x :: r) -> fold_left Z.max r x <= hi.
Proof.
  revert x. induction r as [|y r IH]; intros x H; simpl; [by inversion H|].
  apply IH. inversion H as [|? ? Hx Hr]; inversion Hr; subst. constructor; [lia|done].
Qed.

Lemma faixa_bucket a : faixa a ∈ age_buckets.
Proof. unfold faixa, age_buckets. case_ifs; set_solver. Qed.

Lemma bucket_not_proto f : f ∈ age_buckets -> f <> proto_key /\ is_array_index f = false.
Proof. unfold age_buckets. intros Hf. repeat (apply elem_of_cons in Hf as [->|Hf]; [done|]). set_solver. Qed.

Lemma dist_fold_get xs dist f :
  default 0 (obj_get (fold_left dist_step xs dist) f) =
    default 0 (obj_get dist f) + count_z (fun a => String.eqb (faixa a) f) xs.
Proof.
  revert dist. induction xs as [|a xs IH]; intros dist; simpl; [unfold count_z; simpl; lia|].
  rewrite IH. unfold dist_step. destruct (bucket_not_proto (faixa a) (faixa_bucket a)) as [Hp _].
  rewrite obj_get_set by done. unfold count_z. simpl.
  destruct (String.eqb_spec f (faixa a)) as [->|Hne].
  - rewrite String.eqb_refl. simpl. lia.
  - rewrite (proj2 (String.eqb_neq (faixa a) f)) by congruence. simpl. lia.
Qed.

Lemma dist_fold_keys xs dist :
  map fst (props (fold_left dist_step xs dist)) =
    fold_left (fun acc x => if decide (x ∈ acc) then acc else acc ++ [x]) (map faixa xs)
      (map fst (props dist)).
Proof.
  revert dist. induction xs as [|a xs IH]; intros dist; simpl; [done|].
  rewrite IH. f_equal. unfold dist_step.
  apply obj_set_key_order, bucket_not_proto, faixa_bucket.
Qed.

Lemma first_occurrences_acc_elem (l acc : list string) x :
  x ∈ fold_left (fun acc x => if decide (x ∈ acc) then acc else acc ++ [x]) l acc <-> x ∈ acc \/ x ∈ l.
Proof.
  revert acc. induction l as [|y l IH]; intros acc; simpl; [set_solver|].
  rewrite IH. case_decide; set_solver.
Qed.

Lemma getNumber_range v n : getNumber v = Some n -> 0 <= n <= 999.
Proof.
  destruct v as [v|]; simpl; [|done]. destruct (String.eqb v EmptyString); [done|].
  apply first_number_bounds.
Qed.

Lemma ages_range data : Forall (fun n => 0 <= n <= 999) (ages data).
Proof.
  apply Forall_forall. intros n (d & _ & Hd)%list_elem_of_omap. by eapply getNumber_range.
Qed.

Lemma count_z_cons {A} (p : A -> bool) x xs :
  count_z p (x :: xs) = (if p x then 1 else 0) + count_z p xs.
Proof. unfold count_z. simpl. destruct (p x); simpl; lia. Qed.

Lemma sum_z_five a b c d e : sum_z [a; b; c; d; e] = a + b + c + d + e.
Proof. unfold sum_z. simpl. lia. Qed.

Lemma bar_max_ge counts : 1 <= bar_max counts /\ Forall (fun c => c <= bar_max counts) counts.
Proof.
  pose proof (fold_max_ge counts 1) as H. unfold bar_max. inversion H; subst. done.
Qed.

Lemma bar_counts_nonneg values : Forall (fun c => 0 <= c) (bar_counts values).
Proof. unfold bar_counts. repeat constructor; apply count_z_le. Qed.

(** No parsed row has the key with the trailing space. *)
Lemma expectation_counts_rows line0 lines :
  expectation_counts (map (parse_row (parse_header line0)) lines) = (0, 0, 0).
Proof.
  assert (Hget : forall r, r ∈ map (parse_row (parse_header line0)) lines ->
                   get_or_empty r key_expectations_spaced = EmptyString).
  { intros r (line & -> & _)%list_elem_of_fmap. unfold get_or_empty.
    destruct (obj_get _ _) eqn:E; [|done]. exfalso.
    assert (Hs : is_Some (obj_get (parse_row (parse_header line0) line) key_expectations_spaced)) by eauto.
    apply parse_row_defined in Hs as [Hk _]. apply parse_header_trimmed in Hk.
    by apply (trim_app_space key_expectations). }
  unfold expectation_counts. rewrite (map_ext_in _ (fun _ => to_lower EmptyString)).
  2: { intros r Hr%list_elem_of_In. by rewrite Hget. }
  unfold count_z. rewrite !filter_all_false; [done|..];
    apply Forall_forall; intros e (r & -> & _)%list_elem_of_fmap; reflexivity.
Qed.

(** ** Properties of the statistics *)

(** C15: [getNumber] returns a whole number from 0 to 999: the
    digits of its match are at most three. *)
Theorem getNumber_bounds v n : getNumber v = Some n -> 0 <= n <= 999.
Proof. apply getNumber_range. Qed.

Example getNumber_bounds_witness :
  getNumber (Some "1234 anos") = Some 123 /\ 0 <= 123 <= 999.
Proof.
  assert (H : getNumber (Some "1234 anos") = Some 123) by reflexivity.
  split; [exact H|]. exact (getNumber_bounds _ _ H).
Defined.

(** C13: the satisfaction rate is a whole percentage from 0 to 100,
    whatever the ratings. *)
Theorem satisfaction_rate_bounds rs : 0 <= satisfaction_rate rs <= 100.
Proof.
  unfold satisfaction_rate. destruct rs as [|r0 rs']; [lia|].
  set (rs := r0 :: rs'). pose proof (count_z_le (fun n => 4 <=? n) rs) as Hc.
  assert (0 < Z.of_nat (List.length rs)) by (simpl; lia).
  apply math_round_bounds.
  - apply div_double_ge; lia.
  - apply div_double_le; lia.
Qed.

(** When every rating is 4 or 5 the rate is exactly 100, the
    rounded double quotient of [100 * n / n] being 100. *)
Theorem satisfaction_rate_all rs :
  rs <> [] -> Forall (fun n => 4 <= n) rs -> satisfaction_rate rs = 100.
Proof.
  intros Hne Hall. unfold satisfaction_rate.
  rewrite count_z_all by (eapply Forall_impl; [exact Hall|]; intros n Hn; by apply Z.leb_le).
  destruct rs as [|r0 rs']; [done|].
  assert (0 < Z.of_nat (List.length (r0 :: rs'))) by (simpl; lia).
  enough (100 <= math_round (div_double (100 * Z.of_nat (List.length (r0 :: rs'))) (Z.of_nat (List.length (r0 :: rs')))) <= 100) by lia.
  apply math_round_bounds; [apply div_double_ge|apply div_double_le]; lia.
Qed.

Example satisfaction_rate_all_witness :
  [4; 5; 5] <> [] /\ Forall (fun n => 4 <= n) [4; 5; 5] /\ satisfaction_rate [4; 5; 5] = 100.
Proof.
  assert (H : Forall (fun n => 4 <= n) [4; 5; 5]) by (repeat constructor; lia).
  split; [discriminate|]. split; [exact H|]. apply satisfaction_rate_all; [discriminate|exact H].
Defined.

(** C14: the average of the ratings that [renderDashboard] displays lies
    between 1 and 5, after the rounding of the division. *)
Theorem average_rating_bounds key data :
  scores key data <> [] -> (inject_Z 1 <= average_value (scores key data) <= inject_Z 5)%Q.
Proof. intros Hne. apply average_value_bounds; [done|lia|lia|apply scores_range]. Qed.

Example average_rating_bounds_witness :
  scores key_rating [obj_of_pairs [(key_rating, "4")]; obj_of_pairs [(key_rating, "5 - Excelente")]] <> [] /\
  (inject_Z 1 <= average_value (scores key_rating [obj_of_pairs [(key_rating, "4")]; obj_of_pairs [(key_rating, "5 - Excelente")]]) <= inject_Z 5)%Q /\
  average_text (scores key_rating [obj_of_pairs [(key_rating, "4")]; obj_of_pairs [(key_rating, "5 - Excelente")]]) = "4.50".
Proof.
  assert (H : scores key_rating [obj_of_pairs [(key_rating, "4")]; obj_of_pairs [(key_rating, "5 - Excelente")]] <> [])
    by (vm_compute; discriminate).
  split; [exact H|]. split; [exact (average_rating_bounds _ _ H)|]. vm_compute. reflexivity.
Defined.

(** C36: the average age shown lies between the minimum and the maximum
    age shown. *)
Theorem age_average_between data x r :
  ages data = x :: r ->
  (inject_Z (fold_left Z.min r x) <= average_value (ages data) <= inject_Z (fold_left Z.max r x))%Q.
Proof.
  intros Ha. pose proof (ages_range data) as Hr. rewrite Ha in Hr |- *.
  pose proof (fold_min_le r x). pose proof (fold_max_ge r x).
  pose proof (fold_min_lower 0 r x ltac:(eapply Forall_impl; [exact Hr|]; simpl; lia)).
  pose proof (fold_max_upper 999 r x ltac:(eapply Forall_impl; [exact Hr|]; simpl; lia)).
  apply average_value_bounds; [done|lia|lia|].
  apply Forall_forall. intros y Hy. rewrite Forall_forall in *. split; auto.
Qed.

Example age_average_between_witness :
  ages [obj_of_pairs [(key_age, "31 anos")]; obj_of_pairs [(key_age, "55")]; obj_of_pairs [(key_age, "n/a")]] = [31; 55] /\
  (inject_Z (fold_left Z.min [55%Z] 31%Z) <= average_value (ages [obj_of_pairs [(key_age, "31 anos")]; obj_of_pairs [(key_age, "55")]; obj_of_pairs [(key_age, "n/a")]]) <= inject_Z (fold_left Z.max [55%Z] 31%Z))%Q.
Proof.
  assert (H : ages [obj_of_pairs [(key_age, "31 anos")]; obj_of_pairs [(key_age, "55")]; obj_of_pairs [(key_age, "n/a")]] = [31; 55])
    by reflexivity.
  split; [exact H|]. exact (age_average_between _ _ _ H).
Defined.

(** C16: the age badges are the buckets of the ages in the order each
    first occurs, each with the number of ages in it. *)
Theorem age_entries_spec xs :
  age_entries xs =
    map (fun f => (f, count_z (fun a => String.eqb (faixa a) f) xs)) (first_occurrences (map faixa xs)).
Proof.
  unfold age_entries, age_distribution, obj_keys.
  rewrite dist_fold_keys. fold (first_occurrences (map faixa xs)).
  rewrite order_keys_no_index.
  2: { apply Forall_forall. intros k Hk%first_occurrences_acc_elem.
       destruct Hk as [Hk|(a & -> & _)%list_elem_of_fmap]; [by apply elem_of_nil in Hk|].
       apply bucket_not_proto, faixa_bucket. }
  apply omap_some_map. intros k Hk.
  pose proof (dist_fold_get xs empty k) as Hg.
  assert (Hin : k ∈ map fst (props (fold_left dist_step xs empty))).
  { rewrite dist_fold_keys. exact Hk. }
  apply assoc_get_in in Hin as [v Hv]. unfold obj_get in Hg |- *. rewrite Hv in Hg |- *.
  simpl in Hg. unfold fmap, option_fmap, option_map. f_equal. f_equal. lia.
Qed.

(** C17: the five bars of a rating chart count every rating once: their
    counts add up to the number of ratings. *)
Theorem bar_counts_total key data :
  sum_z (bar_counts (scores key data)) = Z.of_nat (List.length (scores key data)).
Proof.
  induction (scores_range key data) as [|x xs Hx _ IH]; [reflexivity|].
  unfold bar_counts in *. cbn [map] in *. rewrite sum_z_five in *. rewrite !count_z_cons.
  simpl List.length. rewrite Nat2Z.inj_succ.
  destruct (decide (x = 1)) as [->|]; [simpl; lia|].
  destruct (decide (x = 2)) as [->|]; [simpl; lia|].
  destruct (decide (x = 3)) as [->|]; [simpl; lia|].
  destruct (decide (x = 4)) as [->|]; [simpl; lia|].
  assert (x = 5) as -> by lia. simpl. lia.
Qed.

(** Every bar of a chart is between 0 and 180 pixels high. *)
Theorem bar_heights_bounds values :
  Forall (fun h => (0 <= h <= inject_Z 180)%Q) (bar_heights values).
Proof.
  unfold bar_heights. apply Forall_forall. intros h (c & -> & Hc)%list_elem_of_fmap.
  destruct (bar_max_ge (bar_counts values)) as [H1 Hmax].
  rewrite Forall_forall in Hmax. specialize (Hmax c Hc).
  pose proof (bar_counts_nonneg values) as Hnn. rewrite Forall_forall in Hnn. specialize (Hnn c Hc).
  split; [apply (div_double_ge _ _ 0)|apply div_double_le]; lia.
Qed.

(** C4: the expectations panel counts no answer at all, for every
    CSV that [parseCSV] accepts: the code reads the key with a trailing
    space, and [parseCSV] trims every key. *)
Theorem expectation_counts_parsed text rows :
  parseCSV text = Normal rows -> expectation_counts rows = (0, 0, 0).
Proof. intros (l0 & rest & _ & ->)%parseCSV_normal. apply expectation_counts_rows. Qed.

Example expectation_counts_parsed_witness :
  parseCSV ("2. Qual sua idade?," +:+ key_expectations +:+ crlf +:+ "31,Sim") =
    Normal [parse_row ["2. Qual sua idade?"; key_expectations] "31,Sim"] /\
  expectation_counts [parse_row ["2. Qual sua idade?"; key_expectations] "31,Sim"] = (0, 0, 0).
Proof.
  assert (H : parseCSV ("2. Qual sua idade?," +:+ key_expectations +:+ crlf +:+ "31,Sim") =
                Normal [parse_row ["2. Qual sua idade?"; key_expectations] "31,Sim"]) by (vm_compute; reflexivity).
  split; [exact H|]. exact (expectation_counts_parsed _ _ H).
Defined.

Lemma Forall2_normal_map {A B} (f : A -> completion B) (g : A -> B) l ys :
  (forall x y, f x = Normal y -> y = g x) -> Forall2 (fun x y => f x = Normal y) l ys -> ys = map g l.
Proof. intros Hfg. induction 1; simpl; [done|]. f_equal; [by apply Hfg|done]. Qed.

Lemma length_omap {A B} (g : A -> option B) l :
  List.length (omap g l) = List.length (List.filter (fun x => bool_decide (is_Some (g x))) l).
Proof.
  induction l as [|x l IH]; [done|]. simpl. destruct (g x) as [y|].
  - rewrite bool_decide_true by eauto. simpl. f_equal. exact IH.
  - rewrite bool_decide_false by (by intros [? ?]). exact IH.
Qed.

Lemma omap_id_map {A B} (g : A -> option B) l : omap (fun x => x) (map g l) = omap g l.
Proof. induction l as [|x l IH]; [done|]. simpl. destruct (g x); [f_equal|]; exact IH. Qed.

(** The dates of a successful [renderDashboard]: every row has a
    timestamp, and the dates are the sorted [getDate] values. *)
Lemma dates_normal tz data ds :
  dates tz data = Normal ds ->
  ds = stable_sort time_sub_sign (omap (fun d => getDate tz (get_or_empty d key_date)) data).
Proof.
  unfold dates. destruct (c_map (row_date tz) data) as [ys|e] eqn:E; simpl; [|done].
  intros [= <-]. apply c_map_normal_inv in E.
  assert (Hfg : forall d y, row_date tz d = Normal y -> y = getDate tz (get_or_empty d key_date)).
  { intros d y. unfold row_date, get_or_empty. destruct (obj_get d key_date); [congruence|done]. }
  rewrite (Forall2_normal_map _ _ _ _ Hfg E).
  by rewrite omap_id_map.
Qed.

Lemma dates_throw tz data e :
  dates tz data = Throw e -> e = undefined_read "match" /\ exists d, d ∈ data /\ obj_get d key_date = None.
Proof.
  unfold dates. destruct (c_map (row_date tz) data) as [ys|e'] eqn:E; simpl; [done|].
  intros [= <-]. apply c_map_throw_inv in E as (d & Hd & Hthrow). unfold row_date in Hthrow.
  destruct (obj_get d key_date) eqn:Hk; [done|]. injection Hthrow as <-. eauto.
Qed.

Lemma dates_throw_iff tz data :
  (exists e, dates tz data = Throw e) <-> exists d, d ∈ data /\ obj_get d key_date = None.
Proof.
  split; [intros [e He]; by apply dates_throw in He as [_ ?]|].
  intros (d & Hd & Hnone). unfold dates.
  destruct (c_map_throw (row_date tz) data d Hd) as [e He].
  { exists (undefined_read "match"). unfold row_date. by rewrite Hnone. }
  rewrite He. eauto.
Qed.

Lemma time_sub_sign_antisym_on (P : option Z -> Prop) : antisym_on time_sub_sign P.
Proof. intros a b _ _. apply time_sub_sign_antisym. Qed.

(** Sorted valid dates are sorted time values. *)
Lemma sorted_some_le (zs : list Z) :
  Sorted (not_after time_sub_sign) (map Some zs) -> StronglySorted Z.le zs.
Proof.
  intros Hs. apply Sorted_StronglySorted; [intros ???; lia|].
  induction zs as [|z zs IH]; [constructor|]. inversion Hs as [|? ? Hs' Hhd]; subst.
  constructor; [by apply IH|]. destruct zs as [|z' zs]; constructor.
  inversion Hhd as [|? ? Hzz]; subst. unfold not_after in Hzz. simpl in Hzz.
  destruct (Z.compare_spec z z'); [lia|lia|done].
Qed.

Lemma forall_is_some_map (ds : list (option Z)) :
  Forall (fun t => is_Some t) ds -> exists zs, ds = map Some zs.
Proof.
  induction 1 as [|t ds [z ->] _ [zs ->]]; [by exists []|]. by exists (z :: zs).
Qed.

Lemma last_default_irrel {A} (z : A) zs d d' : List.last (z :: zs) d = List.last (z :: zs) d'.
Proof. revert z. induction zs as [|z' zs IH]; intros z; [done|]. apply IH. Qed.

Lemma last_map_some (zs : list Z) z0 :
  List.last (map Some (z0 :: zs)) (Some z0) = Some (List.last (z0 :: zs) z0).
Proof.
  revert z0. induction zs as [|z1 zs IH]; intros z0; [done|].
  change (List.last (Some z1 :: map Some zs) (Some z0) = Some (List.last (z1 :: zs) z0)).
  rewrite (last_default_irrel (Some z1) _ _ (Some z1)), (last_default_irrel z1 _ _ z1).
  apply IH.
Qed.

Lemma strongly_sorted_first_last (zs : list Z) z0 :
  StronglySorted Z.le (z0 :: zs) -> Forall (fun z => z0 <= z /\ z <= List.last (z0 :: zs) z0) (z0 :: zs).
Proof.
  revert z0. induction zs as [|z1 zs IH]; intros z0 Hs; [constructor; [simpl; lia|constructor]|].
  inversion Hs as [|? ? Hs1 Hall]; subst. rewrite Forall_cons in Hall. destruct Hall as [H01 Hall].
  specialize (IH z1 Hs1). change (List.last (z0 :: z1 :: zs) z0) with (List.last (z1 :: zs) z0).
  rewrite (last_default_irrel z1 zs z0 z1).
  constructor; [split; [lia|]|].
  - inversion IH as [|? ? [_ H1] _]; lia.
  - eapply Forall_impl; [exact IH|]. intros z [Hz1 Hz2]. split; [|done].
    rewrite Forall_forall in Hall. lia.
Qed.

(** ** The survey period *)

(** Two answers of the same morning. *)
Definition same_day_rows : list (obj string) :=
  [obj_of_pairs [(key_date, "2025/08/04 10:02:03 da manha GMT-3")];
   obj_of_pairs [(key_date, "2025/08/04 11:40:00 da manha GMT-3")]].

(** C18: when every timestamp holds a valid date, the period shown
    runs from the earliest to the latest date: the first and the last
    element of the sorted dates bound all of them. *)
Theorem period_bounds tz data ds p :
  dates tz data = Normal ds -> Forall (fun t => is_Some t) ds -> period_of ds = Some p ->
  Forall (fun t => time_le (period_first p) t /\ time_le t (period_last p)) ds.
Proof.
  intros Hd Hsome Hp. pose proof (dates_normal tz data ds Hd) as Eds.
  assert (Hsorted : Sorted (not_after time_sub_sign) ds).
  { rewrite Eds. apply stable_sort_sorted_on, time_sub_sign_antisym_on. }
  destruct (forall_is_some_map ds Hsome) as [zs ->].
  destruct zs as [|z0 zs]; [done|]. injection Hp as <-.
  pose proof (strongly_sorted_first_last zs z0 (sorted_some_le _ Hsorted)) as Hb.
  pose proof (last_map_some zs z0) as El. cbn [map] in El.
  apply Forall_map. cbn [period_first period_last].
  change (match map Some zs with [] => Some z0 | _ :: _ => List.last (map Some zs) (Some z0) end)
    with (List.last (Some z0 :: map Some zs) (Some z0)). rewrite El.
  eapply Forall_impl; [exact Hb|]. intros z [H1 H2]. split; [exact H1|exact H2].
Qed.

Example period_bounds_witness :
  exists t, dates 10800000 same_day_rows = Normal [Some t; Some t] /\
  Forall (fun t => is_Some t) [Some t; Some t] /\
  period_of [Some t; Some t] = Some {| period_first := Some t; period_last := Some t; period_count := 2 |} /\
  Forall (fun t' => time_le (Some t) t' /\ time_le t' (Some t)) [Some t; Some t].
Proof.
  eexists. assert (H : dates 10800000 same_day_rows = Normal [Some 1754276400000; Some 1754276400000])
    by (vm_compute; reflexivity).
  assert (Hs : Forall (fun t => is_Some t) [Some 1754276400000; Some 1754276400000])
    by (repeat constructor; eauto).
  split; [exact H|]. split; [exact Hs|]. split; [reflexivity|].
  exact (period_bounds _ _ _ {| period_first := Some 1754276400000; period_last := Some 1754276400000;
                                period_count := 2 |} H Hs eq_refl).
Defined.

(** C19: the figure shown as ["N dias de respostas"] is the number of
    responses whose timestamp holds a date, not a number of days: two
    answers of one morning count as two. *)
Theorem period_count_responses tz data ds :
  dates tz data = Normal ds ->
  Z.of_nat (List.length ds) =
    count_z (fun d => bool_decide (is_Some (getDate tz (get_or_empty d key_date)))) data.
Proof.
  intros Hd. rewrite (dates_normal tz data ds Hd). unfold count_z.
  rewrite (Permutation_length (stable_sort_perm time_sub_sign _)). by rewrite length_omap.
Qed.

Example period_count_responses_witness :
  dates 10800000 same_day_rows = Normal [Some 1754276400000; Some 1754276400000] /\
  Z.of_nat 2 = count_z (fun d => bool_decide (is_Some (getDate 10800000 (get_or_empty d key_date)))) same_day_rows /\
  period_of [Some 1754276400000; Some 1754276400000] =
    Some {| period_first := Some 1754276400000; period_last := Some 1754276400000; period_count := 2 |}.
Proof.
  assert (H : dates 10800000 same_day_rows = Normal [Some 1754276400000; Some 1754276400000])
    by (vm_compute; reflexivity).
  split; [exact H|]. split; [exact (period_count_responses _ _ _ H)|reflexivity].
Defined.

End Dashboard.
