(* ===== verification/Feedback.v ===== *)
(** * Feedback: [renderFeedbackAnalysis], [renderFeedbackList] and
    [renderInsights] (lines 302-365)

    The comment field is read in two ways: [d[key].trim()] (lines 303,
    320-322, 356), which throws a TypeError when the row has no such key,
    and [(d[key] || '').toLowerCase()] (lines 308, 315), which does not.
    The rating is [parseInt(d[key])]: [parseInt(undefined)] reads the
    string ["undefined"] and is NaN, which is neither [=== 5] nor [< 5].
    [renderFeedbackList] writes each comment with the respondent's name and
    timestamp, where a template of [undefined] prints ["undefined"].
    [renderInsights] writes four cards from the values it receives from
    [renderDashboard] ([insights]); [insight_cards] and [insights_html]
    are their titles, contents and HTML, [feedback_item_html] the HTML of
    a listed comment. *)

From stdpp Require Import base list sets strings.
From Stdlib Require Import Ascii String ZArith Lia.
From Stdlib Require QArith_base.
From S2P Require Import Spec2Rocq JsString JsObject JsNumber TableView Dashboard.
Import JsString JsObject JsNumber TableView Dashboard.

Local Open Scope Z_scope.
Local Open Scope js_scope.

Module Feedback.

(** ** Reading a row *)

(** [d['6. ...'].trim()] *)
Definition comment_trim (d : obj string) : completion string :=
  match obj_get d key_comment with
  | None => Throw (undefined_read "trim")
  | Some v => Normal (trim v)
  end.

(** A string is truthy when it is not empty. *)
Definition truthy (s : string) : bool := negb (String.eqb s EmptyString).

(** [parseInt(d['3. ...'])]: [undefined] is converted to ["undefined"]. *)
Definition nota (d : obj string) : number :=
  parse_int (match obj_get d key_rating with Some v => v | None => "undefined" end).

(** [n === k] and [n < k] for a Number [n] and an integer [k]. *)
Definition num_eq (n : number) (k : Z) : bool :=
  match n with Finite q => QArith_base.Qeq_bool q (QArith_base.inject_Z k) | _ => false end.

Definition num_lt (n : number) (k : Z) : bool :=
  match n with
  | Finite q => negb (QArith_base.Qle_bool (QArith_base.inject_Z k) q)
  | NegInf => true
  | _ => false
  end.

(** [(d['6. ...'] || '').toLowerCase()] *)
Definition comment_text (d : obj string) : string := to_lower (get_or_empty d key_comment).

Definition o_acute : ascii := "243"%char.  (* ó *)

(** Lines 306-310. *)
Definition is_positive (d : obj string) : bool :=
  let txt := comment_text d in
  num_eq (nota d) 5 &&
  (includes txt (String o_acute "timo") || includes txt "excelente" || includes txt "maravilhoso"
   || includes txt "bom" || includes txt "satisfeito").

(** Lines 313-317. *)
Definition is_suggestion (d : obj string) : bool :=
  num_lt (nota d) 5 || negb (Nat.eqb (String.length (comment_text d)) 0).

(** Lines 320-321: [parseInt(..) === k && d['6. ...'].trim()]; the trim is
    evaluated only on the rows rated [k]. *)
Definition rated_with_comment (k : Z) (d : obj string) : completion bool :=
  if num_eq (nota d) k then let! t := comment_trim d in Normal (truthy t) else Normal false.

(** Line 322. *)
Definition has_comment (d : obj string) : completion bool :=
  let! t := comment_trim d in Normal (truthy t).

(** ** [renderFeedbackList] (lines 325-334) *)

(** A template literal of a property: ["undefined"] when it is absent. *)
Definition template_of (v : option string) : string :=
  match v with Some s => s | None => "undefined" end.

Record feedback_item := { item_text : string; item_name : string; item_date : string }.

(** The parameter [list] of the source is [items] here. *)
Definition renderFeedbackList (items : list (obj string)) : list feedback_item :=
  map (fun d => {| item_text := template_of (obj_get d key_comment);
                   item_name := template_of (obj_get d key_name);
                   item_date := template_of (obj_get d key_date) |}) items.

(** ** [renderFeedbackAnalysis] (lines 302-323) *)

Record feedback := {
  totalComments : Z;
  positiveComments : Z;
  suggestionComments : Z;
  excellentFeedback : list feedback_item;
  goodFeedback : list feedback_item;
  suggestionsFeedback : list feedback_item
}.

Definition renderFeedbackAnalysis (data : list (obj string)) : completion feedback :=
  let! trimmed := c_map comment_trim data in
  let comments := List.filter truthy trimmed in
  let positive := List.filter is_positive data in
  let suggestions := List.filter is_suggestion data in
  let! excellent := c_filter (rated_with_comment 5) data in
  let! good := c_filter (rated_with_comment 4) data in
  let! listed := c_filter has_comment suggestions in
  Normal {| totalComments := Z.of_nat (List.length comments);
            positiveComments := Z.of_nat (List.length positive);
            suggestionComments := Z.of_nat (List.length suggestions);
            excellentFeedback := renderFeedbackList excellent;
            goodFeedback := renderFeedbackList good;
            suggestionsFeedback := renderFeedbackList listed |}.

(** ** [renderInsights] (lines 337-365) *)

Record insights := {
  insight_avg_rating : string;
  insight_satisfaction : Z;
  insight_avg_schedule : string;
  insight_expectations : Z * Z * Z;
  insight_suggestions : Z
}.

Definition renderInsights (data : list (obj string)) (avgRating : string) (satisfactionRate : Z)
    (avgSchedule : string) (yes partial no : Z) : completion insights :=
  let! with_text := c_filter has_comment data in
  Normal {| insight_avg_rating := avgRating; insight_satisfaction := satisfactionRate;
            insight_avg_schedule := avgSchedule; insight_expectations := (yes, partial, no);
            insight_suggestions := Z.of_nat (List.length with_text) |}.

Definition c_cedil : ascii := "231"%char.  (* ç *)
Definition o_tilde : ascii := "245"%char.  (* õ *)

(** [<span class='insight-highlight'>${s}</span>] *)
Definition highlight (s : string) : string :=
  "<span class='insight-highlight'>" +:+ s +:+ "</span>".

(** Lines 341-358: the title and the content of the four cards. *)
Definition insight_cards (ins : insights) : list (string * string) :=
  let '(yes, partial, no) := insight_expectations ins in
  [("Alta Satisfa" +:+ String c_cedil (String a_tilde " Geral"),
    "A nota m" +:+ String e_acute "dia da experi" +:+ String e_circ "ncia na UBS " +:+
    String e_acute " " +:+ highlight (insight_avg_rating ins) +:+ " e " +:+
    highlight (z_to_string (insight_satisfaction ins) +:+ "%") +:+
    " dos usu" +:+ String a_acute "rios deram nota 4 ou 5.");
   ("Hor" +:+ String a_acute "rio Corrido Bem Avaliado",
    "A nota m" +:+ String e_acute "dia para o hor" +:+ String a_acute "rio corrido " +:+
    String e_acute " " +:+ highlight (insight_avg_schedule ins) +:+ ".");
   ("Expectativas Atendidas",
    highlight (z_to_string yes) +:+ " usu" +:+
    String a_acute "rios disseram que suas expectativas foram atendidas, " +:+
    highlight (z_to_string partial) +:+ " parcialmente e " +:+
    highlight (z_to_string no) +:+ " n" +:+ String a_tilde "o.");
   ("Sugest" +:+ String o_tilde "es de Melhoria",
    "Foram registradas " +:+ highlight (z_to_string (insight_suggestions ins)) +:+
    " sugest" +:+ String o_tilde "es/coment" +:+ String a_acute "rios.")].

(** Lines 359-364: the [innerHTML] of each card, in the order they are
    appended to the grid. *)
Definition insights_html (ins : insights) : list string :=
  map (fun '(title, content) =>
         "<div class='insight-title'>" +:+ title +:+ "</div><div class='insight-content'>" +:+
         content +:+ "</div>") (insight_cards ins).

(** Line 331: the [innerHTML] of a feedback item. *)
Definition feedback_item_html (it : feedback_item) : string :=
  "<div class='feedback-text'>" +:+ String quote_char (item_text it) +:+ String quote_char
  "</div><div class='feedback-meta'><span>" +:+ item_name it +:+ "</span><span>" +:+
  item_date it +:+ "</span></div>".

(** ** Lemmas *)

Lemma includes_empty_l c r : includes EmptyString (String c r) = false.
Proof. reflexivity. Qed.

Lemma comment_trim_some d v : obj_get d key_comment = Some v -> comment_trim d = Normal (trim v).
Proof. unfold comment_trim. by intros ->. Qed.

Definition comment_of (d : obj string) : string := trim (get_or_empty d key_comment).

Lemma comment_trim_total d : is_Some (obj_get d key_comment) -> comment_trim d = Normal (comment_of d).
Proof. intros [v Hv]. unfold comment_of, get_or_empty. rewrite Hv. by apply comment_trim_some. Qed.

Lemma length_filter_map {A B} (p : B -> bool) (f : A -> B) l :
  List.length (List.filter p (map f l)) = List.length (List.filter (fun x => p (f x)) l).
Proof. induction l as [|x l IH]; simpl; [done|]. destruct (p (f x)); simpl; lia. Qed.

Lemma length_filter_mono {A} (p q : A -> bool) l :
  (forall x, p x = true -> q x = true) ->
  (List.length (List.filter p l) <= List.length (List.filter q l))%nat.
Proof.
  intros Hpq. induction l as [|x l IH]; simpl; [done|].
  destruct (p x) eqn:Hp; [rewrite (Hpq x Hp); simpl; lia|]. destruct (q x); simpl; lia.
Qed.

(** When every row has a comment field, the analysis returns, with the
    counts and lists the code computes. *)
Lemma feedback_normal data :
  (forall d, d ∈ data -> is_Some (obj_get d key_comment)) ->
  renderFeedbackAnalysis data =
    Normal {| totalComments := Z.of_nat (List.length (List.filter truthy (map comment_of data)));
              positiveComments := Z.of_nat (List.length (List.filter is_positive data));
              suggestionComments := Z.of_nat (List.length (List.filter is_suggestion data));
              excellentFeedback := renderFeedbackList
                (List.filter (fun d => num_eq (nota d) 5 && truthy (comment_of d)) data);
              goodFeedback := renderFeedbackList
                (List.filter (fun d => num_eq (nota d) 4 && truthy (comment_of d)) data);
              suggestionsFeedback := renderFeedbackList
                (List.filter (fun d => truthy (comment_of d)) (List.filter is_suggestion data)) |}.
Proof.
  intros Hall. unfold renderFeedbackAnalysis.
  rewrite (c_map_total _ comment_of) by (intros d Hd; by apply comment_trim_total, Hall). simpl.
  assert (Hk : forall k, c_filter (rated_with_comment k) data =
                 Normal (List.filter (fun d => num_eq (nota d) k && truthy (comment_of d)) data)).
  { intros k. apply c_filter_total. intros d Hd. unfold rated_with_comment.
    destruct (num_eq (nota d) k); [|done]. by rewrite comment_trim_total by auto. }
  rewrite !Hk. simpl.
  rewrite (c_filter_total _ (fun d => truthy (comment_of d))); [done|].
  intros d Hd. apply list_elem_of_In, filter_In in Hd as [Hd _]. apply list_elem_of_In in Hd.
  unfold has_comment. by rewrite comment_trim_total by auto.
Qed.

(** The analysis throws exactly when a row has no comment field. *)
Lemma feedback_throw_iff data :
  (exists e, renderFeedbackAnalysis data = Throw e) <-> exists d, d ∈ data /\ obj_get d key_comment = None.
Proof.
  split.
  - intros [e Ht]. destruct (c_map comment_trim data) as [ys|e'] eqn:E.
    + exfalso. rewrite feedback_normal in Ht; [done|]. intros d Hd.
      destruct (c_map_normal_elem _ _ _ d E Hd) as [y Hy]. unfold comment_trim in Hy.
      destruct (obj_get d key_comment); [eauto|done].
    + apply c_map_throw_inv in E as (d & Hd & Hthrow). unfold comment_trim in Hthrow.
      exists d. split; [done|]. by destruct (obj_get d key_comment).
  - intros (d & Hd & Hnone). unfold renderFeedbackAnalysis.
    destruct (c_map_throw comment_trim data d Hd) as [e He].
    { exists (undefined_read "trim"). unfold comment_trim. by rewrite Hnone. }
    rewrite He. eauto.
Qed.

Lemma positive_has_text d : is_positive d = true -> String.length (comment_text d) <> 0%nat.
Proof.
  unfold is_positive. destruct (comment_text d) as [|c r]; [|done].
  rewrite andb_true_iff. intros [_ H]. vm_compute in H. discriminate.
Qed.

Lemma positive_suggestion d : is_positive d = true -> is_suggestion d = true.
Proof.
  intros Hp%positive_has_text. unfold is_suggestion.
  apply orb_true_iff. right. apply negb_true_iff, Nat.eqb_neq, Hp.
Qed.

(** The only exception of the analysis is the TypeError of [.trim()]. *)
Lemma feedback_throw_type data e : renderFeedbackAnalysis data = Throw e -> e = undefined_read "trim".
Proof.
  intros Ht. destruct (c_map comment_trim data) as [ys|e'] eqn:E.
  - exfalso. rewrite feedback_normal in Ht; [done|]. intros d Hd.
    destruct (c_map_normal_elem _ _ _ d E Hd) as [y Hy]. unfold comment_trim in Hy.
    destruct (obj_get d key_comment); [eauto|done].
  - unfold renderFeedbackAnalysis in Ht. rewrite E in Ht. injection Ht as <-.
    apply c_map_throw_inv in E as (d & _ & Hd). unfold comment_trim in Hd.
    destruct (obj_get d key_comment); congruence.
Qed.

Lemma feedback_normal_keys data fb :
  renderFeedbackAnalysis data = Normal fb -> forall d, d ∈ data -> is_Some (obj_get d key_comment).
Proof.
  intros Hfb d Hd. destruct (obj_get d key_comment) eqn:E; [eauto|].
  destruct (proj2 (feedback_throw_iff data) (ex_intro _ d (conj Hd E))) as [e He]. congruence.
Qed.

Lemma insights_normal data avg rate sched y p n :
  (forall d, d ∈ data -> is_Some (obj_get d key_comment)) ->
  renderInsights data avg rate sched y p n =
    Normal {| insight_avg_rating := avg; insight_satisfaction := rate;
              insight_avg_schedule := sched; insight_expectations := (y, p, n);
              insight_suggestions := Z.of_nat (List.length (List.filter (fun d => truthy (comment_of d)) data)) |}.
Proof.
  intros Hall. unfold renderInsights. rewrite (c_filter_total _ (fun d => truthy (comment_of d))); [done|].
  intros d Hd. unfold has_comment. by rewrite comment_trim_total by auto.
Qed.

(** ** Properties of the feedback analysis *)

(** C20: every response counted as a positive comment is also
    counted as a suggestion: the two categories the comments of the code
    present as alternatives overlap, since any non-empty comment makes a
    suggestion. *)
Theorem positive_is_suggestion d : is_positive d = true -> is_suggestion d = true.
Proof. apply positive_suggestion. Qed.

Example positive_is_suggestion_witness :
  is_positive (obj_of_pairs [(key_rating, "5"); (key_comment, "Muito bom")]) = true /\
  is_suggestion (obj_of_pairs [(key_rating, "5"); (key_comment, "Muito bom")]) = true.
Proof.
  assert (H : is_positive (obj_of_pairs [(key_rating, "5"); (key_comment, "Muito bom")]) = true)
    by (vm_compute; reflexivity).
  split; [exact H|]. exact (positive_is_suggestion _ H).
Defined.

(** C21: the three counters of the panel are ordered: positive
    comments are at most the suggestions, which are at most the
    responses, and the comment count is at most the responses. *)
Theorem feedback_counts_ordered data fb :
  renderFeedbackAnalysis data = Normal fb ->
  (0 <= positiveComments fb <= suggestionComments fb /\
   suggestionComments fb <= Z.of_nat (List.length data) /\
   0 <= totalComments fb <= Z.of_nat (List.length data))%Z.
Proof.
  intros Hfb. rewrite feedback_normal in Hfb by (by eapply feedback_normal_keys). injection Hfb as <-. simpl.
  pose proof (length_filter_mono _ _ data positive_suggestion).
  pose proof (List.filter_length_le is_suggestion data).
  pose proof (List.filter_length_le truthy (map comment_of data)). rewrite length_map in *. lia.
Qed.

Example feedback_counts_ordered_witness :
  renderFeedbackAnalysis [obj_of_pairs [(key_rating, "5"); (key_comment, "Muito bom")];
                          obj_of_pairs [(key_rating, "3"); (key_comment, "")]] =
    Normal {| totalComments := 1%Z; positiveComments := 1; suggestionComments := 2;
              excellentFeedback := [{| item_text := "Muito bom"; item_name := "undefined"; item_date := "undefined" |}];
              goodFeedback := [];
              suggestionsFeedback := [{| item_text := "Muito bom"; item_name := "undefined"; item_date := "undefined" |}] |} /\
  (0 <= 1 <= 2 /\ 2 <= 2 /\ 0 <= 1 <= 2)%Z.
Proof.
  assert (H : renderFeedbackAnalysis [obj_of_pairs [(key_rating, "5"); (key_comment, "Muito bom")];
                          obj_of_pairs [(key_rating, "3"); (key_comment, "")]] =
    Normal {| totalComments := 1%Z; positiveComments := 1; suggestionComments := 2;
              excellentFeedback := [{| item_text := "Muito bom"; item_name := "undefined"; item_date := "undefined" |}];
              goodFeedback := [];
              suggestionsFeedback := [{| item_text := "Muito bom"; item_name := "undefined"; item_date := "undefined" |}] |})
    by (vm_compute; reflexivity).
  split; [exact H|]. exact (feedback_counts_ordered _ _ H).
Defined.

(** A comment is counted as positive only when the rating is 5
    AND the text has one of the keywords; the comment on line 305 says
    "palavras-chave ou nota 5" (keywords or rating 5). *)
Example positive_needs_both :
  is_positive (obj_of_pairs [(key_rating, "4"); (key_comment, "Atendimento " +:+ String o_acute "timo")]) = false /\
  is_positive (obj_of_pairs [(key_rating, "5"); (key_comment, "Demora na fila")]) = false /\
  is_positive (obj_of_pairs [(key_rating, "5"); (key_comment, "Atendimento " +:+ String o_acute "timo")]) = true.
Proof. vm_compute. repeat split. Qed.

(** A comment made only of white space counts as a suggestion
    ([txt.length > 0] on the untrimmed text) but is neither counted as a
    comment nor listed among the suggestions (both trim it). *)
Example blank_comment_counted :
  exists fb, renderFeedbackAnalysis [obj_of_pairs [(key_rating, "5"); (key_comment, "   ")]] = Normal fb /\
  suggestionComments fb = 1 /\ totalComments fb = 0 /\ suggestionsFeedback fb = [].
Proof. eexists. split; [vm_compute; reflexivity|]. vm_compute. repeat split. Qed.

(** C37: the number of suggestions on the fourth insight card
    ([data.filter(d => d[key].trim()).length]) is the comment count of the
    feedback panel ([data.map(d => d[key].trim()).filter(Boolean).length]). *)
Theorem insights_count_matches data fb avg rate sched y p n :
  renderFeedbackAnalysis data = Normal fb ->
  exists ins, renderInsights data avg rate sched y p n = Normal ins /\
              insight_suggestions ins = totalComments fb.
Proof.
  intros Hfb. pose proof (feedback_normal_keys data fb Hfb) as Hall.
  rewrite feedback_normal in Hfb by done. injection Hfb as <-.
  eexists. split; [by apply insights_normal|]. simpl. by rewrite length_filter_map.
Qed.

Example insights_count_matches_witness :
  renderFeedbackAnalysis [obj_of_pairs [(key_rating, "4"); (key_comment, " Mais medicos ")]] =
    Normal {| totalComments := 1; positiveComments := 0; suggestionComments := 1;
              excellentFeedback := []; goodFeedback :=
                [{| item_text := " Mais medicos "; item_name := "undefined"; item_date := "undefined" |}];
              suggestionsFeedback :=
                [{| item_text := " Mais medicos "; item_name := "undefined"; item_date := "undefined" |}] |} /\
  exists ins, renderInsights [obj_of_pairs [(key_rating, "4"); (key_comment, " Mais medicos ")]]
                "4.00" 100 "0" 0 0 0 = Normal ins /\ insight_suggestions ins = 1.
Proof.
  assert (H : renderFeedbackAnalysis [obj_of_pairs [(key_rating, "4"); (key_comment, " Mais medicos ")]] =
    Normal {| totalComments := 1; positiveComments := 0; suggestionComments := 1;
              excellentFeedback := []; goodFeedback :=
                [{| item_text := " Mais medicos "; item_name := "undefined"; item_date := "undefined" |}];
              suggestionsFeedback :=
                [{| item_text := " Mais medicos "; item_name := "undefined"; item_date := "undefined" |}] |})
    by (vm_compute; reflexivity).
  split; [exact H|]. exact (insights_count_matches _ _ "4.00" 100 "0" 0 0 0 H).
Defined.

End Feedback.
