(* ===== verification/Page.v ===== *)
(** * Page: [loadSurveyData] and [renderDashboard] (lines 34-50, 67-119)

    [renderDashboard(data)] writes the page piece by piece, in source
    order, and an exception ends it where it is raised: what was written
    before stays on the page.  The model runs it in a small writer and
    exception monad [M]: the state is the list of [widget]s written so
    far, and a computation returns a [completion].

    [loadSurveyData()] shows the loading indicator and hides the
    dashboard (opacity 0), fetches [survey.csv], parses it and renders it;
    on success it hides the indicator and shows the dashboard (opacity 1),
    on an exception it writes the error into the indicator.  The fetch is
    modelled by its outcome, a [response]: a network failure (fetch
    rejects with a TypeError) or a response with [ok], [status],
    [statusText] and the body text. *)

From stdpp Require Import base list sets strings.
From Stdlib Require Import Ascii String ZArith Lia.
From Stdlib Require QArith_base.
From S2P Require Import Spec2Rocq JsString JsObject JsNumber CsvParser TableView Sorting Dashboard Feedback.
Import JsString JsObject JsNumber CsvParser TableView Sorting Dashboard Feedback.

Local Open Scope Z_scope.

Module Page.

(** ** What [renderDashboard] writes *)

Inductive widget :=
  | TotalResponses (n : Z)                              (* line 69 *)
  | AvgRating (s : string)                              (* line 73 *)
  | SatisfactionRate (s : string)                       (* line 77 *)
  | AvgScheduleRating (s : string)                      (* line 81 *)
  | PeriodInfo (s : string)                             (* line 87 *)
  | PeriodDetail (s : string)                           (* line 88 *)
  | AgeInfo (s : string)                                (* line 95 *)
  | AgeDistribution (badges : list string)             (* line 96 *)
  | ExpectationsInfo (s : string)                       (* line 104 *)
  | ExpectationsChart (widths : list (option QArith_base.Q))  (* line 105 *)
  | BarChart (id : string) (counts : list Z) (heights : list QArith_base.Q)
             (labels : list (string * string * string))  (* lines 108-109 *)
  | Table (st : TableView.state)                        (* line 112 *)
  | FeedbackPanel (fb : feedback)                       (* line 115 *)
  | InsightsPanel (ins : insights).                     (* line 118 *)

(** ** The writer and exception monad *)

Definition M (A : Type) : Type := list widget -> list widget * completion A.

Definition ret {A} (a : A) : M A := fun w => (w, Normal a).

Definition bindM {A B} (m : M A) (k : A -> M B) : M B :=
  fun w => match m w with
           | (w', Normal a) => k a w'
           | (w', Throw e) => (w', Throw e)
           end.

Definition emit (x : widget) : M unit := fun w => (w ++ [x], Normal tt).

Definition lift {A} (c : completion A) : M A := fun w => (w, c).

(** stdpp's monad notations [x ← m; k] and [m ;; k] for [M]. *)
#[local] Instance M_ret : MRet M := @ret.
#[local] Instance M_bind : MBind M := fun A B k m => bindM m k.

(** ** [renderDashboard] (lines 67-119) *)

Definition renderDashboard (utc_offset : Z) (data : list (obj string)) : M unit :=
  emit (TotalResponses (Z.of_nat (List.length data))) ;;
  let ratings := scores key_rating data in
  let avgRating := average_text ratings in
  emit (AvgRating avgRating) ;;
  let satisfactionRate := satisfaction_rate ratings in
  emit (SatisfactionRate (z_to_string satisfactionRate +:+ "%")) ;;
  let scheduleRatings := scores key_schedule data in
  let avgSchedule := average_text scheduleRatings in
  emit (AvgScheduleRating avgSchedule) ;;
  ds ← lift (dates utc_offset data);
  match period_of ds with
  | Some p => emit (PeriodInfo (period_text utc_offset p)) ;; emit (PeriodDetail (period_detail p))
  | None => ret tt
  end ;;
  let ags := ages data in
  match ageInfo ags with
  | Some i => emit (AgeInfo (age_text i)) ;; emit (AgeDistribution (age_badges ags))
  | None => ret tt
  end ;;
  let '(yes, partial, no) := expectation_counts data in
  emit (ExpectationsInfo (expectations_text yes partial no)) ;;
  emit (ExpectationsChart (expectation_widths yes partial no)) ;;
  emit (BarChart "ubsChart" (bar_counts ratings) (bar_heights ratings) (bar_labels ratings)) ;;
  emit (BarChart "scheduleChart" (bar_counts scheduleRatings) (bar_heights scheduleRatings)
          (bar_labels scheduleRatings)) ;;
  emit (Table (setupTable data)) ;;
  fb ← lift (renderFeedbackAnalysis data);
  emit (FeedbackPanel fb) ;;
  ins ← lift (renderInsights data avgRating satisfactionRate avgSchedule yes partial no);
  emit (InsightsPanel ins).

(** ** [loadSurveyData] (lines 34-50) *)

Inductive response :=
  | NetworkFailure
  | Response (ok : bool) (status : Z) (statusText : string) (body : string).

(** Lines 40-42: the text of the response, or the exception. *)
Definition fetch_text (r : response) : completion string :=
  match r with
  | NetworkFailure => Throw (TypeError "Failed to fetch")
  | Response ok status statusText body =>
      if ok then Normal body
      else Throw (Error ("Erro HTTP " +:+ z_to_string status +:+ ": " +:+ statusText))
  end.

(** The indicator's [style.display], the error caught and the
    [innerHTML] the [catch] block writes into the indicator ([None]: not
    written), the dashboard's [style.opacity], and the widgets written. *)
Record page := {
  loading_display : string;
  loading_error : option exn;
  loading_html : option string;
  dashboard_opacity : Z;
  widgets : list widget
}.

(** Line 48: the error written into the loading indicator. *)
Definition error_html (e : exn) : string :=
  "<span style='color: #e53e3e; font-weight: bold;'>Erro ao carregar dados:<br>" +:+
  message_or_name e +:+ "</span>".

(** Lines 40-44: the [try] block, from an empty page. *)
Definition load_run (utc_offset : Z) (r : response) : list widget * completion unit :=
  (text ← lift (fetch_text r);
   data ← lift (parseCSV text);
   renderDashboard utc_offset data) [].

(** Lines 37-38, 45-46 and 48: the indicator and the dashboard around it. *)
Definition loadSurveyData (utc_offset : Z) (r : response) : page :=
  match load_run utc_offset r with
  | (ws, Normal _) => {| loading_display := "none"; loading_error := None; loading_html := None;
                         dashboard_opacity := 1; widgets := ws |}
  | (ws, Throw e) => {| loading_display := "flex"; loading_error := Some e;
                        loading_html := Some (error_html e);
                        dashboard_opacity := 0; widgets := ws |}
  end.

(** ** The writes of [renderDashboard], unrolled *)

(** Lines 69-81: the four figures written before the dates are read. *)
Definition head_widgets (data : list (obj string)) : list widget :=
  let ratings := scores key_rating data in
  [TotalResponses (Z.of_nat (List.length data)); AvgRating (average_text ratings);
   SatisfactionRate (z_to_string (satisfaction_rate ratings) +:+ "%");
   AvgScheduleRating (average_text (scores key_schedule data))].

(** Lines 84-112: what follows until the table is set up. *)
Definition body_widgets (utc_offset : Z) (data : list (obj string)) (ds : list (option Z)) : list widget :=
  let ratings := scores key_rating data in
  let scheduleRatings := scores key_schedule data in
  let '(yes, partial, no) := expectation_counts data in
  match period_of ds with
  | Some p => [PeriodInfo (period_text utc_offset p); PeriodDetail (period_detail p)]
  | None => []
  end ++
  match ageInfo (ages data) with
  | Some i => [AgeInfo (age_text i); AgeDistribution (age_badges (ages data))]
  | None => []
  end ++
  [ExpectationsInfo (expectations_text yes partial no); ExpectationsChart (expectation_widths yes partial no);
   BarChart "ubsChart" (bar_counts ratings) (bar_heights ratings) (bar_labels ratings);
   BarChart "scheduleChart" (bar_counts scheduleRatings) (bar_heights scheduleRatings)
     (bar_labels scheduleRatings);
   Table (setupTable data)].

(** ** Lemmas *)

Lemma emit_run x w : emit x w = (w ++ [x], Normal tt).
Proof. reflexivity. Qed.

Lemma bind_emit {B} x (k : unit -> M B) w : bindM (emit x) k w = k tt (w ++ [x]).
Proof. reflexivity. Qed.

Lemma bind_lift_normal {A B} (a : A) (k : A -> M B) w : bindM (lift (Normal a)) k w = k a w.
Proof. reflexivity. Qed.

Lemma bind_lift_throw {A B} e (k : A -> M B) w : bindM (lift (@Throw A e)) k w = (w, Throw e).
Proof. reflexivity. Qed.

(** [renderDashboard] writes the head, reads the dates, writes the body,
    runs the feedback analysis and the insights; the first exception ends
    it with what was written so far. *)
Lemma renderDashboard_run tz data w :
  renderDashboard tz data w =
    match dates tz data with
    | Throw e => (w ++ head_widgets data, Throw e)
    | Normal ds =>
        let w1 := w ++ head_widgets data ++ body_widgets tz data ds in
        match renderFeedbackAnalysis data with
        | Throw e => (w1, Throw e)
        | Normal fb =>
            let '(yes, partial, no) := expectation_counts data in
            match renderInsights data (average_text (scores key_rating data))
                    (satisfaction_rate (scores key_rating data))
                    (average_text (scores key_schedule data)) yes partial no with
            | Throw e => (w1 ++ [FeedbackPanel fb], Throw e)
            | Normal ins => (w1 ++ [FeedbackPanel fb; InsightsPanel ins], Normal tt)
            end
        end
    end.
Proof.
  unfold renderDashboard, head_widgets, body_widgets, mbind, M_bind.
  destruct (expectation_counts data) as [[yes partial] no].
  destruct (dates tz data) as [ds|e]; cbv [bindM emit lift ret]; [|by rewrite <- !app_assoc].
  destruct (period_of ds), (ageInfo (ages data)), (renderFeedbackAnalysis data);
    try destruct (renderInsights _ _ _ _ _ _ _); cbv beta iota; rewrite <- ?app_assoc; reflexivity.
Qed.

Lemma no_feedback_panel tz data ds fb : FeedbackPanel fb ∉ [] ++ head_widgets data ++ body_widgets tz data ds.
Proof.
  unfold head_widgets, body_widgets. destruct (expectation_counts data) as [[y p] n].
  destruct (period_of ds), (ageInfo (ages data)); simpl;
    intros Hin; repeat (apply elem_of_cons in Hin as [Hin|Hin]; [discriminate|]);
    by apply elem_of_nil in Hin.
Qed.

Lemma key_date_not_proto : key_date <> proto_key.
Proof. discriminate. Qed.

Lemma key_comment_not_proto : key_comment <> proto_key.
Proof. discriminate. Qed.

(** A parsed row misses a key other than [__proto__] exactly when the
    header does. *)
Lemma parsed_missing_key h rest k :
  k <> proto_key ->
  (exists d, d ∈ map (parse_row h) rest /\ obj_get d k = None) <-> rest <> [] /\ k ∉ h.
Proof.
  intros Hk. split.
  - intros (d & (line & -> & Hl)%list_elem_of_fmap & Hn).
    split; [by intros ->; apply elem_of_nil in Hl|]. intros Hin.
    destruct (proj2 (parse_row_defined h line k) (conj Hin Hk)) as [v Hv]. congruence.
  - intros [Hne Hn]. destruct rest as [|line rest]; [done|].
    exists (parse_row h line). split; [set_solver|].
    destruct (obj_get (parse_row h line) k) eqn:E; [|done]. exfalso.
    apply Hn. apply (proj1 (parse_row_defined h line k)). eauto.
Qed.

Lemma insights_total data fb avg rate sched y p n :
  renderFeedbackAnalysis data = Normal fb -> exists ins, renderInsights data avg rate sched y p n = Normal ins.
Proof. intros Hfb. eexists. apply insights_normal. by eapply feedback_normal_keys. Qed.

(** [renderDashboard] throws exactly when a row has no timestamp or no
    comment field. *)
Lemma renderDashboard_throw_iff tz data w :
  (exists e, snd (renderDashboard tz data w) = Throw e) <->
  exists d, d ∈ data /\ (obj_get d key_date = None \/ obj_get d key_comment = None).
Proof.
  rewrite renderDashboard_run. split.
  - destruct (dates tz data) as [ds|e] eqn:Ed.
    + destruct (renderFeedbackAnalysis data) as [fb|e] eqn:Ef.
      * destruct (expectation_counts data) as [[y p] n].
        destruct (insights_total data fb (average_text (scores key_rating data))
                    (satisfaction_rate (scores key_rating data))
                    (average_text (scores key_schedule data)) y p n Ef) as [ins ->].
        by intros [? ?].
      * intros _. destruct (proj1 (feedback_throw_iff data) (ex_intro _ e Ef)) as (d & ? & ?). eauto.
    + intros _. destruct (proj1 (dates_throw_iff tz data) (ex_intro _ e Ed)) as (d & ? & ?). eauto.
  - intros (d & Hd & [Hn|Hn]).
    + destruct (proj2 (dates_throw_iff tz data) (ex_intro _ d (conj Hd Hn))) as [e ->]. eauto.
    + destruct (dates tz data) as [ds|e]; [|eauto].
      destruct (proj2 (feedback_throw_iff data) (ex_intro _ d (conj Hd Hn))) as [e ->]. eauto.
Qed.

Lemma load_run_response tz status statusText body :
  load_run tz (Response true status statusText body) =
    match parseCSV body with
    | Normal data => renderDashboard tz data []
    | Throw e => ([], Throw e)
    end.
Proof. unfold load_run, mbind, M_bind. cbv [bindM lift fetch_text]. by destruct (parseCSV body). Qed.

Lemma loadSurveyData_error tz r :
  loading_error (loadSurveyData tz r) <> None <-> exists e, snd (load_run tz r) = Throw e.
Proof.
  unfold loadSurveyData. destruct (load_run tz r) as [ws [u|e]]; simpl; split; try done; eauto.
  by intros [? ?].
Qed.

Lemma loadSurveyData_ok tz r :
  loading_error (loadSurveyData tz r) = None -> load_run tz r = (widgets (loadSurveyData tz r), Normal tt).
Proof. unfold loadSurveyData. destruct (load_run tz r) as [ws [[]|e]]; simpl; congruence. Qed.

(** A load that shows no error read an [ok] response with a header line
    and wrote the whole page: the head, the body, the feedback panel and
    the insights. *)
Lemma load_success_shape tz r :
  loading_error (loadSurveyData tz r) = None ->
  exists status statusText body line0 rest ds fb ins,
    r = Response true status statusText body /\ nonblank_lines body = line0 :: rest /\
    let data := map (parse_row (parse_header line0)) rest in
    dates tz data = Normal ds /\ renderFeedbackAnalysis data = Normal fb /\
    widgets (loadSurveyData tz r) =
      head_widgets data ++ body_widgets tz data ds ++ [FeedbackPanel fb; InsightsPanel ins].
Proof.
  intros Hok. pose proof (loadSurveyData_ok tz r Hok) as Hrun. revert Hrun.
  generalize (widgets (loadSurveyData tz r)) as ws. intros ws Hrun.
  destruct r as [|[] status statusText body]; [done| |done].
  rewrite load_run_response in Hrun. unfold parseCSV in Hrun.
  destruct (nonblank_lines body) as [|line0 rest] eqn:Hnb; [done|].
  rewrite renderDashboard_run in Hrun.
  destruct (dates tz _) as [ds|e] eqn:Hd; [|done].
  destruct (renderFeedbackAnalysis _) as [fb|e] eqn:Hfb; [|done].
  destruct (expectation_counts _) as [[y p] n].
  destruct (renderInsights _ _ _ _ _ _ _) as [ins|e]; [|done].
  injection Hrun as <-. do 8 eexists. split; [done|]. split; [done|]. cbv zeta.
  split; [done|]. split; [done|]. reflexivity.
Qed.

(** ** Properties of loading the dashboard *)

(** C1: loading ends with the error shown exactly when the fetch
    fails, the response is not [ok], the text has no non-blank line, or
    there is a response and the header lacks the timestamp column or the
    comment column ([getDate] and [.trim()] of [undefined] throw). *)
Theorem load_error_iff tz r :
  loading_error (loadSurveyData tz r) <> None <->
  match r with
  | NetworkFailure => True
  | Response ok _ _ body =>
      ok = false \/
      match nonblank_lines body with
      | [] => True
      | line0 :: rest =>
          rest <> [] /\ (key_date ∉ parse_header line0 \/ key_comment ∉ parse_header line0)
      end
  end.
Proof.
  rewrite loadSurveyData_error. destruct r as [|ok status statusText body].
  { split; [done|]. intros _. by exists (TypeError "Failed to fetch"). }
  destruct ok; [|split; [by left|]; intros _; eexists; reflexivity].
  rewrite load_run_response. unfold parseCSV.
  destruct (nonblank_lines body) as [|line0 rest]; [split; [by right|]; eauto|].
  rewrite renderDashboard_throw_iff.
  pose proof (parsed_missing_key (parse_header line0) rest key_date key_date_not_proto) as Hd.
  pose proof (parsed_missing_key (parse_header line0) rest key_comment key_comment_not_proto) as Hc.
  split.
  - intros (d & Hin & [Hn|Hn]); right.
    + destruct (proj1 Hd (ex_intro _ d (conj Hin Hn))). tauto.
    + destruct (proj1 Hc (ex_intro _ d (conj Hin Hn))). tauto.
  - intros [|[Hne [Hn|Hn]]]; [done|..].
    + destruct (proj2 Hd (conj Hne Hn)) as (d & ? & ?). eauto.
    + destruct (proj2 Hc (conj Hne Hn)) as (d & ? & ?). eauto.
Qed.

(** C22: when the header has the timestamp but not the comment
    column, loading shows the TypeError of [.trim()] on [undefined] with
    the dashboard hidden, yet the table has been set up with the parsed
    rows, and no feedback panel has been written. *)
Theorem load_table_behind_error tz status statusText body line0 rest :
  nonblank_lines body = line0 :: rest -> rest <> [] ->
  key_date ∈ parse_header line0 -> key_comment ∉ parse_header line0 ->
  let pg := loadSurveyData tz (Response true status statusText body) in
  loading_html pg = Some "<span style='color: #e53e3e; font-weight: bold;'>Erro ao carregar dados:<br>Cannot read properties of undefined (reading 'trim')</span>" /\
  dashboard_opacity pg = 0 /\
  Table (setupTable (map (parse_row (parse_header line0)) rest)) ∈ widgets pg /\
  (forall fb, FeedbackPanel fb ∉ widgets pg).
Proof.
  intros Hnb Hne Hd Hc. cbv zeta. unfold loadSurveyData. rewrite load_run_response.
  unfold parseCSV. rewrite Hnb. set (data := map (parse_row (parse_header line0)) rest).
  rewrite renderDashboard_run.
  destruct (dates tz data) as [ds|e] eqn:Edates.
  2: { exfalso. destruct (proj1 (dates_throw_iff tz data) (ex_intro _ e Edates)) as [d Hdn].
       by destruct (proj1 (parsed_missing_key _ _ _ key_date_not_proto) (ex_intro _ d Hdn)). }
  destruct (proj2 (feedback_throw_iff data)) as [e Hfb].
  { by apply (proj2 (parsed_missing_key _ _ _ key_comment_not_proto)). }
  rewrite Hfb. pose proof (feedback_throw_type _ _ Hfb) as ->. simpl.
  split; [done|]. split; [done|]. split.
  - unfold body_widgets. destruct (expectation_counts data) as [[y p] n]. set_solver.
  - intros fb. apply no_feedback_panel.
Qed.


Example load_table_behind_error_witness :
  nonblank_lines (key_date +:+ "," +:+ key_age +:+ crlf +:+ "2025/08/04 10:02:03,31") =
    [key_date +:+ "," +:+ key_age; "2025/08/04 10:02:03,31"] /\
  ["2025/08/04 10:02:03,31"] <> [] /\
  key_date ∈ parse_header (key_date +:+ "," +:+ key_age) /\
  (key_comment ∉ parse_header (key_date +:+ "," +:+ key_age)) /\
  (let pg := loadSurveyData 10800000 (Response true 200 "OK" (key_date +:+ "," +:+ key_age +:+ crlf +:+ "2025/08/04 10:02:03,31")) in
   loading_html pg = Some "<span style='color: #e53e3e; font-weight: bold;'>Erro ao carregar dados:<br>Cannot read properties of undefined (reading 'trim')</span>" /\
  dashboard_opacity pg = 0 /\
   Table (setupTable (map (parse_row (parse_header (key_date +:+ "," +:+ key_age))) ["2025/08/04 10:02:03,31"])) ∈ widgets pg /\
   (forall fb, FeedbackPanel fb ∉ widgets pg)).
Proof.
  assert (Hnb : nonblank_lines (key_date +:+ "," +:+ key_age +:+ crlf +:+ "2025/08/04 10:02:03,31") =
                  [key_date +:+ "," +:+ key_age; "2025/08/04 10:02:03,31"]) by (vm_compute; reflexivity).
  assert (Hd : key_date ∈ parse_header (key_date +:+ "," +:+ key_age))
    by (apply (bool_decide_unpack _); vm_compute; reflexivity).
  assert (Hc : key_comment ∉ parse_header (key_date +:+ "," +:+ key_age))
    by (apply (bool_decide_unpack _); vm_compute; reflexivity).
  split; [exact Hnb|]. split; [discriminate|]. split; [exact Hd|]. split; [exact Hc|].
  exact (load_table_behind_error 10800000 200 "OK" _ _ _ Hnb ltac:(discriminate) Hd Hc).
Defined.

(** C23: a load that shows no error read an [ok] response, and the
    first figure it writes, the number of responses, is the number of
    non-blank lines of the file after the header line; the table is set
    up with the parsed rows and the insights are written last. *)
Theorem load_success_total tz r :
  loading_error (loadSurveyData tz r) = None ->
  exists status statusText body data ins,
    r = Response true status statusText body /\ parseCSV body = Normal data /\
    head (widgets (loadSurveyData tz r)) = Some (TotalResponses (Z.of_nat (List.length (nonblank_lines body)) - 1)) /\
    Table (setupTable data) ∈ widgets (loadSurveyData tz r) /\
    last (widgets (loadSurveyData tz r)) = Some (InsightsPanel ins).
Proof.
  intros (status & statusText & body & line0 & rest & ds & fb & ins & -> & Hnb & _ & _ & Hw)%load_success_shape.
  exists status, statusText, body, (map (parse_row (parse_header line0)) rest), ins.
  split; [done|]. split; [unfold parseCSV; by rewrite Hnb|]. rewrite Hw, Hnb.
  split; [simpl; rewrite length_map; do 2 f_equal; lia|]. split.
  - unfold body_widgets. destruct (expectation_counts _) as [[y p] n]. set_solver.
  - change [FeedbackPanel fb; InsightsPanel ins] with ([FeedbackPanel fb] ++ [InsightsPanel ins]).
    by rewrite !app_assoc, last_snoc.
Qed.

Example load_success_total_witness :
  loading_error (loadSurveyData 10800000 (Response true 200 "OK" (key_date +:+ "," +:+ key_comment +:+ crlf +:+ "2025/08/04 10:02:03,Nada"))) = None /\
  exists status statusText body data ins,
    Response true 200 "OK" (key_date +:+ "," +:+ key_comment +:+ crlf +:+ "2025/08/04 10:02:03,Nada") = Response true status statusText body /\
    parseCSV body = Normal data /\
    head (widgets (loadSurveyData 10800000 (Response true 200 "OK" (key_date +:+ "," +:+ key_comment +:+ crlf +:+ "2025/08/04 10:02:03,Nada")))) =
      Some (TotalResponses (Z.of_nat (List.length (nonblank_lines body)) - 1)) /\
    Table (setupTable data) ∈ widgets (loadSurveyData 10800000 (Response true 200 "OK" (key_date +:+ "," +:+ key_comment +:+ crlf +:+ "2025/08/04 10:02:03,Nada"))) /\
    last (widgets (loadSurveyData 10800000 (Response true 200 "OK" (key_date +:+ "," +:+ key_comment +:+ crlf +:+ "2025/08/04 10:02:03,Nada")))) = Some (InsightsPanel ins).
Proof.
  assert (H : loading_error (loadSurveyData 10800000 (Response true 200 "OK" (key_date +:+ "," +:+ key_comment +:+ crlf +:+ "2025/08/04 10:02:03,Nada"))) = None)
    by (vm_compute; reflexivity).
  split; [exact H|]. exact (load_success_total _ _ H).
Defined.

(** C5: on every load that shows no error the expectations
    panel reads [Sim: 0 | Parcial: 0 | Não: 0] and its three bars are
    ['0%'] wide, whatever the answers in the file. *)
Theorem load_expectations_zero tz r :
  loading_error (loadSurveyData tz r) = None ->
  ExpectationsInfo ("Sim: 0 | Parcial: 0 | N" +:+ String a_tilde "o: 0") ∈ widgets (loadSurveyData tz r) /\
  ExpectationsChart [None; None; None] ∈ widgets (loadSurveyData tz r).
Proof.
  intros (status & statusText & body & line0 & rest & ds & fb & ins & _ & _ & _ & _ & Hw)%load_success_shape.
  rewrite Hw. unfold body_widgets. rewrite expectation_counts_rows. simpl expectation_widths.
  assert (expectations_text 0 0 0 = "Sim: 0 | Parcial: 0 | N" +:+ String a_tilde "o: 0") as -> by reflexivity.
  set_solver.
Qed.

Example load_expectations_zero_witness :
  loading_error (loadSurveyData 10800000 (Response true 200 "OK" (key_date +:+ "," +:+ key_expectations +:+ "," +:+ key_comment +:+ crlf +:+ "2025/08/04 10:02:03,Sim,Nada"))) = None /\
  ExpectationsInfo ("Sim: 0 | Parcial: 0 | N" +:+ String a_tilde "o: 0") ∈ widgets (loadSurveyData 10800000 (Response true 200 "OK" (key_date +:+ "," +:+ key_expectations +:+ "," +:+ key_comment +:+ crlf +:+ "2025/08/04 10:02:03,Sim,Nada"))) /\
  ExpectationsChart [None; None; None] ∈ widgets (loadSurveyData 10800000 (Response true 200 "OK" (key_date +:+ "," +:+ key_expectations +:+ "," +:+ key_comment +:+ crlf +:+ "2025/08/04 10:02:03,Sim,Nada"))).
Proof.
  assert (H : loading_error (loadSurveyData 10800000 (Response true 200 "OK" (key_date +:+ "," +:+ key_expectations +:+ "," +:+ key_comment +:+ crlf +:+ "2025/08/04 10:02:03,Sim,Nada"))) = None)
    by (vm_compute; reflexivity).
  split; [exact H|]. exact (load_expectations_zero _ _ H).
Defined.

(** A file with two answers, the later one first: the period line shows
    the earlier date first, in the Brazilian order, and the detail counts
    two "days". *)
Example period_line_example :
  let p := loadSurveyData 10800000 (Response true 200 "OK"
             (key_date +:+ "," +:+ key_comment +:+ crlf +:+
              "2025/08/05 09:00:00,Bom" +:+ crlf +:+ "2025/08/04 10:02:03,Nada")) in
  loading_error p = None /\
  widgets p !! 4%nat = Some (PeriodInfo "04/08/2025 a 05/08/2025") /\
  widgets p !! 5%nat = Some (PeriodDetail "2 dias de respostas").
Proof. vm_compute. split; [reflexivity|]. split; reflexivity. Qed.

(** A response [404 Not Found]: the indicator stays visible and shows
    the message of the [Error] the code throws on line 41. *)
Example load_error_html_404 :
  let pg := loadSurveyData 10800000 (Response false 404 "Not Found" "") in
  loading_display pg = "flex" /\ dashboard_opacity pg = 0 /\ widgets pg = [] /\
  loading_html pg = Some "<span style='color: #e53e3e; font-weight: bold;'>Erro ao carregar dados:<br>Erro HTTP 404: Not Found</span>".
Proof. vm_compute. repeat split. Qed.

(** A file with a header line and no answer loads without error and
    shows the empty dashboard: no response, the averages ["0"], a
    satisfaction of ["0%"], neither the period nor the age lines, empty
    bars, an empty table, no comment and insights of zeros, whatever the
    columns of the header. *)
Theorem load_header_only tz status statusText body line0 :
  nonblank_lines body = [line0] ->
  let pg := loadSurveyData tz (Response true status statusText body) in
  loading_error pg = None /\ loading_display pg = "none" /\ dashboard_opacity pg = 1 /\
  widgets pg =
    [TotalResponses 0; AvgRating "0"; SatisfactionRate "0%"; AvgScheduleRating "0";
     ExpectationsInfo ("Sim: 0 | Parcial: 0 | N" +:+ String a_tilde "o: 0");
     ExpectationsChart [None; None; None];
     BarChart "ubsChart" [0; 0; 0; 0; 0] (repeat (QArith_base.inject_Z 0) 5)
       (map (fun i => ("chart-bar score-" +:+ i, "Nota " +:+ i +:+ ": 0", "0")) ["1"; "2"; "3"; "4"; "5"]);
     BarChart "scheduleChart" [0; 0; 0; 0; 0] (repeat (QArith_base.inject_Z 0) 5)
       (map (fun i => ("chart-bar score-" +:+ i, "Nota " +:+ i +:+ ": 0", "0")) ["1"; "2"; "3"; "4"; "5"]);
     Table (setupTable []);
     FeedbackPanel {| totalComments := 0; positiveComments := 0; suggestionComments := 0;
                      excellentFeedback := []; goodFeedback := []; suggestionsFeedback := [] |};
     InsightsPanel {| insight_avg_rating := "0"; insight_satisfaction := 0; insight_avg_schedule := "0";
                      insight_expectations := (0, 0, 0); insight_suggestions := 0 |}].
Proof.
  intros Hnb. cbv zeta. unfold loadSurveyData. rewrite load_run_response.
  unfold parseCSV. rewrite Hnb. cbn [map]. vm_compute. repeat split.
Qed.

Example load_header_only_witness :
  nonblank_lines (key_date +:+ "," +:+ key_comment +:+ crlf) = [key_date +:+ "," +:+ key_comment] /\
  (let pg := loadSurveyData 10800000 (Response true 200 "OK" (key_date +:+ "," +:+ key_comment +:+ crlf)) in
   loading_error pg = None /\ loading_display pg = "none" /\ dashboard_opacity pg = 1 /\
   widgets pg =
    [TotalResponses 0; AvgRating "0"; SatisfactionRate "0%"; AvgScheduleRating "0";
     ExpectationsInfo ("Sim: 0 | Parcial: 0 | N" +:+ String a_tilde "o: 0");
     ExpectationsChart [None; None; None];
     BarChart "ubsChart" [0; 0; 0; 0; 0] (repeat (QArith_base.inject_Z 0) 5)
       (map (fun i => ("chart-bar score-" +:+ i, "Nota " +:+ i +:+ ": 0", "0")) ["1"; "2"; "3"; "4"; "5"]);
     BarChart "scheduleChart" [0; 0; 0; 0; 0] (repeat (QArith_base.inject_Z 0) 5)
       (map (fun i => ("chart-bar score-" +:+ i, "Nota " +:+ i +:+ ": 0", "0")) ["1"; "2"; "3"; "4"; "5"]);
     Table (setupTable []);
     FeedbackPanel {| totalComments := 0; positiveComments := 0; suggestionComments := 0;
                      excellentFeedback := []; goodFeedback := []; suggestionsFeedback := [] |};
     InsightsPanel {| insight_avg_rating := "0"; insight_satisfaction := 0; insight_avg_schedule := "0";
                      insight_expectations := (0, 0, 0); insight_suggestions := 0 |}]).
Proof.
  assert (H : nonblank_lines (key_date +:+ "," +:+ key_comment +:+ crlf) = [key_date +:+ "," +:+ key_comment])
    by (vm_compute; reflexivity).
  split; [exact H|]. exact (load_header_only 10800000 200 "OK" _ _ H).
Defined.

End Page.
